(** * Policy managers of [maro.rl.policy.policy_manager]

    A shallow embedding of [AbsPolicyManager] and of its three
    implementations ([LocalPolicyManager], [MultiProcessPolicyManager],
    [MultiNodePolicyManager]), followed by the properties of version
    bookkeeping, trigger and warm-up thresholds, [get_state], the
    assignment of policies to trainers, the messages exchanged with the
    trainers and the post-update callback; and of the wrapper
    [MultiAgentPolicy] of [maro.rl.policy.multi_agent_policy].

    Python objects are records, methods are computations in a state and
    exception monad that also records the calls made to the outside world
    (policy [learn], pipes, endpoint, callback) as a trace of events. *)

From stdpp Require Import gmap strings list fin_maps pretty.
From Stdlib Require Import ZArith Lia.

Local Open Scope Z_scope.

(** ** Exceptions *)

(** The Python exceptions the managers can raise.  [Raised] stands for any
    exception coming out of external code (a policy's [learn]); [Blocked] is
    not an exception: it marks a blocking receive for which no reply is
    pending, after which the method never returns. *)
Inductive exn : Type :=
| ValueError (msg : string)
| KeyError (key : string)
| IndexError
| ZeroDivisionError
| Raised (what : string)
| Blocked.

#[global] Instance exn_eq_dec : EqDecision exn.
Proof. solve_decision. Defined.

(** ** Python containers *)

(** A [dict] whose iteration order is observed: an association list in
    insertion order. *)
Abbreviation pydict V := (list (string * V)).

(** [d[k]] on the right of an assignment; [None] is [KeyError]. *)
Fixpoint py_getitem {V} (k : string) (d : pydict V) : option V :=
  match d with
  | [] => None
  | (k', v) :: d' => if decide (k' = k) then Some v else py_getitem k d'
  end.

(** [d[k] = v]: replaces in place, a new key goes last. *)
Fixpoint py_setitem {V} (k : string) (v : V) (d : pydict V) : pydict V :=
  match d with
  | [] => [(k, v)]
  | (k', v') :: d' =>
      if decide (k' = k) then (k, v) :: d' else (k', v') :: py_setitem k v d'
  end.

(** [d.keys()] in iteration order. *)
Definition py_keys {V} (d : pydict V) : list string := d.*1.

(** [range(lo, hi)]. *)
Definition py_range (lo hi : Z) : list Z := seqZ lo (hi - lo).

(** [l[i]] for a list, with Python's negative indices; [None] is
    [IndexError]. *)
Definition py_index {A} (l : list A) (i : Z) : option A :=
  if decide (0 <= i) then l !! Z.to_nat i
  else if decide (- Z.of_nat (length l) <= i) then l !! Z.to_nat (Z.of_nat (length l) + i)
  else None.

(** ** The policy interface *)

(** Modelled from the spec: [AbsCorePolicy] ([maro.rl.policy]) and
    [ExperienceSet] ([maro.rl.experience]) are imported by the managers but
    defined elsewhere.  The managers use a policy only through
    [experience_store.put], [experience_store.size], [learn], [get_state],
    [set_state] and [tracker]; a policy is a mutable object, so each method
    returns the object after the call.  [learn] may raise. *)
Class AbsCorePolicy : Type := {
  Policy : Type;
  PolicyState : Type;
  Tracker : Type;
  Transition : Type;
  experience_store_put : Policy → list Transition → Policy;
  experience_store_size : Policy → Z;
  learn : Policy → exn + Policy;
  policy_get_state : Policy → PolicyState;
  policy_set_state : Policy → PolicyState → Policy;
  policy_tracker : Policy → Tracker
}.

(** Modelled from the spec: the experience store accumulates what it is
    given ([put] adds the batch, [learn] reads it and returns). *)
Class AccumulatingStore (PI : AbsCorePolicy) : Prop := {
  size_put : ∀ p exp,
    experience_store_size (experience_store_put p exp)
    = experience_store_size p + Z.of_nat (length exp);
  learn_returns : ∀ p, ∃ p', learn p = inr p' ∧ experience_store_size p' = experience_store_size p
}.

Section Embedding.
Context {PI : AbsCorePolicy}.

(** Modelled from the spec: an [ExperienceSet] is an ordered sequence of
    transition records with a [size] and an order-preserving [extend]. *)
Definition ExperienceSet : Type := list Transition.

Definition size (exp : ExperienceSet) : Z := Z.of_nat (length exp).

Definition extend (cache exp : ExperienceSet) : ExperienceSet := cache ++ exp.

(** A value of the [policy_dict] handed to a constructor: an
    [AbsCorePolicy] instance or any other object. *)
Inductive pyobj : Type :=
| Core (p : Policy)
| Foreign (repr : string).

(** Messages to trainers: the dictionaries sent over a pipe by the
    multi-process manager ([train], [quit]) and the [MsgTag] messages sent
    through the endpoint by the multi-node manager. *)
Inductive message : Type :=
| MsgTrain (experiences : pydict ExperienceSet)
| MsgQuit
| MsgInitPolicyState (policy_state : pydict PolicyState)
| MsgLearn (experiences : pydict ExperienceSet)
| MsgExit.

(** A trainer's answer to a training request. *)
Record reply : Type := Reply {
  reply_tracker : Tracker;
  reply_policy : pydict PolicyState
}.

(** Calls to the outside world, in the order they are made. *)
Inductive event : Type :=
| EvLearn (name : string) (raised : option exn)
| EvPostUpdate (trackers : list Tracker)
| EvStart (trainer_id : string) (policy_names : list string) (states : pydict PolicyState)
| EvSend (trainer_id : string) (msg : message)
| EvRecv (r : reply)
| EvAck (trainer_id : string)
| EvClose.

(** ** The method monad: state, exceptions, trace *)

Definition M (S A : Type) : Type := S → (exn + A) * S * list event.

Definition ret {S A} (a : A) : M S A := λ s, (inr a, s, []).

Definition raise {S A} (e : exn) : M S A := λ s, (inl e, s, []).

Definition bind {S A B} (c : M S A) (k : A → M S B) : M S B := λ s,
  match c s with
  | (inl e, s', tr) => (inl e, s', tr)
  | (inr a, s', tr) =>
      match k a s' with
      | (r, s'', tr') => (r, s'', tr ++ tr')
      end
  end.

Definition gets {S A} (f : S → A) : M S A := λ s, (inr (f s), s, []).

Definition modify {S} (f : S → S) : M S unit := λ s, (inr tt, f s, []).

Definition emit {S} (ev : event) : M S unit := λ s, (inr tt, s, [ev]).

(** [None] raises the given exception. *)
Definition orraise {S A} (e : exn) (o : option A) : M S A :=
  match o with
  | Some a => ret a
  | None => raise e
  end.

(** Runs a method of a base class (or of a component) on the part of the
    object it belongs to. *)
Definition zoom {S T A} (get : T → S) (set : S → T → T) (c : M S A) : M T A := λ t,
  match c (get t) with
  | (r, s', tr) => (r, set s' t, tr)
  end.

End Embedding.

Notation "'let*' x ':=' c 'in' k" := (bind c (λ x, k))
  (at level 10, x pattern, c at level 100, k at level 200).
Notation "c ';;;' k" := (bind c (λ _, k))
  (at level 100, k at level 200, right associativity).

Section Loops.
Context {PI : AbsCorePolicy}.

(** A [for] loop that threads its local variables. *)
Fixpoint foldM {S A B} (body : B → A → M S B) (b : B) (l : list A) : M S B :=
  match l with
  | [] => ret b
  | a :: l' => let* b' := body b a in foldM body b' l'
  end.

Definition result {S A} (out : (exn + A) * S * list event) : exn + A := out.1.1.
Definition state {S A} (out : (exn + A) * S * list event) : S := out.1.2.
Definition trace {S A} (out : (exn + A) * S * list event) : list event := out.2.

End Loops.

(** ** [AbsPolicyManager] *)

Module AbsPolicyManager.
Section Methods.
Context {PI : AbsCorePolicy}.

(** The attributes set by [__init__].  [_post_update] records whether a
    callback was given (the callback itself is the caller's code); the
    logger and the unused [tracker] dictionary are left out. *)
Record t : Type := Build {
  policy_dict : pydict Policy;
  update_trigger : gmap string Z;
  warmup : gmap string Z;
  _post_update : bool;
  _update_history : list (gset string)
}.

(** The [isinstance] loop at the head of [__init__]. *)
Fixpoint check_policies (policy_dict : pydict pyobj) : exn + pydict Policy :=
  match policy_dict with
  | [] => inr []
  | (name, Core p) :: rest =>
      match check_policies rest with
      | inr ps => inr ((name, p) :: ps)
      | inl e => inl e
      end
  | (_, Foreign _) :: _ =>
      inl (ValueError "Only 'AbsCorePolicy' instances can be managed by a policy manager.")
  end.

(** [{name: 1 for name in self.policy_dict}] *)
Definition all_ones (policy_dict : pydict Policy) : gmap string Z :=
  list_to_map ((λ name, (name, 1)) <$> py_keys policy_dict).

(** [x if x else default]: [None] and the empty dictionary are falsy. *)
Definition or_default (x : option (gmap string Z)) (default : gmap string Z) : gmap string Z :=
  match x with
  | Some d => if decide (d = ∅) then default else d
  | None => default
  end.

Definition __init__ (policy_dict : pydict pyobj) (update_trigger warmup : option (gmap string Z))
    (post_update : bool) : exn + t :=
  match check_policies policy_dict with
  | inl e => inl e
  | inr ps =>
      inr {| policy_dict := ps;
             update_trigger := or_default update_trigger (all_ones ps);
             warmup := or_default warmup (all_ones ps);
             _post_update := post_update;
             _update_history := [list_to_set (py_keys ps)] |}
  end.

(** The [version] property. *)
Definition version (self : t) : Z := Z.of_nat (length (_update_history self)) - 1.

(** [self.policy_dict[name]] *)
Definition policy_of (name : string) : M t Policy :=
  let* d := gets policy_dict in orraise (KeyError name) (py_getitem name d).

(** [self._update_history[version]] *)
Definition history_at (version : Z) : M t (gset string) :=
  let* h := gets _update_history in orraise IndexError (py_index h version).

Definition get_state (cur_version : option Z) : M t (gmap string PolicyState) :=
  let* cur_version :=
    match cur_version with
    | None => let* v := gets version in ret (v - 1)
    | Some v => ret v
    end in
  let* len := gets (λ self, Z.of_nat (length (_update_history self))) in
  let* updated :=
    foldM (λ updated version, let* s := history_at version in ret (updated ∪ s))
          (∅ : gset string) (py_range (cur_version + 1) len) in
  foldM (λ d name, let* policy := policy_of name in ret (<[name := policy_get_state policy]> d))
        (∅ : gmap string PolicyState) (elements updated).

End Methods.
End AbsPolicyManager.

(** ** [LocalPolicyManager] *)

Module LocalPolicyManager.
Section Methods.
Context {PI : AbsCorePolicy}.

(** The inherited attributes and the [defaultdict(int)] of new
    experiences. *)
Record t : Type := Build {
  base : AbsPolicyManager.t;
  _new_exp_counter : gmap string Z
}.

Definition set_base (b : AbsPolicyManager.t) (self : t) : t :=
  {| base := b; _new_exp_counter := _new_exp_counter self |}.

Definition set_policy_dict (d : pydict Policy) (self : t) : t :=
  set_base {| AbsPolicyManager.policy_dict := d;
              AbsPolicyManager.update_trigger := AbsPolicyManager.update_trigger (base self);
              AbsPolicyManager.warmup := AbsPolicyManager.warmup (base self);
              AbsPolicyManager._post_update := AbsPolicyManager._post_update (base self);
              AbsPolicyManager._update_history := AbsPolicyManager._update_history (base self) |} self.

Definition set_update_history (h : list (gset string)) (self : t) : t :=
  set_base {| AbsPolicyManager.policy_dict := AbsPolicyManager.policy_dict (base self);
              AbsPolicyManager.update_trigger := AbsPolicyManager.update_trigger (base self);
              AbsPolicyManager.warmup := AbsPolicyManager.warmup (base self);
              AbsPolicyManager._post_update := AbsPolicyManager._post_update (base self);
              AbsPolicyManager._update_history := h |} self.

Definition set_new_exp_counter (c : gmap string Z) (self : t) : t :=
  {| base := base self; _new_exp_counter := c |}.

Definition __init__ (policy_dict : pydict pyobj) (update_trigger warmup : option (gmap string Z))
    (post_update : bool) : exn + t :=
  match AbsPolicyManager.__init__ policy_dict update_trigger warmup post_update with
  | inl e => inl e
  | inr b => inr {| base := b; _new_exp_counter := ∅ |}
  end.

Definition version (self : t) : Z := AbsPolicyManager.version (base self).

Definition get_state (cur_version : option Z) : M t (gmap string PolicyState) :=
  zoom base set_base (AbsPolicyManager.get_state cur_version).

(** The object under [self.policy_dict[name]] after one of its methods has
    changed it. *)
Definition store_policy (name : string) (p : Policy) : M t unit :=
  modify (λ self, set_policy_dict (py_setitem name p (AbsPolicyManager.policy_dict (base self))) self).

(** [policy.learn()] *)
Definition call_learn (name : string) (p : Policy) : M t Policy :=
  match learn p with
  | inl e => emit (EvLearn name (Some e));;; raise e
  | inr p' => emit (EvLearn name None);;; ret p'
  end.

(** The body of the loop over [exp_by_policy.items()]; [updated] is the
    local set of the policies updated so far. *)
Definition update_policy (updated : gset string) (item : string * ExperienceSet) : M t (gset string) :=
  let policy_name := item.1 in
  let exp := item.2 in
  let* policy := zoom base set_base (AbsPolicyManager.policy_of policy_name) in
  let policy := experience_store_put policy exp in
  store_policy policy_name policy;;;
  let* counter := gets _new_exp_counter in
  let new_exp := default 0 (counter !! policy_name) + size exp in
  modify (set_new_exp_counter (<[policy_name := new_exp]> counter));;;
  let* trigger := let* d := gets (λ self, AbsPolicyManager.update_trigger (base self)) in
                  orraise (KeyError policy_name) (d !! policy_name) in
  let* due :=
    if bool_decide (trigger <= new_exp) then
      let* warmup := let* d := gets (λ self, AbsPolicyManager.warmup (base self)) in
                     orraise (KeyError policy_name) (d !! policy_name) in
      ret (bool_decide (warmup <= experience_store_size policy))
    else ret false in
  if due then
    let* policy := call_learn policy_name policy in
    store_policy policy_name policy;;;
    let* counter := gets _new_exp_counter in
    modify (set_new_exp_counter (<[policy_name := 0]> counter));;;
    ret (updated ∪ {[policy_name]})
  else ret updated.

Definition update (exp_by_policy : pydict ExperienceSet) : M t unit :=
  let* updated := foldM update_policy ∅ exp_by_policy in
  (if decide (updated = ∅) then ret tt
   else modify (λ self, set_update_history
                  (AbsPolicyManager._update_history (base self) ++ [updated]) self));;;
  let* post_update := gets (λ self, AbsPolicyManager._post_update (base self)) in
  if (post_update : bool) then
    let* policies := gets (λ self, AbsPolicyManager.policy_dict (base self)) in
    emit (EvPostUpdate (policy_tracker <$> policies.*2))
  else ret tt.

(** A caller making one [update] call per element of [rounds], going on
    after a call that raised; returns the manager and what each call did. *)
Fixpoint update_rounds (rounds : list (pydict ExperienceSet)) (self : t)
    : t * list ((exn + unit) * list event) :=
  match rounds with
  | [] => (self, [])
  | exp_by_policy :: rest =>
      match update exp_by_policy self with
      | (r, self', tr) =>
          match update_rounds rest self' with
          | (self'', outs) => (self'', (r, tr) :: outs)
          end
      end
  end.

End Methods.
End LocalPolicyManager.

(** ** What the two distributed managers have in common *)

Section Dispatch.
Context {PI : AbsCorePolicy}.

(** [d[k].append(x)] on a [defaultdict(list)]. *)
Fixpoint py_append (k x : string) (d : pydict (list string)) : pydict (list string) :=
  match d with
  | [] => [(k, [x])]
  | (k', xs) :: d' =>
      if decide (k' = k) then (k, xs ++ [x]) :: d' else (k', xs) :: py_append k x d'
  end.

(** Reading [d[k]] on a [defaultdict(list)] enters a missing key. *)
Definition py_touch (k : string) (d : pydict (list string)) : pydict (list string) :=
  match py_getitem k d with
  | Some _ => d
  | None => d ++ [(k, [])]
  end.

(** [f"TRAINER.{trainer_id}"] *)
Definition trainer_name (trainer_id : Z) : string := "TRAINER." +:+ pretty trainer_id.

(** The identifiers [TRAINER.0], ..., [TRAINER.(num_trainers - 1)]. *)
Definition trainer_pool (num_trainers : Z) : list string := trainer_name <$> seqZ 0 num_trainers.

(** [{name: exp_to_send[name] for name in policy_names}] *)
Definition experiences_for {S} (exp_to_send : gmap string ExperienceSet) (policy_names : list string)
    : M S (pydict ExperienceSet) :=
  foldM (λ d name, let* exp := orraise (KeyError name) (exp_to_send !! name) in
                   ret (py_setitem name exp d))
        [] policy_names.

(** [{name: policy_dict[name].get_state() for name in policy_names}] *)
Definition states_for {S} (policy_dict : pydict Policy) (policy_names : list string)
    : M S (pydict PolicyState) :=
  foldM (λ d name, let* policy := orraise (KeyError name) (py_getitem name policy_dict) in
                   ret (py_setitem name (policy_get_state policy) d))
        [] policy_names.

End Dispatch.

(** ** [MultiProcessPolicyManager] *)

Module MultiProcessPolicyManager.
Section Methods.
Context {PI : AbsCorePolicy}.

(** A pipe end is named by the trainer it leads to, so [_manager_end] is
    the list of its keys; the started processes are the [EvStart] events. *)
Record t : Type := Build {
  base : AbsPolicyManager.t;
  _policy2trainer : gmap string string;
  _trainer2policies : pydict (list string);
  _exp_cache : gmap string ExperienceSet;
  _num_experiences_by_policy : gmap string Z;
  _manager_end : list string
}.

Definition set_base (b : AbsPolicyManager.t) (self : t) : t :=
  Build b (_policy2trainer self) (_trainer2policies self) (_exp_cache self)
        (_num_experiences_by_policy self) (_manager_end self).

Definition set_policy_dict (d : pydict Policy) (self : t) : t :=
  set_base (AbsPolicyManager.Build d (AbsPolicyManager.update_trigger (base self))
              (AbsPolicyManager.warmup (base self)) (AbsPolicyManager._post_update (base self))
              (AbsPolicyManager._update_history (base self))) self.

Definition set_update_history (h : list (gset string)) (self : t) : t :=
  set_base (AbsPolicyManager.Build (AbsPolicyManager.policy_dict (base self))
              (AbsPolicyManager.update_trigger (base self)) (AbsPolicyManager.warmup (base self))
              (AbsPolicyManager._post_update (base self)) h) self.

Definition set_policy2trainer (x : gmap string string) (self : t) : t :=
  Build (base self) x (_trainer2policies self) (_exp_cache self)
        (_num_experiences_by_policy self) (_manager_end self).

Definition set_trainer2policies (x : pydict (list string)) (self : t) : t :=
  Build (base self) (_policy2trainer self) x (_exp_cache self)
        (_num_experiences_by_policy self) (_manager_end self).

Definition set_exp_cache (x : gmap string ExperienceSet) (self : t) : t :=
  Build (base self) (_policy2trainer self) (_trainer2policies self) x
        (_num_experiences_by_policy self) (_manager_end self).

Definition set_num_experiences_by_policy (x : gmap string Z) (self : t) : t :=
  Build (base self) (_policy2trainer self) (_trainer2policies self) (_exp_cache self)
        x (_manager_end self).

Definition set_manager_end (x : list string) (self : t) : t :=
  Build (base self) (_policy2trainer self) (_trainer2policies self) (_exp_cache self)
        (_num_experiences_by_policy self) x.

(** The loop over [enumerate(self.policy_dict)]; the local variable is
    [i]. *)
Definition assign_trainer (num_trainers : Z) (i : Z) (name : string) : M t Z :=
  if decide (num_trainers = 0) then raise ZeroDivisionError
  else
    let trainer_id := i `mod` num_trainers in
    modify (λ self, set_policy2trainer (<[name := trainer_name trainer_id]> (_policy2trainer self)) self);;;
    modify (λ self, set_trainer2policies
                      (py_append (trainer_name trainer_id) name (_trainer2policies self)) self);;;
    ret (i + 1).

(** The loop over [self._trainer2policies.items()] that opens a pipe and
    starts a process per trainer. *)
Definition start_trainer (create_policy_func_dict : gset string) (_ : unit)
    (item : string * list string) : M t unit :=
  let trainer_id := item.1 in
  let policy_names := item.2 in
  modify (λ self, set_manager_end (_manager_end self ++ [trainer_id]) self);;;
  foldM (λ _ name, if decide (name ∈ create_policy_func_dict) then ret tt else raise (KeyError name))
        tt policy_names;;;
  modify (λ self, set_trainer2policies (py_touch trainer_id (_trainer2policies self)) self);;;
  let* names := gets (λ self, default [] (py_getitem trainer_id (_trainer2policies self))) in
  let* policies := gets (λ self, AbsPolicyManager.policy_dict (base self)) in
  let* states := states_for policies names in
  emit (EvStart trainer_id policy_names states).

Definition init_trainers (num_trainers : Z) (create_policy_func_dict : gset string) : M t unit :=
  let* names := gets (λ self, py_keys (AbsPolicyManager.policy_dict (base self))) in
  foldM (assign_trainer num_trainers) 0 names;;;
  let* trainers := gets _trainer2policies in
  foldM (start_trainer create_policy_func_dict) tt trainers.

(** [create_policy_func_dict] is given by its keys: the functions run in
    the trainer processes. *)
Definition __init__ (policy_dict : pydict pyobj) (num_trainers : Z)
    (create_policy_func_dict : gset string)
    (update_trigger warmup : option (gmap string Z)) (post_update : bool)
    : (exn + t) * list event :=
  match AbsPolicyManager.__init__ policy_dict update_trigger warmup post_update with
  | inl e => (inl e, [])
  | inr b =>
      match init_trainers num_trainers create_policy_func_dict (Build b ∅ [] ∅ ∅ []) with
      | (inl e, _, tr) => (inl e, tr)
      | (inr _, self, tr) => (inr self, tr)
      end
  end.

Definition version (self : t) : Z := AbsPolicyManager.version (base self).

Definition get_state (cur_version : option Z) : M t (gmap string PolicyState) :=
  zoom base set_base (AbsPolicyManager.get_state cur_version).

(** The body of the first loop of [update]; the local variables are
    [exp_to_send] and [updated]. *)
Definition cache_experience (acc : gmap string ExperienceSet * gset string)
    (item : string * ExperienceSet) : M t (gmap string ExperienceSet * gset string) :=
  let policy_name := item.1 in
  let exp := item.2 in
  let* num := gets _num_experiences_by_policy in
  let total := default 0 (num !! policy_name) + size exp in
  modify (set_num_experiences_by_policy (<[policy_name := total]> num));;;
  let* cache := gets _exp_cache in
  let cached := extend (default [] (cache !! policy_name)) exp in
  modify (set_exp_cache (<[policy_name := cached]> cache));;;
  let* trigger := let* d := gets (λ self, AbsPolicyManager.update_trigger (base self)) in
                  orraise (KeyError policy_name) (d !! policy_name) in
  let* due :=
    if bool_decide (trigger <= size cached) then
      let* warmup := let* d := gets (λ self, AbsPolicyManager.warmup (base self)) in
                     orraise (KeyError policy_name) (d !! policy_name) in
      ret (bool_decide (warmup <= total))
    else ret false in
  if due then
    modify (λ self, set_exp_cache (delete policy_name (_exp_cache self)) self);;;
    ret (<[policy_name := cached]> acc.1, acc.2 ∪ {[policy_name]})
  else ret acc.

(** The body of the loop that sends a [train] message down each pipe. *)
Definition send_train (exp_to_send : gmap string ExperienceSet) (_ : unit) (trainer_id : string)
    : M t unit :=
  modify (λ self, set_trainer2policies (py_touch trainer_id (_trainer2policies self)) self);;;
  let* names := gets (λ self, default [] (py_getitem trainer_id (_trainer2policies self))) in
  let* experiences := experiences_for exp_to_send names in
  emit (EvSend trainer_id (MsgTrain experiences)).

(** [self.policy_dict[policy_name].set_state(policy_state)] *)
Definition set_policy_state (_ : unit) (item : string * PolicyState) : M t unit :=
  let* policy := zoom base set_base (AbsPolicyManager.policy_of item.1) in
  modify (λ self, set_policy_dict
            (py_setitem item.1 (policy_set_state policy item.2)
               (AbsPolicyManager.policy_dict (base self))) self).

(** The body of the loop that receives each trainer's answer; the local
    variable is [trackers], [pending] are the answers not yet read. *)
Definition recv_result (acc : list Tracker * list reply) (_ : string)
    : M t (list Tracker * list reply) :=
  match acc.2 with
  | [] => raise Blocked
  | r :: pending =>
      emit (EvRecv r);;;
      foldM set_policy_state tt (reply_policy r);;;
      ret (acc.1 ++ [reply_tracker r], pending)
  end.

(** [replies] are the answers of the trainers, in the order in which
    [recv] returns them. *)
Definition update (exp_by_policy : pydict ExperienceSet) (replies : list reply) : M t unit :=
  let* sent := foldM cache_experience (∅, ∅) exp_by_policy in
  let exp_to_send := sent.1 in
  let updated := sent.2 in
  let* ends := gets _manager_end in
  foldM (send_train exp_to_send) tt ends;;;
  let* ends := gets _manager_end in
  let* received := foldM recv_result ([], replies) ends in
  (if decide (updated = ∅) then ret tt
   else modify (λ self, set_update_history
                  (AbsPolicyManager._update_history (base self) ++ [updated]) self));;;
  let* post_update := gets (λ self, AbsPolicyManager._post_update (base self)) in
  if (post_update : bool) then emit (EvPostUpdate received.1) else ret tt.

(** Tell the trainer processes to exit. *)
Definition exit : M t unit :=
  let* ends := gets _manager_end in
  foldM (λ _ trainer_id, emit (EvSend trainer_id MsgQuit)) tt ends.

End Methods.
End MultiProcessPolicyManager.

(** ** [MultiNodePolicyManager] *)

Module MultiNodePolicyManager.
Section Methods.
Context {PI : AbsCorePolicy}.

(** Modelled from the spec: [ManagerEndpoint] ([maro.communication]) is
    an abstract message endpoint with [send], [receive] and a list
    [workers] of trainer identifiers; [_workers] is that list. *)
Record t : Type := Build {
  base : AbsPolicyManager.t;
  _workers : list string;
  _num_trainers : Z;
  _exp_cache : gmap string ExperienceSet;
  _num_experiences_by_policy : gmap string Z;
  _policy2trainer : gmap string string;
  _trainer2policies : pydict (list string)
}.

Definition set_base (b : AbsPolicyManager.t) (self : t) : t :=
  Build b (_workers self) (_num_trainers self) (_exp_cache self)
        (_num_experiences_by_policy self) (_policy2trainer self) (_trainer2policies self).

Definition set_policy_dict (d : pydict Policy) (self : t) : t :=
  set_base (AbsPolicyManager.Build d (AbsPolicyManager.update_trigger (base self))
              (AbsPolicyManager.warmup (base self)) (AbsPolicyManager._post_update (base self))
              (AbsPolicyManager._update_history (base self))) self.

Definition set_update_history (h : list (gset string)) (self : t) : t :=
  set_base (AbsPolicyManager.Build (AbsPolicyManager.policy_dict (base self))
              (AbsPolicyManager.update_trigger (base self)) (AbsPolicyManager.warmup (base self))
              (AbsPolicyManager._post_update (base self)) h) self.

Definition set_exp_cache (x : gmap string ExperienceSet) (self : t) : t :=
  Build (base self) (_workers self) (_num_trainers self) x
        (_num_experiences_by_policy self) (_policy2trainer self) (_trainer2policies self).

Definition set_num_experiences_by_policy (x : gmap string Z) (self : t) : t :=
  Build (base self) (_workers self) (_num_trainers self) (_exp_cache self)
        x (_policy2trainer self) (_trainer2policies self).

Definition set_policy2trainer (x : gmap string string) (self : t) : t :=
  Build (base self) (_workers self) (_num_trainers self) (_exp_cache self)
        (_num_experiences_by_policy self) x (_trainer2policies self).

Definition set_trainer2policies (x : pydict (list string)) (self : t) : t :=
  Build (base self) (_workers self) (_num_trainers self) (_exp_cache self)
        (_num_experiences_by_policy self) (_policy2trainer self) x.

(** The round-robin loop over [self.policy_dict]; the local variable is
    [trainer_idx]. *)
Definition assign_trainer (num_trainers : Z) (trainer_idx : Z) (name : string) : M t Z :=
  let* trainer_id := let* workers := gets _workers in
                     orraise IndexError (py_index workers trainer_idx) in
  modify (λ self, set_policy2trainer (<[name := trainer_id]> (_policy2trainer self)) self);;;
  modify (λ self, set_trainer2policies (py_append trainer_id name (_trainer2policies self)) self);;;
  if decide (num_trainers = 0) then raise ZeroDivisionError
  else ret ((trainer_idx + 1) `mod` num_trainers).

(** The loop that sends every trainer the state of its policies. *)
Definition send_init (_ : unit) (item : string * list string) : M t unit :=
  let* policies := gets (λ self, AbsPolicyManager.policy_dict (base self)) in
  let* policy_state := states_for policies item.2 in
  emit (EvSend item.1 (MsgInitPolicyState policy_state)).

(** The loop that waits for the trainers' acknowledgements; [pending] are
    the senders of the messages not yet received.  Logging
    [self._trainer2policies[trainer_id]] reads the [defaultdict]. *)
Definition recv_ack (pending : list string) (_ : string * list string) : M t (list string) :=
  match pending with
  | [] => raise Blocked
  | trainer_id :: pending' =>
      emit (EvAck trainer_id);;;
      modify (λ self, set_trainer2policies (py_touch trainer_id (_trainer2policies self)) self);;;
      ret pending'
  end.

Definition init_trainers (num_trainers : Z) (acks : list string) : M t unit :=
  let* names := gets (λ self, py_keys (AbsPolicyManager.policy_dict (base self))) in
  foldM (assign_trainer num_trainers) 0 names;;;
  let* trainers := gets _trainer2policies in
  foldM send_init tt trainers;;;
  let* trainers := gets _trainer2policies in
  foldM recv_ack acks trainers;;;
  ret tt.

(** [workers] is the list of workers of the endpoint created from [group]
    and [num_trainers]; [acks] are the senders of the messages that
    [receive] returns during construction, in order. *)
Definition __init__ (policy_dict : pydict pyobj) (workers : list string) (num_trainers : Z)
    (update_trigger warmup : option (gmap string Z)) (post_update : bool) (acks : list string)
    : (exn + t) * list event :=
  match AbsPolicyManager.__init__ policy_dict update_trigger warmup post_update with
  | inl e => (inl e, [])
  | inr b =>
      match init_trainers num_trainers acks
              (Build b workers (Z.of_nat (length workers)) ∅ ∅ ∅ []) with
      | (inl e, _, tr) => (inl e, tr)
      | (inr _, self, tr) => (inr self, tr)
      end
  end.

Definition version (self : t) : Z := AbsPolicyManager.version (base self).

Definition get_state (cur_version : option Z) : M t (gmap string PolicyState) :=
  zoom base set_base (AbsPolicyManager.get_state cur_version).

(** The body of the first loop of [update]; the local variables are
    [exp_to_send] and [updated]. *)
Definition cache_experience (acc : gmap string ExperienceSet * gset string)
    (item : string * ExperienceSet) : M t (gmap string ExperienceSet * gset string) :=
  let policy_name := item.1 in
  let exp := item.2 in
  let* num := gets _num_experiences_by_policy in
  let total := default 0 (num !! policy_name) + size exp in
  modify (set_num_experiences_by_policy (<[policy_name := total]> num));;;
  let* cache := gets _exp_cache in
  let cached := extend (default [] (cache !! policy_name)) exp in
  modify (set_exp_cache (<[policy_name := cached]> cache));;;
  let* trigger := let* d := gets (λ self, AbsPolicyManager.update_trigger (base self)) in
                  orraise (KeyError policy_name) (d !! policy_name) in
  let* due :=
    if bool_decide (trigger <= size cached) then
      let* warmup := let* d := gets (λ self, AbsPolicyManager.warmup (base self)) in
                     orraise (KeyError policy_name) (d !! policy_name) in
      ret (bool_decide (warmup <= total))
    else ret false in
  if due then
    modify (λ self, set_exp_cache (delete policy_name (_exp_cache self)) self);;;
    ret (<[policy_name := cached]> acc.1, acc.2 ∪ {[policy_name]})
  else ret acc.

(** The body of the loop that sends a [LEARN] message to each trainer. *)
Definition send_learn (exp_to_send : gmap string ExperienceSet) (_ : unit)
    (item : string * list string) : M t unit :=
  let* experiences := experiences_for exp_to_send item.2 in
  emit (EvSend item.1 (MsgLearn experiences)).

(** [self.policy_dict[policy_name].set_state(policy_state)] *)
Definition set_policy_state (_ : unit) (item : string * PolicyState) : M t unit :=
  let* policy := zoom base set_base (AbsPolicyManager.policy_of item.1) in
  modify (λ self, set_policy_dict
            (py_setitem item.1 (policy_set_state policy item.2)
               (AbsPolicyManager.policy_dict (base self))) self).

(** The body of the loop over [range(self._num_trainers)] that receives
    the results. *)
Definition recv_result (acc : list Tracker * list reply) (_ : Z)
    : M t (list Tracker * list reply) :=
  match acc.2 with
  | [] => raise Blocked
  | r :: pending =>
      emit (EvRecv r);;;
      foldM set_policy_state tt (reply_policy r);;;
      ret (acc.1 ++ [reply_tracker r], pending)
  end.

(** [replies] are the results that [receive] returns, in order. *)
Definition update (exp_by_policy : pydict ExperienceSet) (replies : list reply) : M t unit :=
  let* sent := foldM cache_experience (∅, ∅) exp_by_policy in
  let exp_to_send := sent.1 in
  let updated := sent.2 in
  let* trainers := gets _trainer2policies in
  foldM (send_learn exp_to_send) tt trainers;;;
  let* num_trainers := gets _num_trainers in
  let* received := foldM recv_result ([], replies) (py_range 0 num_trainers) in
  (if decide (updated = ∅) then ret tt
   else modify (λ self, set_update_history
                  (AbsPolicyManager._update_history (base self) ++ [updated]) self));;;
  let* post_update := gets (λ self, AbsPolicyManager._post_update (base self)) in
  if (post_update : bool) then emit (EvPostUpdate received.1) else ret tt.

(** Tell the remote trainers to exit. *)
Definition exit : M t unit :=
  let* trainers := gets _trainer2policies in
  foldM (λ _ (item : string * list string), emit (EvSend item.1 MsgExit)) tt trainers;;;
  emit EvClose.

End Methods.
End MultiNodePolicyManager.

(** ** [MultiAgentPolicy] *)

(** What [MultiAgentPolicy] ([multi_agent_policy.py]) calls on the policy
    and exploration objects it wraps, which are defined elsewhere:
    [choose_action], [store_experiences], [learn] (whose result is used as
    a truth value) and [update] on a policy; the call itself, [step] and
    [parameters] on an exploration.  An object is mutable, so a method that
    changes it returns the object after the call; [choose_action] and the
    call of an exploration only read.  The calls are taken to return. *)
Class WrappedObjects : Type := {
  PolicyObject : Type;
  ExplorationObject : Type;
  AgentState : Type;
  Action : Type;
  AgentExperiences : Type;
  ExplorationParams : Type;
  object_choose_action : PolicyObject → AgentState → Action;
  object_store_experiences : PolicyObject → AgentExperiences → PolicyObject;
  object_learn : PolicyObject → PolicyObject * bool;
  object_update : PolicyObject → PolicyObject → PolicyObject;
  explorer_call : ExplorationObject → Action → Action;
  explorer_step : ExplorationObject → ExplorationObject;
  explorer_parameters : ExplorationObject → ExplorationParams
}.

Module MultiAgentPolicy.
Section Methods.
Context {PI : AbsCorePolicy} {WO : WrappedObjects}.

(** The objects behind the references that the dictionaries hold: two
    entries with the same reference are the same Python object.
    [is_core r] is [isinstance(object, AbsCorePolicy)], which the class of
    the object fixes. *)
Record heap : Type := Heap {
  is_core : nat → bool;
  policy_at : nat → PolicyObject;
  exploration_at : nat → ExplorationObject
}.

(** The wrapper's attributes, with the objects they refer to.  An
    attribute that [__init__] sets only with explorations is [None] while
    it is not set. *)
Record t : Type := Build {
  policy_dict : pydict nat;
  agent_to_policy : pydict string;
  policy : pydict nat;
  exploration_dict : option (pydict nat);
  agent_to_exploration : option (pydict string);
  exploration : option (pydict nat);
  with_exploration : option bool;
  objects : heap
}.

Definition set_with_exploration (b : bool) (self : t) : t :=
  Build (policy_dict self) (agent_to_policy self) (policy self) (exploration_dict self)
        (agent_to_exploration self) (exploration self) (Some b) (objects self).

Definition set_objects (h : heap) (self : t) : t :=
  Build (policy_dict self) (agent_to_policy self) (policy self) (exploration_dict self)
        (agent_to_exploration self) (exploration self) (with_exploration self) h.

(** The object behind [ref] after one of its methods has changed it. *)
Definition set_policy_at (ref : nat) (obj : PolicyObject) (self : t) : t :=
  set_objects (Heap (is_core (objects self))
                    (λ r, if decide (r = ref) then obj else policy_at (objects self) r)
                    (exploration_at (objects self))) self.

Definition set_exploration_at (ref : nat) (obj : ExplorationObject) (self : t) : t :=
  set_objects (Heap (is_core (objects self)) (policy_at (objects self))
                    (λ r, if decide (r = ref) then obj else exploration_at (objects self) r))
              self.

(** The truth value of a dictionary argument: [None] and [{}] are false. *)
Definition truthy {V} (d : option (pydict V)) : bool :=
  match d with
  | Some (_ :: _) => true
  | _ => false
  end.

(** [{key: source[name] for key, name in names.items()}] *)
Fixpoint select_from {V} (source : pydict V) (names : pydict string) (acc : pydict V)
    : exn + pydict V :=
  match names with
  | [] => inr acc
  | (key, name) :: rest =>
      match py_getitem name source with
      | Some v => select_from source rest (py_setitem key v acc)
      | None => inl (KeyError name)
      end
  end.

(** [agent_to_exploration.items()] on the default [None] raises
    [AttributeError]. *)
Definition __init__ (policy_dict : pydict nat) (agent_to_policy : pydict string)
    (exploration_dict : option (pydict nat)) (agent_to_exploration : option (pydict string))
    (objects : heap) : exn + t :=
  match select_from policy_dict agent_to_policy [] with
  | inl e => inl e
  | inr policy =>
      if truthy exploration_dict then
        match agent_to_exploration with
        | None => inl (Raised "AttributeError")
        | Some names =>
            match select_from (default [] exploration_dict) names [] with
            | inl e => inl e
            | inr exploration =>
                inr (Build policy_dict agent_to_policy policy exploration_dict
                           (Some names) (Some exploration) (Some true) objects)
            end
        end
      else inr (Build policy_dict agent_to_policy policy exploration_dict None None None objects)
  end.

Definition train_mode : M t unit := modify (set_with_exploration true).

Definition eval_mode : M t unit := modify (set_with_exploration false).

(** [hasattr(self, "exploration")] fails when no exploration was given;
    the property then returns [None]. *)
Definition exploration_params : M t (option (pydict ExplorationParams)) :=
  let* exploration := gets exploration in
  match exploration with
  | Some d =>
      let* h := gets objects in
      ret (Some ((λ item, (item.1, explorer_parameters (exploration_at h item.2))) <$> d))
  | None => ret None
  end.

(** [self.policy[agent_id].choose_action(state)] *)
Definition policy_action (agent_id : string) (state : AgentState) : M t Action :=
  let* ref := let* d := gets policy in orraise (KeyError agent_id) (py_getitem agent_id d) in
  let* obj := gets (λ self, policy_at (objects self) ref) in
  ret (object_choose_action obj state).

(** One entry of the comprehension of [choose_action] with exploration. *)
Definition explored_action (d : pydict Action) (item : string * AgentState)
    : M t (pydict Action) :=
  let agent_id := item.1 in
  let state := item.2 in
  let* exploration := let* e := gets exploration in orraise (Raised "AttributeError") e in
  match py_getitem agent_id exploration with
  | Some ref =>
      let* explore := gets (λ self, exploration_at (objects self) ref) in
      let* action := policy_action agent_id state in
      ret (py_setitem agent_id (explorer_call explore action) d)
  | None =>
      let* action := policy_action agent_id state in
      ret (py_setitem agent_id action d)
  end.

(** One entry of the comprehension without exploration. *)
Definition plain_action (d : pydict Action) (item : string * AgentState)
    : M t (pydict Action) :=
  let* action := policy_action item.1 item.2 in
  ret (py_setitem item.1 action d).

Definition choose_action (state_by_agent : pydict AgentState) : M t (pydict Action) :=
  let* exploration_dict := gets exploration_dict in
  let* exploring :=
    if truthy exploration_dict then
      let* w := gets with_exploration in orraise (Raised "AttributeError") w
    else ret false in
  if (exploring : bool) then foldM explored_action [] state_by_agent
  else foldM plain_action [] state_by_agent.

(** The body of the loop of [on_new_experiences]. *)
Definition store_experience (_ : unit) (item : string * AgentExperiences) : M t unit :=
  let* ref := let* d := gets policy in orraise (KeyError item.1) (py_getitem item.1 d) in
  let* core := gets (λ self, is_core (objects self) ref) in
  if (core : bool) then
    modify (λ self, set_policy_at ref
              (object_store_experiences (policy_at (objects self) ref) item.2) self)
  else ret tt.

(** One entry of the list comprehension of [on_new_experiences]:
    [isinstance(policy, AbsCorePolicy) and policy.learn()]. *)
Definition learn_policy (learned : list string) (item : string * nat) : M t (list string) :=
  let* core := gets (λ self, is_core (objects self) item.2) in
  if (core : bool) then
    let* obj := gets (λ self, policy_at (objects self) item.2) in
    modify (set_policy_at item.2 (object_learn obj).1);;;
    emit (EvLearn item.1 None);;;
    ret (if (object_learn obj).2 then learned ++ [item.1] else learned)
  else ret learned.

Definition on_new_experiences (experiences_by_agent : pydict AgentExperiences)
    : M t (list string) :=
  foldM store_experience tt experiences_by_agent;;;
  let* policy_dict := gets policy_dict in
  foldM learn_policy [] policy_dict.

(** The body of the loop of [update]: [policy] is the object given for
    [policy_id]. *)
Definition load_policy (_ : unit) (item : string * nat) : M t unit :=
  let* ref := let* d := gets policy_dict in orraise (KeyError item.1) (py_getitem item.1 d) in
  modify (λ self, set_policy_at ref
            (object_update (policy_at (objects self) ref) (policy_at (objects self) item.2))
            self).

(** Load policies from memory; [loaded] is the argument [policy_dict]. *)
Definition update (loaded : pydict nat) : M t unit :=
  let* own := gets policy_dict in
  if forallb (λ policy_id, bool_decide (policy_id ∈ py_keys own)) (py_keys loaded)
  then foldM load_policy tt loaded
  else raise (Raised "Exception").

Definition exploration_step : M t unit :=
  let* exploration_dict := gets exploration_dict in
  if truthy exploration_dict then
    foldM (λ (_ : unit) (item : string * nat),
             modify (λ self, set_exploration_at item.2
                       (explorer_step (exploration_at (objects self) item.2)) self))
          tt (default [] exploration_dict)
  else ret tt.

End Methods.
End MultiAgentPolicy.

(** ** A policy to run the managers on *)

(** A policy that counts: its store holds [stored] transitions, its state
    is the number of [learn] calls that returned.  With [fragile] set, a
    [broken] policy raises from [learn]. *)
Record counting_policy : Type := Counting {
  stored : Z;
  learned : nat;
  broken : bool
}.

Definition counting (fragile : bool) : AbsCorePolicy := {|
  Policy := counting_policy;
  PolicyState := nat;
  Tracker := nat;
  Transition := unit;
  experience_store_put p exp := Counting (stored p + Z.of_nat (length exp)) (learned p) (broken p);
  experience_store_size := stored;
  learn p := if fragile && broken p then inl (Raised "learn")
             else inr (Counting (stored p) (S (learned p)) (broken p));
  policy_get_state := learned;
  policy_set_state p st := Counting (stored p) st (broken p);
  policy_tracker := learned
|}.

(** A batch of [n] transitions. *)
Definition batch (fragile : bool) (n : nat) : ExperienceSet (PI:=counting fragile) :=
  replicate n ().

(** A policy without experience that has not learned yet. *)
Definition fresh : counting_policy := Counting 0 0 false.

(** The policy dictionary [{"A": ..., "B": ...}] of two fresh policies. *)
Definition policies_AB (fragile : bool) : pydict (pyobj (PI:=counting fragile)) :=
  [("A", Core (PI:=counting fragile) fresh); ("B", Core (PI:=counting fragile) fresh)].

(** The local manager that [LocalPolicyManager(policy_dict)] builds from
    [policy_dict], with the default triggers and warm-up sizes and no
    callback. *)
Definition local_manager {PI : AbsCorePolicy} (policy_dict : pydict Policy) : LocalPolicyManager.t :=
  LocalPolicyManager.Build
    (AbsPolicyManager.Build policy_dict
       (AbsPolicyManager.all_ones policy_dict) (AbsPolicyManager.all_ones policy_dict)
       false [list_to_set (py_keys policy_dict)])
    ∅.

(** A local manager of one fresh policy ["A"] with trigger 10 and
    warm-up 5. *)
Definition manager_T10_W5 : LocalPolicyManager.t (PI:=counting false) :=
  LocalPolicyManager.Build (PI:=counting false)
    (AbsPolicyManager.Build (PI:=counting false) [("A", fresh)] {["A" := 10]} {["A" := 5]}
       false [{["A"]}])
    ∅.

(** Three policies, and a dictionary with a value that is no policy. *)
Definition policies_ABC : pydict (pyobj (PI:=counting false)) :=
  [("A", Core (PI:=counting false) fresh); ("B", Core (PI:=counting false) fresh);
   ("C", Core (PI:=counting false) fresh)].

Definition policies_A_foreign : pydict (pyobj (PI:=counting false)) :=
  [("A", Core (PI:=counting false) fresh); ("X", Foreign (PI:=counting false) "a string")].

(** The local manager of ["A"] and ["B"] after three rounds that update
    ["A"], then ["B"], then ["A"]. *)
Definition manager_ABA : LocalPolicyManager.t (PI:=counting false) :=
  (LocalPolicyManager.update_rounds (PI:=counting false)
     [[("A", batch false 1)]; [("B", batch false 1)]; [("A", batch false 1)]]
     (local_manager (PI:=counting false) [("A", fresh); ("B", fresh)])).1.

(** The multi-process manager of ["A"] and ["B"] with one trainer, and the
    multi-node manager of the same policies with the one worker
    ["TRAINER.0"], as their constructors build them. *)
Definition process_manager_AB : MultiProcessPolicyManager.t (PI:=counting false) :=
  MultiProcessPolicyManager.Build (PI:=counting false)
    (AbsPolicyManager.Build (PI:=counting false) [("A", fresh); ("B", fresh)]
       {["A" := 1; "B" := 1]} {["A" := 1; "B" := 1]} false [{["A"; "B"]}])
    {["A" := "TRAINER.0"; "B" := "TRAINER.0"]} [("TRAINER.0", ["A"; "B"])] ∅ ∅ ["TRAINER.0"].

Definition node_manager_AB : MultiNodePolicyManager.t (PI:=counting false) :=
  MultiNodePolicyManager.Build (PI:=counting false)
    (AbsPolicyManager.Build (PI:=counting false) [("A", fresh); ("B", fresh)]
       {["A" := 1; "B" := 1]} {["A" := 1; "B" := 1]} false [{["A"; "B"]}])
    ["TRAINER.0"] 1 ∅ ∅ {["A" := "TRAINER.0"; "B" := "TRAINER.0"]} [("TRAINER.0", ["A"; "B"])].

(** The answer of a trainer that has trained ["A"] and ["B"] once. *)
Definition reply_AB : reply (PI:=counting false) :=
  Reply (PI:=counting false) 7%nat [("A", 1%nat); ("B", 1%nat)].

(** Objects to run the wrapper on: a policy is the number of experiences
    it holds and offers that number plus the state as its action; [learn]
    succeeds on a policy that holds experiences; an exploration adds its
    own number to an action. *)
Definition counting_objects : WrappedObjects := {|
  PolicyObject := nat;
  ExplorationObject := nat;
  AgentState := nat;
  Action := nat;
  AgentExperiences := nat;
  ExplorationParams := nat;
  object_choose_action p state := (p + state)%nat;
  object_store_experiences p exp := (p + exp)%nat;
  object_learn p := (p, negb (Nat.eqb p 0));
  object_update p loaded := loaded;
  explorer_call e action := (action + e)%nat;
  explorer_step e := S e;
  explorer_parameters e := e
|}.

(** Object 0 is a core policy holding nothing, object 1 a fixed policy;
    exploration 0 adds 10. *)
Definition two_objects : MultiAgentPolicy.heap (WO:=counting_objects) :=
  MultiAgentPolicy.Heap (WO:=counting_objects) (λ ref, bool_decide (ref = 0%nat)) (λ ref, ref)
    (λ _, 10%nat).

(** Agents ["a"] and ["b"] on the policies ["core"] and ["fixed"]; agent
    ["a"] explores. *)
Definition wrapper_ab : MultiAgentPolicy.t (WO:=counting_objects) :=
  MultiAgentPolicy.Build (WO:=counting_objects)
    [("core", 0%nat); ("fixed", 1%nat)] [("a", "core"); ("b", "fixed")]
    [("a", 0%nat); ("b", 1%nat)] (Some [("noise", 0%nat)]) (Some [("a", "noise")])
    (Some [("a", 0%nat)]) (Some true) two_objects.

(** ** Vocabulary of the statements *)

Section Vocabulary.
Context {PI : AbsCorePolicy}.

(** A computation that leaves every state satisfying [P] in a state
    satisfying [P], whether it returns or raises. *)
Definition preserves {S A} (P : S → Prop) (c : M S A) : Prop :=
  ∀ s, P s → P (state (c s)).

(** A computation that calls nothing outside the manager. *)
Definition silent {S A} (c : M S A) : Prop := ∀ s, trace (c s) = [].

(** A computation whose exceptions all satisfy [E]. *)
Definition raises_only {S A} (E : exn → Prop) (c : M S A) : Prop :=
  ∀ s e, result (c s) = inl e → E e.

(** [e] is not the configuration error. *)
Definition not_value_error (e : exn) : Prop := ∀ msg, e ≠ ValueError msg.

(** The names of the policies whose [learn] was called, in call order. *)
Definition learn_calls (tr : list event) : list string :=
  omap (λ ev, match ev with EvLearn name _ => Some name | _ => None end) tr.


(** Every name recorded in the version history is a managed policy, and
    the history has its initial entry. *)
Definition history_known (self : AbsPolicyManager.t) : Prop :=
  AbsPolicyManager._update_history self ≠ [] ∧
  Forall (set_Forall (λ name, is_Some (py_getitem name (AbsPolicyManager.policy_dict self))))
         (AbsPolicyManager._update_history self).

(** [name] was recorded in a round after [since_version]. *)
Definition touched (self : AbsPolicyManager.t) (since_version : Z) (name : string) : Prop :=
  ∃ (round : nat) (names : gset string),
    since_version < Z.of_nat round ∧
    AbsPolicyManager._update_history self !! round = Some names ∧ name ∈ names.

(** [d] maps exactly the names satisfying [P] to the current state of
    their policy. *)
Definition current_states (self : AbsPolicyManager.t) (P : string → Prop)
    (d : gmap string PolicyState) : Prop :=
  (∀ name, name ∈ dom d ↔ P name) ∧
  ∀ name st, d !! name = Some st →
    ∃ policy, py_getitem name (AbsPolicyManager.policy_dict self) = Some policy ∧
              st = policy_get_state policy.

(** What holds of a manager of any class right after construction from
    [policy_dict]; the class is given by its accessors. *)
Definition initial {T V} (policy_dict : pydict V) (base : T → AbsPolicyManager.t)
    (version : T → Z) (get_state : option Z → M T (gmap string PolicyState)) (self : T) : Prop :=
  py_keys (AbsPolicyManager.policy_dict (base self)) = py_keys policy_dict ∧
  version self = 0 ∧
  AbsPolicyManager._update_history (base self) = [list_to_set (py_keys policy_dict)] ∧
  ∃ d, get_state None self = (inr d, self, []) ∧
       current_states (base self) (λ name, name ∈ py_keys policy_dict) d.

(** The two loops of [get_state] as pure folds. *)
Definition union_rounds (h : list (gset string)) (acc : gset string) (idxs : list Z) : gset string :=
  foldl (λ updated i, updated ∪ default ∅ (py_index h i)) acc idxs.

Definition collect_states (pd : pydict Policy) (d : gmap string PolicyState) (names : list string) : gmap string PolicyState :=
  foldl (λ d name, match py_getitem name pd with
                   | Some policy => <[name := policy_get_state policy]> d
                   | None => d
                   end) d names.

(** The local manager is following policy [name], whose trigger is [T]
    and warm-up [W], with [pending] new experiences counted and [total]
    experiences in its store. *)
Definition tracking (self : LocalPolicyManager.t) (name : string) (T W pending total : Z) : Prop :=
  AbsPolicyManager.update_trigger (LocalPolicyManager.base self) !! name = Some T ∧
  AbsPolicyManager.warmup (LocalPolicyManager.base self) !! name = Some W ∧
  (∃ policy,
     py_getitem name (AbsPolicyManager.policy_dict (LocalPolicyManager.base self)) = Some policy ∧
     experience_store_size policy = total) ∧
  default 0 (LocalPolicyManager._new_exp_counter self !! name) = pending.

(** The trigger and warm-up rule in the words of the specification: per
    round, whether [learn] is called and the pending count afterwards,
    from the pending count and the total before the round. *)
Fixpoint rounds_spec (T W pending total : Z) (sizes : list Z) : list (bool * Z) :=
  match sizes with
  | [] => []
  | b :: rest =>
      if bool_decide (T <= pending + b) && bool_decide (W <= total + b)
      then (true, 0) :: rounds_spec T W 0 (total + b) rest
      else (false, pending + b) :: rounds_spec T W (pending + b) (total + b) rest
  end.

(** A computation that, when it raises, leaves a state satisfying [P]. *)
Definition keeps_on_raise {S A} (P : S → Prop) (c : M S A) : Prop :=
  ∀ s, P s → ∀ e, result (c s) = inl e → P (state (c s)).

(** A computation that takes every state satisfying [P] to a state
    satisfying [Q], whether it returns or raises. *)
Definition establishes {S A} (P Q : S → Prop) (c : M S A) : Prop :=
  ∀ s, P s → Q (state (c s)).

(** The version history [h'] is [h] with at most one more entry, a
    non-empty set of names among [names]. *)
Definition one_more_version (names : list string) (h h' : list (gset string)) : Prop :=
  ∃ added, h' = h ++ added ∧ (length added ≤ 1)%nat ∧
           Forall (λ updated, updated ≠ ∅ ∧ updated ⊆ list_to_set names) added.

(** The arguments of the calls of the post-update callback. *)
Definition callbacks (tr : list event) : list (list Tracker) :=
  omap (λ ev, match ev with EvPostUpdate trackers => Some trackers | _ => None end) tr.

(** The trainers that messages were sent to, and the replies read. *)
Definition sent_to (tr : list event) : list string :=
  omap (λ ev, match ev with EvSend trainer_id _ => Some trainer_id | _ => None end) tr.

Definition received (tr : list event) : list reply :=
  omap (λ ev, match ev with EvRecv r => Some r | _ => None end) tr.

(** Every trainer entered by the assignment loop has a policy. *)
Definition busy (t2p : pydict (list string)) : Prop := Forall (λ item, item.2 ≠ []) t2p.

(** The senders of the acknowledgements read. *)
Definition acked (tr : list event) : list string :=
  omap (λ ev, match ev with EvAck trainer_id => Some trainer_id | _ => None end) tr.

(** The trainers started, with the policies given to each. *)
Definition started (tr : list event) : pydict (list string) :=
  omap (λ ev, match ev with EvStart trainer_id names _ => Some (trainer_id, names) | _ => None end) tr.

(** What the assignment loops establish: every name handled is assigned,
    and the two dictionaries are each other's inverse. *)
Definition partitioned (p2t : gmap string string) (t2p : pydict (list string))
    (names : list string) : Prop :=
  (∀ n, is_Some (p2t !! n) ↔ n ∈ names) ∧
  (∀ n t, p2t !! n = Some t ↔ n ∈ default [] (py_getitem t t2p)) ∧
  NoDup (py_keys t2p).

End Vocabulary.

(** ** Vocabulary of the statements about the wrapper *)

Section WrapperVocabulary.
Context {WO : WrappedObjects}.

(** Every name that [names] gives to a key is a key of [source]. *)
Definition resolves {V} (source : pydict V) (names : pydict string) : Prop :=
  ∀ key name, (key, name) ∈ names → is_Some (py_getitem name source).

(** The dictionary [d] maps a key to what [source] holds under the name
    that [names] gives to the key. *)
Definition composes {V} (source : pydict V) (names : pydict string) (d : pydict V) : Prop :=
  ∀ key, py_getitem key d = py_getitem key names ≫= λ name, py_getitem name source.

(** The wrapper has the attributes that [choose_action] reads. *)
Definition ready (self : MultiAgentPolicy.t) : Prop :=
  MultiAgentPolicy.truthy (MultiAgentPolicy.exploration_dict self) = true →
  is_Some (MultiAgentPolicy.with_exploration self) ∧ is_Some (MultiAgentPolicy.exploration self).

(** The exploration that the wrapper applies to the actions of [agent_id],
    if any: explorations were given, are switched on, and one is
    registered for the agent. *)
Definition explorer_of (self : MultiAgentPolicy.t) (agent_id : string) : option nat :=
  if MultiAgentPolicy.truthy (MultiAgentPolicy.exploration_dict self)
     && default false (MultiAgentPolicy.with_exploration self)
  then MultiAgentPolicy.exploration self ≫= py_getitem agent_id
  else None.

(** The action of the policy object [ref] in [state], explored if the
    agent has an exploration. *)
Definition expected_action (self : MultiAgentPolicy.t) (agent_id : string) (state : AgentState)
    (ref : nat) : Action :=
  let action :=
    object_choose_action (MultiAgentPolicy.policy_at (MultiAgentPolicy.objects self) ref) state in
  match explorer_of self agent_id with
  | Some e =>
      explorer_call (MultiAgentPolicy.exploration_at (MultiAgentPolicy.objects self) e) action
  | None => action
  end.

(** The action that [choose_action] enters for an agent. *)
Definition entry_of (self : MultiAgentPolicy.t) (item : string * AgentState) : option Action :=
  expected_action self item.1 item.2 <$> py_getitem item.1 (MultiAgentPolicy.policy self).

(** The policies of [policy_dict] that are [AbsCorePolicy] instances. *)
Definition core_policies (h : MultiAgentPolicy.heap) (pd : pydict nat) : list string :=
  omap (λ item : string * nat,
          if MultiAgentPolicy.is_core h item.2 then Some item.1 else None) pd.

End WrapperVocabulary.

(** * Properties *)

(** ** Running the monad *)

Section MonadFacts.
Context {PI : AbsCorePolicy}.

Lemma bind_ret {S A B} (a : A) (k : A → M S B) s : bind (ret a) k s = k a s.
Proof. unfold bind, ret. by destruct (k a s) as [[r s'] tr]. Qed.

Lemma bind_gets {S A B} (f : S → A) (k : A → M S B) s : bind (gets f) k s = k (f s) s.
Proof. unfold bind, gets. by destruct (k (f s) s) as [[r s'] tr]. Qed.

Lemma bind_modify {S B} (f : S → S) (k : unit → M S B) s : bind (modify f) k s = k tt (f s).
Proof. unfold bind, modify. by destruct (k tt (f s)) as [[r s'] tr]. Qed.

Lemma bind_raise {S A B} (e : exn) (k : A → M S B) s : bind (raise e) k s = (inl e, s, []).
Proof. done. Qed.

Lemma bind_emit {S B} (ev : event) (k : unit → M S B) s :
  bind (emit ev) k s = (result (k tt s), state (k tt s), ev :: trace (k tt s)).
Proof. unfold bind, emit. by destruct (k tt s) as [[r s'] tr]. Qed.

Lemma bind_orraise_Some {S A B} e (a : A) (k : A → M S B) s :
  bind (orraise e (Some a)) k s = k a s.
Proof. apply bind_ret. Qed.

Lemma bind_assoc {S A B C} (c : M S A) (k : A → M S B) (k' : B → M S C) s :
  bind (bind c k) k' s = bind c (λ a, bind (k a) k') s.
Proof.
  unfold bind. destruct (c s) as [[[e|a] s1] tr1]; [done|].
  destruct (k a s1) as [[[e|b] s2] tr2]; [done|].
  destruct (k' b s2) as [[r s3] tr3]. by rewrite (assoc_L (++)).
Qed.

(** The three components of a [bind], by cases on its first part. *)
Lemma bind_inl {S A B} (c : M S A) (k : A → M S B) s e :
  result (c s) = inl e → bind c k s = (inl e, state (c s), trace (c s)).
Proof. unfold bind, result, state, trace. destruct (c s) as [[r s'] tr]; simpl. by intros ->. Qed.

Lemma bind_inr {S A B} (c : M S A) (k : A → M S B) s a :
  result (c s) = inr a →
  bind c k s = (result (k a (state (c s))), state (k a (state (c s))),
                trace (c s) ++ trace (k a (state (c s)))).
Proof.
  unfold bind, result, state, trace. destruct (c s) as [[r s'] tr]; simpl. intros ->.
  by destruct (k a s') as [[r' s''] tr'].
Qed.

(** *** Invariants *)

Lemma preserves_ret {S A} (P : S → Prop) (a : A) : preserves P (ret a).
Proof. by intros s. Qed.

Lemma preserves_gets {S A} (P : S → Prop) (f : S → A) : preserves P (gets f).
Proof. by intros s. Qed.

Lemma preserves_raise {S A} (P : S → Prop) e : preserves P (raise (A:=A) e).
Proof. by intros s. Qed.

Lemma preserves_emit {S} (P : S → Prop) ev : preserves P (emit ev).
Proof. by intros s. Qed.

Lemma preserves_orraise {S A} (P : S → Prop) e (o : option A) : preserves P (orraise e o).
Proof. by destruct o; intros s. Qed.

Lemma preserves_modify {S} (P : S → Prop) (f : S → S) :
  (∀ s, P s → P (f s)) → preserves P (modify f).
Proof. intros Hf s. apply Hf. Qed.

Lemma preserves_bind {S A B} (P : S → Prop) (c : M S A) (k : A → M S B) :
  preserves P c → (∀ a, preserves P (k a)) → preserves P (bind c k).
Proof.
  intros Hc Hk s Hs. specialize (Hc s Hs).
  destruct (result (c s)) as [e|a] eqn:Hr.
  - by rewrite (bind_inl _ _ _ _ Hr).
  - rewrite (bind_inr _ _ _ _ Hr). by apply Hk.
Qed.

Lemma preserves_foldM {S A B} (P : S → Prop) (body : B → A → M S B) b l :
  (∀ b a, preserves P (body b a)) → preserves P (foldM body b l).
Proof.
  intros Hbody. revert b. induction l as [|a l IH]; intros b; simpl.
  - apply preserves_ret.
  - apply preserves_bind; [apply Hbody | intros b'; apply IH].
Qed.

Lemma preserves_zoom {S T A} (P : T → Prop) (get : T → S) (set : S → T → T) (c : M S A) :
  (∀ t, P t → P (set (state (c (get t))) t)) → preserves P (zoom get set c).
Proof.
  intros H t Ht. specialize (H t Ht). unfold zoom, state in *.
  by destruct (c (get t)) as [[r s'] tr].
Qed.

(** *** Computations without outside calls *)

Lemma silent_ret {S A} (a : A) : silent (S:=S) (ret a).
Proof. by intros s. Qed.

Lemma silent_gets {S A} (f : S → A) : silent (gets f).
Proof. by intros s. Qed.

Lemma silent_raise {S A} e : silent (S:=S) (raise (A:=A) e).
Proof. by intros s. Qed.

Lemma silent_orraise {S A} e (o : option A) : silent (S:=S) (orraise e o).
Proof. by destruct o; intros s. Qed.

Lemma silent_modify {S} (f : S → S) : silent (modify f).
Proof. by intros s. Qed.

Lemma silent_bind {S A B} (c : M S A) (k : A → M S B) :
  silent c → (∀ a, silent (k a)) → silent (bind c k).
Proof.
  intros Hc Hk s. specialize (Hc s).
  destruct (result (c s)) as [e|a] eqn:Hr.
  - by rewrite (bind_inl _ _ _ _ Hr).
  - rewrite (bind_inr _ _ _ _ Hr). unfold trace at 1; simpl. by rewrite Hc, Hk.
Qed.

Lemma silent_foldM {S A B} (body : B → A → M S B) b l :
  (∀ b a, silent (body b a)) → silent (foldM body b l).
Proof.
  intros Hbody. revert b. induction l as [|a l IH]; intros b; simpl.
  - apply silent_ret.
  - apply silent_bind; [apply Hbody | intros b'; apply IH].
Qed.

Lemma silent_zoom {S T A} (get : T → S) (set : S → T → T) (c : M S A) :
  silent c → silent (zoom get set c).
Proof.
  intros H t. specialize (H (get t)). unfold zoom, trace in *.
  by destruct (c (get t)) as [[r s'] tr].
Qed.

(** *** Exceptions *)

Lemma raises_only_ret {S A} E (a : A) : raises_only (S:=S) E (ret a).
Proof. by intros s e. Qed.

Lemma raises_only_gets {S A} E (f : S → A) : raises_only E (gets f).
Proof. by intros s e. Qed.

Lemma raises_only_modify {S} E (f : S → S) : raises_only E (modify f).
Proof. by intros s e. Qed.

Lemma raises_only_emit {S} E ev : raises_only (S:=S) E (emit ev).
Proof. by intros s e. Qed.

Lemma raises_only_raise {S A} (E : exn → Prop) e : E e → raises_only (S:=S) E (raise (A:=A) e).
Proof. intros He s e' [= <-]. done. Qed.

Lemma raises_only_orraise {S A} (E : exn → Prop) e (o : option A) :
  E e → raises_only (S:=S) E (orraise e o).
Proof. intros He. destruct o; [apply raises_only_ret | by apply raises_only_raise]. Qed.

Lemma raises_only_bind {S A B} E (c : M S A) (k : A → M S B) :
  raises_only E c → (∀ a, raises_only E (k a)) → raises_only E (bind c k).
Proof.
  intros Hc Hk s e. destruct (result (c s)) as [e'|a] eqn:Hr.
  - rewrite (bind_inl _ _ _ _ Hr). intros [= <-]. by eapply Hc.
  - rewrite (bind_inr _ _ _ _ Hr). apply Hk.
Qed.

Lemma raises_only_foldM {S A B} E (body : B → A → M S B) b l :
  (∀ b a, raises_only E (body b a)) → raises_only E (foldM body b l).
Proof.
  intros Hbody. revert b. induction l as [|a l IH]; intros b; simpl.
  - apply raises_only_ret.
  - apply raises_only_bind; [apply Hbody | intros b'; apply IH].
Qed.

End MonadFacts.

(** Runs the leading reads, writes and returns of a computation. *)
Ltac mstep :=
  repeat first
    [ rewrite bind_assoc | rewrite bind_gets | rewrite bind_ret | rewrite bind_modify
    | rewrite bind_orraise_Some | progress cbv beta ].

(** Decomposes a goal about a computation along its syntax. *)
Ltac compositional :=
  repeat first
    [ apply preserves_ret | apply preserves_gets | apply preserves_raise
    | apply preserves_emit | apply preserves_orraise
    | apply silent_ret | apply silent_gets | apply silent_raise
    | apply silent_orraise | apply silent_modify
    | apply raises_only_ret | apply raises_only_gets | apply raises_only_modify
    | apply raises_only_emit
    | apply preserves_bind; [|intros ?]
    | apply silent_bind; [|intros ?]
    | apply raises_only_bind; [|intros ?]
    | apply preserves_foldM; intros ? ?
    | apply silent_foldM; intros ? ?
    | apply raises_only_foldM; intros ? ?
    | apply silent_zoom
    | match goal with
      | |- preserves _ (if ?b then _ else _) => destruct b
      | |- silent (if ?b then _ else _) => destruct b
      | |- raises_only _ (if ?b then _ else _) => destruct b
      | |- preserves _ (match ?x with _ => _ end) => destruct x
      | |- silent (match ?x with _ => _ end) => destruct x
      | |- raises_only _ (match ?x with _ => _ end) => destruct x
      | |- preserves _ (modify _) => apply preserves_modify
      | |- preserves _ (zoom _ _ _) => apply preserves_zoom
      | |- raises_only _ (raise _) => apply raises_only_raise
      | |- raises_only _ (orraise _ _) => apply raises_only_orraise
      end ].

(** ** [get_state] reads and does nothing else *)

Section GetStateFrame.
Context {PI : AbsCorePolicy}.

Lemma history_at_preserves (P : AbsPolicyManager.t → Prop) version :
  preserves P (AbsPolicyManager.history_at version).
Proof. unfold AbsPolicyManager.history_at. compositional. Qed.

Lemma policy_of_preserves (P : AbsPolicyManager.t → Prop) name :
  preserves P (AbsPolicyManager.policy_of name).
Proof. unfold AbsPolicyManager.policy_of. compositional. Qed.

Lemma base_get_state_preserves (P : AbsPolicyManager.t → Prop) cur_version :
  preserves P (AbsPolicyManager.get_state cur_version).
Proof.
  unfold AbsPolicyManager.get_state. compositional;
    auto using history_at_preserves, policy_of_preserves.
Qed.

Lemma base_get_state_silent cur_version : silent (AbsPolicyManager.get_state cur_version).
Proof.
  unfold AbsPolicyManager.get_state, AbsPolicyManager.history_at, AbsPolicyManager.policy_of.
  compositional.
Qed.

Lemma base_get_state_state cur_version (self : AbsPolicyManager.t) :
  state (AbsPolicyManager.get_state cur_version self) = self.
Proof. by apply (base_get_state_preserves (λ s, s = self)). Qed.

(** C9: [get_state] is a pure read.  In every manager of every class and
    for every argument, the call makes no call to a trainer, a pipe, the
    endpoint, a policy's [learn] or the callback (its trace of outside
    calls is empty), and the manager it leaves is the manager it was called
    on: version history, version, counters, caches and policies are
    unchanged. *)
Theorem get_state_pure_read (cur_version : option Z) :
  (∀ self : AbsPolicyManager.t,
     state (AbsPolicyManager.get_state cur_version self) = self ∧
     trace (AbsPolicyManager.get_state cur_version self) = []) ∧
  (∀ self : LocalPolicyManager.t,
     state (LocalPolicyManager.get_state cur_version self) = self ∧
     trace (LocalPolicyManager.get_state cur_version self) = []) ∧
  (∀ self : MultiProcessPolicyManager.t,
     state (MultiProcessPolicyManager.get_state cur_version self) = self ∧
     trace (MultiProcessPolicyManager.get_state cur_version self) = []) ∧
  (∀ self : MultiNodePolicyManager.t,
     state (MultiNodePolicyManager.get_state cur_version self) = self ∧
     trace (MultiNodePolicyManager.get_state cur_version self) = []).
Proof.
  repeat split.
  - apply base_get_state_state.
  - apply base_get_state_silent.
  - apply (preserves_zoom (λ s, s = self)); [|done].
    intros t ->. rewrite base_get_state_state. by destruct self.
  - apply silent_zoom, base_get_state_silent.
  - apply (preserves_zoom (λ s, s = self)); [|done].
    intros t ->. rewrite base_get_state_state. by destruct self.
  - apply silent_zoom, base_get_state_silent.
  - apply (preserves_zoom (λ s, s = self)); [|done].
    intros t ->. rewrite base_get_state_state. by destruct self.
  - apply silent_zoom, base_get_state_silent.
Qed.

End GetStateFrame.

(** ** The value of [get_state] *)

Section GetStateValue.
Context {PI : AbsCorePolicy}.
Implicit Types (self : AbsPolicyManager.t) (d : gmap string PolicyState).

Lemma history_loop self acc idxs :
  Forall (λ i, is_Some (py_index (AbsPolicyManager._update_history self) i)) idxs →
  foldM (λ updated version,
           let* s := AbsPolicyManager.history_at version in ret (updated ∪ s)) acc idxs self
  = (inr (union_rounds (AbsPolicyManager._update_history self) acc idxs), self, []).
Proof.
  intros Hall. revert acc. induction Hall as [|i idxs [s Hs] _ IH]; intros acc; [done|].
  simpl. unfold AbsPolicyManager.history_at at 1.
  mstep. rewrite Hs. mstep. by rewrite IH.
Qed.

Lemma history_loop_index_error self acc idxs i :
  i ∈ idxs → py_index (AbsPolicyManager._update_history self) i = None →
  result (foldM (λ updated version,
           let* s := AbsPolicyManager.history_at version in ret (updated ∪ s)) acc idxs self)
  = inl IndexError.
Proof.
  intros Hi Hnone. revert acc. induction idxs as [|j idxs IH]; intros acc.
  { by apply elem_of_nil in Hi. }
  simpl. unfold AbsPolicyManager.history_at at 1. mstep.
  destruct (py_index (AbsPolicyManager._update_history self) j) as [s|] eqn:Hj.
  - mstep. apply IH.
    apply elem_of_cons in Hi as [->|Hi]; [congruence | done].
  - done.
Qed.

Lemma states_loop self d names :
  Forall (λ name, is_Some (py_getitem name (AbsPolicyManager.policy_dict self))) names →
  foldM (λ d name, let* policy := AbsPolicyManager.policy_of name in
                   ret (<[name := policy_get_state policy]> d)) d names self
  = (inr (collect_states (AbsPolicyManager.policy_dict self) d names), self, []).
Proof.
  intros Hall. revert d. induction Hall as [|name names [p Hp] _ IH]; intros d; [done|].
  simpl. unfold AbsPolicyManager.policy_of at 1.
  mstep. rewrite Hp. mstep. by rewrite IH.
Qed.

Lemma elem_of_union_rounds h acc idxs name :
  name ∈ union_rounds h acc idxs ↔
  name ∈ acc ∨ ∃ i s, i ∈ idxs ∧ py_index h i = Some s ∧ name ∈ s.
Proof.
  revert acc. induction idxs as [|i idxs IHl]; intros acc; simpl.
  - split; [auto | intros [?|(i & s & Hi & _)]; [done | by apply elem_of_nil in Hi]].
  - rewrite IHl, elem_of_union. split.
    + intros [[?|Hin]|(j & s & Hj & Hs & Hin)]; [by left| |].
      * destruct (py_index h i) as [s|] eqn:Hs; simpl in Hin; [|set_solver].
        right. exists i, s. set_solver.
      * right. exists j, s. set_solver.
    + intros [?|(j & s & Hj & Hs & Hin)]; [by left; left|].
      apply elem_of_cons in Hj as [->|Hj].
      * left; right. by rewrite Hs.
      * right. eauto.
Qed.

Lemma collect_states_dom pd d names name :
  name ∈ dom (collect_states pd d names) ↔
  name ∈ dom d ∨ (name ∈ names ∧ is_Some (py_getitem name pd)).
Proof.
  revert d. induction names as [|n names IHl]; intros d; simpl.
  - split; [auto | intros [?|[Hin _]]; [done | by apply elem_of_nil in Hin]].
  - rewrite IHl. destruct (py_getitem n pd) as [p|] eqn:Hn.
    + rewrite dom_insert, elem_of_union, elem_of_singleton. split.
      * intros [[->|?]|[? ?]]; [right|by left|right]; (split; [set_solver | by eauto]).
      * intros [?|[Hin Hsome]]; [by left; right|].
        apply elem_of_cons in Hin as [->|Hin]; [by left; left | by right].
    + split.
      * intros [?|[? ?]]; [by left | right; split; [set_solver | done]].
      * intros [?|[Hin Hsome]]; [by left|].
        apply elem_of_cons in Hin as [->|Hin]; [|by right].
        rewrite Hn in Hsome. by destruct Hsome.
Qed.

Lemma collect_states_lookup pd d names name st :
  collect_states pd d names !! name = Some st →
  d !! name = Some st ∨ ∃ policy, py_getitem name pd = Some policy ∧ st = policy_get_state policy.
Proof.
  revert d. induction names as [|n names IH]; intros d; simpl; [by left|].
  intros Hl. apply IH in Hl as [Hl|?]; [|by right].
  destruct (py_getitem n pd) as [p|] eqn:Hn; [|by left].
  destruct (decide (n = name)) as [->|Hne].
  - rewrite lookup_insert_eq in Hl. injection Hl as <-. right. eauto.
  - rewrite lookup_insert_ne in Hl by done. by left.
Qed.

Lemma current_states_iff self (P Q : string → Prop) d :
  (∀ name, P name ↔ Q name) → current_states self P d → current_states self Q d.
Proof.
  intros HPQ [Hdom Hval]. split; [|done]. intros name. by rewrite Hdom.
Qed.

(** Python's index of a version of the range of [get_state] and the
    rounds after [cur_version]. *)
Lemma range_touched self cur_version name :
  - Z.of_nat (length (AbsPolicyManager._update_history self)) <= cur_version + 1 →
  (∃ i s, i ∈ py_range (cur_version + 1)
                (Z.of_nat (length (AbsPolicyManager._update_history self))) ∧
          py_index (AbsPolicyManager._update_history self) i = Some s ∧ name ∈ s)
  ↔ touched self cur_version name.
Proof.
  intros Hlow. set (h := AbsPolicyManager._update_history self) in *.
  unfold py_range, touched, py_index. fold h. split.
  - intros (i & s & Hi & Hs & Hin). apply elem_of_seqZ in Hi.
    destruct (decide (0 <= i)).
    + exists (Z.to_nat i), s. split_and!; [lia|done..].
    + destruct (decide (- Z.of_nat (length h) <= i)); [|done].
      exists (Z.to_nat (Z.of_nat (length h) + i)), s. split_and!; [lia|done..].
  - intros (r & s & Hr & Hs & Hin). exists (Z.of_nat r), s.
    pose proof (lookup_lt_Some _ _ _ Hs). split_and!; [|by rewrite decide_True, Nat2Z.id by lia|done].
    apply elem_of_seqZ. lia.
Qed.

Lemma range_valid self cur_version :
  - Z.of_nat (length (AbsPolicyManager._update_history self)) <= cur_version + 1 →
  Forall (λ i, is_Some (py_index (AbsPolicyManager._update_history self) i))
         (py_range (cur_version + 1) (Z.of_nat (length (AbsPolicyManager._update_history self)))).
Proof.
  intros Hlow. apply Forall_forall. intros i Hi. apply elem_of_seqZ in Hi.
  unfold py_index. destruct (decide (0 <= i)).
  - apply lookup_lt_is_Some. lia.
  - rewrite decide_True by lia. apply lookup_lt_is_Some. lia.
Qed.

Lemma history_known_names self idxs :
  history_known self →
  Forall (λ name, is_Some (py_getitem name (AbsPolicyManager.policy_dict self)))
         (elements (union_rounds (AbsPolicyManager._update_history self) ∅ idxs)).
Proof.
  intros [_ Hknown]. apply Forall_forall. intros name Hname.
  apply elem_of_elements, elem_of_union_rounds in Hname as [Hname|(i & s & _ & Hs & Hin)].
  { set_solver. }
  rewrite Forall_forall in Hknown. apply (Hknown s); [|done].
  unfold py_index in Hs. repeat case_decide; try done; by eapply list_elem_of_lookup_2.
Qed.

(** The value of [get_state] for an explicit version. *)
Lemma get_state_value self cur_version :
  history_known self →
  - AbsPolicyManager.version self - 2 <= cur_version →
  ∃ d, AbsPolicyManager.get_state (Some cur_version) self = (inr d, self, []) ∧
       current_states self (touched self cur_version) d.
Proof.
  intros Hknown Hlow. unfold AbsPolicyManager.version in Hlow.
  assert (- Z.of_nat (length (AbsPolicyManager._update_history self)) <= cur_version + 1)
    as Hlow' by lia.
  eexists. split.
  - unfold AbsPolicyManager.get_state. mstep.
    erewrite bind_inr; last by rewrite history_loop by by apply range_valid.
    rewrite history_loop by by apply range_valid. unfold state, trace; simpl.
    rewrite states_loop by by apply history_known_names. done.
  - split.
    + intros name. rewrite collect_states_dom, <-range_touched by done.
      rewrite dom_empty, elem_of_elements, elem_of_union_rounds. split.
      * intros [?|[[?|?] _]]; [set_solver..|done].
      * intros Hex. right. split; [by right|].
        pose proof (history_known_names self
          (py_range (cur_version + 1)
             (Z.of_nat (length (AbsPolicyManager._update_history self)))) Hknown) as Hall.
        rewrite Forall_forall in Hall. apply Hall.
        apply elem_of_elements, elem_of_union_rounds. by right.
    + intros name st Hl. apply collect_states_lookup in Hl as [Hl|?]; [|done].
      by rewrite lookup_empty in Hl.
Qed.

Lemma get_state_default self :
  AbsPolicyManager.get_state None self
  = AbsPolicyManager.get_state (Some (AbsPolicyManager.version self - 1)) self.
Proof.
  unfold AbsPolicyManager.get_state. by mstep.
Qed.

Lemma touched_recent self name :
  touched self (AbsPolicyManager.version self - 1) name ↔
  ∃ recent, last (AbsPolicyManager._update_history self) = Some recent ∧ name ∈ recent.
Proof.
  unfold touched, AbsPolicyManager.version. rewrite last_lookup. split.
  - intros (r & s & Hr & Hs & Hin). exists s. split; [|done].
    pose proof (lookup_lt_Some _ _ _ Hs).
    replace (pred (length (AbsPolicyManager._update_history self))) with r by lia. done.
  - intros (s & Hs & Hin). pose proof (lookup_lt_Some _ _ _ Hs).
    exists (pred (length (AbsPolicyManager._update_history self))), s.
    split_and!; [lia|done..].
Qed.

End GetStateValue.

Section GetStateClaims.
Context {PI : AbsCorePolicy}.
Implicit Types (self : AbsPolicyManager.t).

Lemma get_state_recent self recent :
  history_known self →
  last (AbsPolicyManager._update_history self) = Some recent →
  ∃ d, AbsPolicyManager.get_state None self = (inr d, self, []) ∧
       current_states self (λ name, name ∈ recent) d.
Proof.
  intros Hknown Hlast.
  destruct (get_state_value self (AbsPolicyManager.version self - 1) Hknown) as (d & Hd & Hcur).
  { unfold AbsPolicyManager.version.
    destruct (AbsPolicyManager._update_history self); [done | simpl; lia]. }
  exists d. split; [by rewrite get_state_default|].
  eapply current_states_iff; [|exact Hcur].
  intros name. rewrite touched_recent, Hlast. naive_solver.
Qed.

(** C4: for a manager whose history names managed policies only, and for
    every [since_version] from which Python can index the history
    ([since_version >= -version - 2], so every version number and [-1]),
    [get_state(since_version)] returns, without changing the manager, a
    dictionary whose keys are exactly the names recorded in the rounds
    [since_version + 1 .. version] of the version history, each mapped to
    the state its policy has now. *)
Theorem get_state_union self (since_version : Z) :
  history_known self →
  - AbsPolicyManager.version self - 2 <= since_version →
  ∃ d, AbsPolicyManager.get_state (Some since_version) self = (inr d, self, []) ∧
       (∀ name, name ∈ dom d ↔
          ∃ (round : nat) (names : gset string),
            since_version + 1 <= Z.of_nat round <= AbsPolicyManager.version self ∧
            AbsPolicyManager._update_history self !! round = Some names ∧ name ∈ names) ∧
       (∀ name st, d !! name = Some st →
          ∃ policy, py_getitem name (AbsPolicyManager.policy_dict self) = Some policy ∧
                    st = policy_get_state policy).
Proof.
  intros Hknown Hlow.
  destruct (get_state_value self since_version Hknown Hlow) as (d & Hd & Hdom & Hval).
  exists d. split_and!; [done| |done].
  intros name. rewrite Hdom. unfold touched, AbsPolicyManager.version. split.
  - intros (r & s & Hr & Hs & Hin). exists r, s.
    pose proof (lookup_lt_Some _ _ _ Hs). split_and!; [lia..|done|done].
  - intros (r & s & Hr & Hs & Hin). exists r, s. split_and!; [lia|done..].
Qed.

(** X9: a [since_version] too far below zero is an error.  For
    [since_version < -version - 2] the first history entry that
    [get_state] reads lies before the start of the list, also for Python's
    negative indices, and the call raises [IndexError]. *)
Lemma get_state_index_error self (since_version : Z) :
  since_version < - AbsPolicyManager.version self - 2 →
  result (AbsPolicyManager.get_state (Some since_version) self) = inl IndexError.
Proof.
  intros Hlow. unfold AbsPolicyManager.version in Hlow.
  unfold AbsPolicyManager.get_state. mstep.
  erewrite bind_inl; [done|].
  apply history_loop_index_error with (i := since_version + 1).
  - apply elem_of_seqZ. lia.
  - unfold py_index. rewrite decide_False by lia. by rewrite decide_False by lia.
Qed.

(** C5: without an argument [get_state] uses [version - 1], so it is
    [get_state(version - 1)]; in a manager whose history names managed
    policies only it returns exactly the policies recorded in the last
    entry of the version history, each with its current state. *)
Theorem get_state_default_recent self :
  history_known self →
  AbsPolicyManager.get_state None self
  = AbsPolicyManager.get_state (Some (AbsPolicyManager.version self - 1)) self ∧
  ∃ recent d,
    last (AbsPolicyManager._update_history self) = Some recent ∧
    AbsPolicyManager.get_state None self = (inr d, self, []) ∧
    (∀ name, name ∈ dom d ↔ name ∈ recent) ∧
    (∀ name st, d !! name = Some st →
       ∃ policy, py_getitem name (AbsPolicyManager.policy_dict self) = Some policy ∧
                 st = policy_get_state policy).
Proof.
  intros Hknown. split; [apply get_state_default|].
  destruct (last (AbsPolicyManager._update_history self)) as [recent|] eqn:Hlast.
  - destruct (get_state_recent self recent Hknown Hlast) as (d & Hd & Hdom & Hval).
    by exists recent, d.
  - apply last_None in Hlast. by destruct Hknown.
Qed.

End GetStateClaims.

(** ** Construction *)

Section Construction.
Context {PI : AbsCorePolicy}.

Lemma py_getitem_is_Some {V} (d : pydict V) name :
  is_Some (py_getitem name d) ↔ name ∈ py_keys d.
Proof.
  unfold py_keys. induction d as [|[k v] d IHd]; simpl.
  - split; [by intros [? ?] | by intros ?%elem_of_nil].
  - rewrite elem_of_cons. case_decide as Hk; subst.
    + split; [by left | by eexists].
    + rewrite IHd. naive_solver.
Qed.

Lemma check_policies_keys pd ps :
  AbsPolicyManager.check_policies pd = inr ps → py_keys ps = py_keys pd.
Proof.
  revert ps. induction pd as [|[name [p|repr]] pd IHpd]; intros ps; simpl; [by intros [= <-]| |done].
  destruct (AbsPolicyManager.check_policies pd) as [e|ps']; [done|].
  intros [= <-]. unfold py_keys in *. simpl. f_equal. by apply IHpd.
Qed.

Lemma check_policies_foreign pd :
  Exists (λ item, ∃ repr, item.2 = Foreign repr) pd →
  AbsPolicyManager.check_policies pd
  = inl (ValueError "Only 'AbsCorePolicy' instances can be managed by a policy manager.").
Proof.
  induction pd as [|[name [p|repr]] pd IHpd]; simpl; intros Hex.
  - by apply Exists_nil in Hex.
  - apply Exists_cons in Hex as [[repr [=]]|Hex]. by rewrite IHpd.
  - done.
Qed.

Lemma check_policies_core pd :
  Forall (λ item, ∃ p, item.2 = Core p) pd →
  ∃ ps, AbsPolicyManager.check_policies pd = inr ps.
Proof.
  induction 1 as [|[name [p|repr]] pd [p' Hp] _ [ps IHps]]; simpl; [by eauto| |done].
  rewrite IHps. eauto.
Qed.

Lemma base_init_inv pd trig warm cb (b : AbsPolicyManager.t) :
  AbsPolicyManager.__init__ pd trig warm cb = inr b →
  py_keys (AbsPolicyManager.policy_dict b) = py_keys pd ∧
  AbsPolicyManager._update_history b = [list_to_set (py_keys pd)].
Proof.
  unfold AbsPolicyManager.__init__.
  destruct (AbsPolicyManager.check_policies pd) as [e|ps] eqn:Hps; [done|].
  intros [= <-]; simpl. by rewrite (check_policies_keys _ _ Hps).
Qed.

Lemma base_init_known pd trig warm cb (b : AbsPolicyManager.t) :
  AbsPolicyManager.__init__ pd trig warm cb = inr b → history_known b.
Proof.
  intros Hb. destruct (base_init_inv _ _ _ _ _ Hb) as [Hkeys Hh].
  split; rewrite Hh; [done|]. apply Forall_singleton. intros name Hname.
  apply py_getitem_is_Some. rewrite Hkeys. by apply elem_of_list_to_set in Hname.
Qed.

(** Right after the base constructor. *)
Lemma base_init_initial pd trig warm cb (b : AbsPolicyManager.t) :
  AbsPolicyManager.__init__ pd trig warm cb = inr b →
  initial pd id AbsPolicyManager.version AbsPolicyManager.get_state b.
Proof.
  intros Hb. destruct (base_init_inv _ _ _ _ _ Hb) as [Hkeys Hh]. simpl.
  split_and!; [done|by unfold AbsPolicyManager.version; rewrite Hh|done|].
  destruct (get_state_recent b (list_to_set (py_keys pd))) as (d & Hd & Hcur).
  - by eapply base_init_known.
  - by rewrite Hh.
  - exists d. split; [done|]. eapply current_states_iff; [|exact Hcur].
    intros name. apply elem_of_list_to_set.
Qed.

(** A subclass method that runs the inherited [get_state]. *)
Lemma zoom_get_state {T} (base : T → AbsPolicyManager.t) (set_base : AbsPolicyManager.t → T → T)
    (self : T) d :
  set_base (base self) self = self →
  AbsPolicyManager.get_state None (base self) = (inr d, base self, []) →
  zoom base set_base (AbsPolicyManager.get_state None) self = (inr d, self, []).
Proof. intros Hset Hd. unfold zoom. by rewrite Hd, Hset. Qed.

Lemma multi_process_init_trainers_base num_trainers funcs (b : AbsPolicyManager.t) :
  preserves (λ self, MultiProcessPolicyManager.base self = b)
            (MultiProcessPolicyManager.init_trainers num_trainers funcs).
Proof.
  unfold MultiProcessPolicyManager.init_trainers, MultiProcessPolicyManager.assign_trainer,
    MultiProcessPolicyManager.start_trainer.
  compositional; by intros [].
Qed.

Lemma multi_node_init_trainers_base num_trainers acks (b : AbsPolicyManager.t) :
  preserves (λ self, MultiNodePolicyManager.base self = b)
            (MultiNodePolicyManager.init_trainers num_trainers acks).
Proof.
  unfold MultiNodePolicyManager.init_trainers, MultiNodePolicyManager.assign_trainer,
    MultiNodePolicyManager.send_init, MultiNodePolicyManager.recv_ack.
  compositional; by intros [].
Qed.

Lemma multi_process_init_base pd num_trainers funcs trig warm cb self tr :
  MultiProcessPolicyManager.__init__ pd num_trainers funcs trig warm cb = (inr self, tr) →
  AbsPolicyManager.__init__ pd trig warm cb = inr (MultiProcessPolicyManager.base self).
Proof.
  unfold MultiProcessPolicyManager.__init__.
  destruct (AbsPolicyManager.__init__ pd trig warm cb) as [e|b]; [done|].
  pose proof (multi_process_init_trainers_base num_trainers funcs b
                (MultiProcessPolicyManager.Build b ∅ [] ∅ ∅ []) eq_refl) as Hbase.
  unfold state in Hbase.
  destruct (MultiProcessPolicyManager.init_trainers _ _ _) as [[[e|[]] self'] tr']; [done|].
  intros [= <- <-]. simpl in Hbase. by rewrite Hbase.
Qed.

Lemma multi_node_init_base pd workers num_trainers trig warm cb acks self tr :
  MultiNodePolicyManager.__init__ pd workers num_trainers trig warm cb acks = (inr self, tr) →
  AbsPolicyManager.__init__ pd trig warm cb = inr (MultiNodePolicyManager.base self).
Proof.
  unfold MultiNodePolicyManager.__init__.
  destruct (AbsPolicyManager.__init__ pd trig warm cb) as [e|b]; [done|].
  pose proof (multi_node_init_trainers_base num_trainers acks b
                (MultiNodePolicyManager.Build b workers (Z.of_nat (length workers)) ∅ ∅ ∅ [])
                eq_refl) as Hbase.
  unfold state in Hbase.
  destruct (MultiNodePolicyManager.init_trainers _ _ _) as [[[e|[]] self'] tr']; [done|].
  intros [= <- <-]. simpl in Hbase. by rewrite Hbase.
Qed.

(** C10: right after construction, a manager of any of the three classes
    manages the policies it was given, has version 0 and a version history
    of one entry, the set of all policy names; [get_state()] without
    argument returns, without changing the manager, the current state of
    every managed policy and nothing else. *)
Theorem constructed_initial (pd : pydict pyobj) (trig warm : option (gmap string Z)) (cb : bool) :
  (∀ self, LocalPolicyManager.__init__ pd trig warm cb = inr self →
     initial pd LocalPolicyManager.base LocalPolicyManager.version
             LocalPolicyManager.get_state self) ∧
  (∀ num_trainers funcs self tr,
     MultiProcessPolicyManager.__init__ pd num_trainers funcs trig warm cb = (inr self, tr) →
     initial pd MultiProcessPolicyManager.base MultiProcessPolicyManager.version
             MultiProcessPolicyManager.get_state self) ∧
  (∀ workers num_trainers acks self tr,
     MultiNodePolicyManager.__init__ pd workers num_trainers trig warm cb acks = (inr self, tr) →
     initial pd MultiNodePolicyManager.base MultiNodePolicyManager.version
             MultiNodePolicyManager.get_state self).
Proof.
  split_and!.
  - intros self. unfold LocalPolicyManager.__init__.
    destruct (AbsPolicyManager.__init__ pd trig warm cb) as [e|b] eqn:Hb; [done|].
    intros [= <-]. destruct (base_init_initial _ _ _ _ _ Hb) as (Hk & Hv & Hh & d & Hd & Hcur).
    split_and!; [done..|]. exists d. split; [|done]. by apply zoom_get_state.
  - intros num_trainers funcs self tr Hinit. apply multi_process_init_base in Hinit.
    destruct (base_init_initial _ _ _ _ _ Hinit) as (Hk & Hv & Hh & d & Hd & Hcur).
    split_and!; [done..|]. exists d. split; [|done].
    apply zoom_get_state; [by destruct self | done].
  - intros workers num_trainers acks self tr Hinit. apply multi_node_init_base in Hinit.
    destruct (base_init_initial _ _ _ _ _ Hinit) as (Hk & Hv & Hh & d & Hd & Hcur).
    split_and!; [done..|]. exists d. split; [|done].
    apply zoom_get_state; [by destruct self | done].
Qed.

End Construction.

Section Validation.
Context {PI : AbsCorePolicy}.

Lemma multi_process_init_trainers_raises num_trainers funcs :
  raises_only not_value_error (MultiProcessPolicyManager.init_trainers num_trainers funcs).
Proof.
  unfold MultiProcessPolicyManager.init_trainers, MultiProcessPolicyManager.assign_trainer,
    MultiProcessPolicyManager.start_trainer.
  compositional; done.
Qed.

Lemma multi_node_init_trainers_raises num_trainers acks :
  raises_only not_value_error (MultiNodePolicyManager.init_trainers num_trainers acks).
Proof.
  unfold MultiNodePolicyManager.init_trainers, MultiNodePolicyManager.assign_trainer,
    MultiNodePolicyManager.send_init, MultiNodePolicyManager.recv_ack.
  compositional; done.
Qed.

(** C8: a constructor of any of the three classes, given a policy
    dictionary with a value that is not an [AbsCorePolicy] instance, raises
    [ValueError] and returns no manager (and has started no trainer and sent
    no message), so no update can run; given only [AbsCorePolicy]
    instances, the base and local constructors return a manager and the two
    distributed constructors do not raise [ValueError]. *)
Theorem construction_validation (pd : pydict pyobj) (trig warm : option (gmap string Z))
    (cb : bool) :
  (Exists (λ item, ∃ repr, item.2 = Foreign repr) pd →
   ∃ msg,
     AbsPolicyManager.__init__ pd trig warm cb = inl (ValueError msg) ∧
     LocalPolicyManager.__init__ pd trig warm cb = inl (ValueError msg) ∧
     (∀ num_trainers funcs,
        MultiProcessPolicyManager.__init__ pd num_trainers funcs trig warm cb
        = (inl (ValueError msg), [])) ∧
     (∀ workers num_trainers acks,
        MultiNodePolicyManager.__init__ pd workers num_trainers trig warm cb acks
        = (inl (ValueError msg), []))) ∧
  (Forall (λ item, ∃ p, item.2 = Core p) pd →
   (∃ self, AbsPolicyManager.__init__ pd trig warm cb = inr self) ∧
   (∃ self, LocalPolicyManager.__init__ pd trig warm cb = inr self) ∧
   (∀ num_trainers funcs msg,
      (MultiProcessPolicyManager.__init__ pd num_trainers funcs trig warm cb).1
      ≠ inl (ValueError msg)) ∧
   (∀ workers num_trainers acks msg,
      (MultiNodePolicyManager.__init__ pd workers num_trainers trig warm cb acks).1
      ≠ inl (ValueError msg))).
Proof.
  split.
  - intros Hforeign%check_policies_foreign. eexists.
    unfold MultiNodePolicyManager.__init__, MultiProcessPolicyManager.__init__,
      LocalPolicyManager.__init__, AbsPolicyManager.__init__.
    rewrite Hforeign. done.
  - intros [ps Hps]%check_policies_core.
    unfold MultiNodePolicyManager.__init__, MultiProcessPolicyManager.__init__,
      LocalPolicyManager.__init__, AbsPolicyManager.__init__.
    rewrite Hps. split_and!; [by eexists..| |].
    + intros num_trainers funcs msg.
      match goal with
      | |- context [MultiProcessPolicyManager.init_trainers ?k ?f ?s] =>
          pose proof (multi_process_init_trainers_raises k f s) as Hraise;
          unfold result in Hraise;
          destruct (MultiProcessPolicyManager.init_trainers k f s) as [[[e|[]] self] tr]
      end; simpl; [|done].
      intros [= ->]. by eapply Hraise.
    + intros workers num_trainers acks msg.
      match goal with
      | |- context [MultiNodePolicyManager.init_trainers ?k ?f ?s] =>
          pose proof (multi_node_init_trainers_raises k f s) as Hraise;
          unfold result in Hraise;
          destruct (MultiNodePolicyManager.init_trainers k f s) as [[[e|[]] self] tr]
      end; simpl; [|done].
      intros [= ->]. by eapply Hraise.
Qed.

End Validation.

(** ** The local manager's [update] *)

Section LocalUpdate.
Context {PI : AbsCorePolicy}.
Implicit Types (self : LocalPolicyManager.t) (u : gset string).

Lemma py_getitem_setitem {V} k k' (v : V) (d : pydict V) :
  py_getitem k (py_setitem k' v d) = if decide (k' = k) then Some v else py_getitem k d.
Proof.
  induction d as [|[k0 v0] d IHd]; simpl.
  - done.
  - destruct (decide (k0 = k')) as [->|Hne]; simpl.
    + by destruct (decide (k' = k)).
    + rewrite IHd. destruct (decide (k0 = k)) as [->|]; [by rewrite decide_False|done].
Qed.

Lemma policy_of_run name (b : AbsPolicyManager.t) :
  AbsPolicyManager.policy_of name b
  = (match py_getitem name (AbsPolicyManager.policy_dict b) with
     | Some p => inr p
     | None => inl (KeyError name)
     end, b, []).
Proof.
  unfold AbsPolicyManager.policy_of. mstep.
  by destruct (py_getitem name (AbsPolicyManager.policy_dict b)).
Qed.

Lemma local_policy_of_bind {B} name (k : Policy → M LocalPolicyManager.t B) self :
  bind (zoom LocalPolicyManager.base LocalPolicyManager.set_base
          (AbsPolicyManager.policy_of name)) k self
  = match py_getitem name (AbsPolicyManager.policy_dict (LocalPolicyManager.base self)) with
    | Some p => k p self
    | None => (inl (KeyError name), self, [])
    end.
Proof.
  unfold bind, zoom. rewrite policy_of_run.
  destruct (py_getitem name _); destruct self; simpl; [|done].
  by destruct (k _ _) as [[r s'] tr].
Qed.

(** Runs the loop body of [update] along all its paths. *)
Ltac run_body :=
  unfold LocalPolicyManager.update_policy;
  repeat first
    [ progress mstep
    | rewrite bind_raise
    | rewrite bind_emit
    | rewrite local_policy_of_bind
    | progress unfold LocalPolicyManager.call_learn, LocalPolicyManager.store_policy
    | match goal with
      | |- context [orraise _ ?o] => destruct o eqn:?; simpl orraise
      | |- context [match py_getitem ?n ?d with _ => _ end] => destruct (py_getitem n d) eqn:?
      | |- context [match learn ?p with _ => _ end] => destruct (learn p) eqn:?
      | |- context [if bool_decide ?P then _ else _] => destruct (bool_decide P) eqn:?
      end ];
  unfold result, state, trace, ret, raise; simpl in *.

Lemma body_learn_raised u item self name e :
  EvLearn name (Some e) ∈ trace (LocalPolicyManager.update_policy u item self) →
  result (LocalPolicyManager.update_policy u item self) = inl e.
Proof.
  run_body; try by intros ?%elem_of_nil.
  all: intros ?%list_elem_of_singleton; congruence.
Qed.

Lemma body_returns u item self u' :
  result (LocalPolicyManager.update_policy u item self) = inr u' →
  (u' = u ∧ learn_calls (trace (LocalPolicyManager.update_policy u item self)) = []) ∨
  (u' = u ∪ {[item.1]} ∧
   learn_calls (trace (LocalPolicyManager.update_policy u item self)) = [item.1] ∧
   is_Some (py_getitem item.1 (AbsPolicyManager.policy_dict (LocalPolicyManager.base self)))).
Proof.
  run_body; try done; intros [= <-]; try (by left); by right.
Qed.

Lemma body_history (h : list (gset string)) u item :
  preserves (λ self, AbsPolicyManager._update_history (LocalPolicyManager.base self) = h)
            (LocalPolicyManager.update_policy u item).
Proof. intros self Hh. run_body; done. Qed.

Lemma body_keys (K : string → Prop) u item :
  preserves (λ self, ∀ name,
               is_Some (py_getitem name (AbsPolicyManager.policy_dict (LocalPolicyManager.base self)))
               ↔ K name)
            (LocalPolicyManager.update_policy u item).
Proof.
  intros self HK. run_body; try done.
  all: intros name; rewrite <-HK, ?py_getitem_setitem.
  all: repeat case_decide; subst; try done.
  all: split; intros _; by eexists.
Qed.

Lemma learn_calls_app tr1 tr2 : learn_calls (tr1 ++ tr2) = learn_calls tr1 ++ learn_calls tr2.
Proof. apply omap_app. Qed.

Lemma loop_history (h : list (gset string)) u exps :
  preserves (λ self, AbsPolicyManager._update_history (LocalPolicyManager.base self) = h)
            (foldM LocalPolicyManager.update_policy u exps).
Proof. apply preserves_foldM. intros. apply body_history. Qed.

Lemma loop_learn_raised u exps self name e :
  EvLearn name (Some e) ∈ trace (foldM LocalPolicyManager.update_policy u exps self) →
  result (foldM LocalPolicyManager.update_policy u exps self) = inl e.
Proof.
  revert u self. induction exps as [|item exps IHexps]; intros u self; simpl.
  { by intros ?%elem_of_nil. }
  destruct (result (LocalPolicyManager.update_policy u item self)) as [e0|u1] eqn:Hbody.
  - rewrite (bind_inl _ _ _ _ Hbody). unfold trace at 1, result at 1; simpl.
    intros Hin%body_learn_raised. congruence.
  - rewrite (bind_inr _ _ _ _ Hbody). unfold trace at 1, result at 1; simpl.
    intros [Hin%body_learn_raised|Hin]%elem_of_app; [congruence|]. by apply IHexps.
Qed.


Lemma loop_known u exps self u' name :
  result (foldM LocalPolicyManager.update_policy u exps self) = inr u' →
  name ∈ u' →
  name ∈ u ∨
  is_Some (py_getitem name (AbsPolicyManager.policy_dict (LocalPolicyManager.base self))).
Proof.
  revert u self. induction exps as [|item exps IHexps]; intros u self; simpl.
  { intros [= <-]. by left. }
  destruct (result (LocalPolicyManager.update_policy u item self)) as [e0|u1] eqn:Hbody.
  - by rewrite (bind_inl _ _ _ _ Hbody).
  - rewrite (bind_inr _ _ _ _ Hbody). unfold result at 1; simpl.
    intros Hrest Hname. destruct (IHexps _ _ Hrest Hname) as [Hu1|Hsome].
    + apply body_returns in Hbody as [[-> _]|(-> & _ & Hitem)]; [by left|].
      apply elem_of_union in Hu1 as [?|Heq%elem_of_singleton]; [by left | subst; by right].
    + right. by apply (body_keys
        (λ name, is_Some (py_getitem name
           (AbsPolicyManager.policy_dict (LocalPolicyManager.base self)))) u item self).
Qed.

(** [update] after its loop raised. *)
Lemma update_raised exps self e :
  result (foldM LocalPolicyManager.update_policy ∅ exps self) = inl e →
  LocalPolicyManager.update exps self
  = (inl e, state (foldM LocalPolicyManager.update_policy ∅ exps self),
     trace (foldM LocalPolicyManager.update_policy ∅ exps self)).
Proof. intros Hloop. unfold LocalPolicyManager.update. by rewrite (bind_inl _ _ _ _ Hloop). Qed.

(** [update] after its loop returned [updated]. *)
Lemma update_returned exps self updated :
  result (foldM LocalPolicyManager.update_policy ∅ exps self) = inr updated →
  let out := LocalPolicyManager.update exps self in
  result out = inr tt ∧
  AbsPolicyManager._update_history (LocalPolicyManager.base (state out))
  = AbsPolicyManager._update_history (LocalPolicyManager.base self)
    ++ (if decide (updated = ∅) then [] else [updated]) ∧
  AbsPolicyManager.policy_dict (LocalPolicyManager.base (state out))
  = AbsPolicyManager.policy_dict
      (LocalPolicyManager.base (state (foldM LocalPolicyManager.update_policy ∅ exps self))) ∧
  learn_calls (trace out)
  = learn_calls (trace (foldM LocalPolicyManager.update_policy ∅ exps self)) ∧
  ∀ name e, EvLearn name (Some e) ∈ trace out →
            EvLearn name (Some e) ∈ trace (foldM LocalPolicyManager.update_policy ∅ exps self).
Proof.
  intros Hloop. pose proof (loop_history _ ∅ exps self eq_refl) as Hh. simpl in Hh.
  unfold LocalPolicyManager.update. rewrite (bind_inr _ _ _ _ Hloop).
  set (out := foldM LocalPolicyManager.update_policy ∅ exps self) in *.
  destruct (decide (updated = ∅)) as [Hempty|Hfull];
    destruct (AbsPolicyManager._post_update (LocalPolicyManager.base (state out))) eqn:Hcb;
    mstep; simpl; rewrite ?Hcb; mstep; unfold result, state, trace, ret, emit in *; simpl.
  all: rewrite ?Hh, ?app_nil_r, ?learn_calls_app; simpl; rewrite ?app_nil_r.
  all: split_and!; try done.
  all: by intros name e [?|Hin%list_elem_of_singleton]%elem_of_app.
Qed.

(** C7: in the local manager, when a [learn] call made by [update] raises,
    [update] raises the same exception to its caller and appends nothing to
    the version history: the history and the version are what they were
    before the call. *)
Theorem learn_failure_aborts_round (exps : pydict ExperienceSet) self name e :
  EvLearn name (Some e) ∈ trace (LocalPolicyManager.update exps self) →
  result (LocalPolicyManager.update exps self) = inl e ∧
  AbsPolicyManager._update_history
    (LocalPolicyManager.base (state (LocalPolicyManager.update exps self)))
  = AbsPolicyManager._update_history (LocalPolicyManager.base self) ∧
  LocalPolicyManager.version (state (LocalPolicyManager.update exps self))
  = LocalPolicyManager.version self.
Proof.
  intros Hin.
  assert (result (foldM LocalPolicyManager.update_policy ∅ exps self) = inl e) as Hloop.
  { destruct (result (foldM LocalPolicyManager.update_policy ∅ exps self)) as [e'|updated] eqn:Hr.
    - rewrite (update_raised _ _ _ Hr) in Hin. apply loop_learn_raised in Hin. congruence.
    - destruct (update_returned _ _ _ Hr) as (_ & _ & _ & _ & Hsome).
      apply Hsome, loop_learn_raised in Hin. congruence. }
  pose proof (loop_history _ ∅ exps self eq_refl) as Hh. simpl in Hh.
  rewrite (update_raised _ _ _ Hloop).
  unfold LocalPolicyManager.version, AbsPolicyManager.version, result, state; simpl.
  unfold state in Hh. by rewrite Hh.
Qed.


(** The history keeps naming managed policies only. *)
Lemma update_history_known exps self :
  history_known (LocalPolicyManager.base self) →
  history_known (LocalPolicyManager.base (state (LocalPolicyManager.update exps self))).
Proof.
  intros [Hne Hknown].
  pose proof (preserves_foldM _ LocalPolicyManager.update_policy ∅ exps
    (body_keys (λ name, is_Some (py_getitem name
       (AbsPolicyManager.policy_dict (LocalPolicyManager.base self))))) self) as Hkeys.
  simpl in Hkeys. specialize (Hkeys (λ _, reflexivity _)).
  pose proof (loop_history _ ∅ exps self eq_refl) as Hh. simpl in Hh.
  destruct (result (foldM LocalPolicyManager.update_policy ∅ exps self)) as [e|updated] eqn:Hr.
  - rewrite (update_raised _ _ _ Hr). unfold state at 1; simpl. split; rewrite Hh; [done|].
    eapply Forall_impl; [exact Hknown|]. intros s Hs name Hname. by apply Hkeys, Hs.
  - destruct (update_returned _ _ _ Hr) as (_ & Hhist & Hpd & _). split; rewrite Hhist.
    { by destruct (AbsPolicyManager._update_history (LocalPolicyManager.base self)). }
    rewrite Hpd. apply Forall_app. split.
    + eapply Forall_impl; [exact Hknown|]. intros s Hs name Hname. by apply Hkeys, Hs.
    + case_decide; [done|]. apply Forall_singleton. intros name Hname. apply Hkeys.
      destruct (loop_known _ _ _ _ _ Hr Hname) as [?|?]; [set_solver|done].
Qed.

Lemma update_rounds_history_known rounds self :
  history_known (LocalPolicyManager.base self) →
  history_known (LocalPolicyManager.base (LocalPolicyManager.update_rounds rounds self).1).
Proof.
  revert self. induction rounds as [|exps rounds IHrounds]; intros self Hknown; simpl; [done|].
  pose proof (update_history_known exps self Hknown) as Hstep. unfold state in Hstep.
  destruct (LocalPolicyManager.update exps self) as [[r self'] tr]; simpl in Hstep.
  specialize (IHrounds self' Hstep).
  by destruct (LocalPolicyManager.update_rounds rounds self') as [self'' outs].
Qed.




(** One round that feeds [exp] to the policy [name]. *)
Lemma round_step `{!AccumulatingStore PI} self name T W pending total (exp : ExperienceSet) :
  tracking self name T W pending total →
  let out := LocalPolicyManager.update [(name, exp)] self in
  let fire := bool_decide (T <= pending + size exp) && bool_decide (W <= total + size exp) in
  result out = inr tt ∧
  learn_calls (trace out) = (if fire then [name] else []) ∧
  tracking (state out) name T W (if fire then 0 else pending + size exp) (total + size exp).
Proof.
  intros (HT & HW & (p & Hp & Hsize) & Hpending). unfold tracking, LocalPolicyManager.update.
  simpl foldM. rewrite !bind_assoc.
  unfold LocalPolicyManager.update_policy. cbv zeta. cbn [fst snd]. rewrite !bind_assoc.
  rewrite local_policy_of_bind, Hp. unfold LocalPolicyManager.store_policy. mstep. simpl.
  rewrite HT. mstep. rewrite Hpending.
  destruct (learn_returns (experience_store_put p exp)) as (p' & Hlearn & Hsize').
  rewrite size_put, Hsize in Hsize'. fold (size exp) in Hsize'.
  assert (experience_store_size (experience_store_put p exp) = total + size exp) as Hput
    by by rewrite size_put, Hsize.
  destruct (bool_decide (T <= pending + size exp)); simpl andb.
  - mstep. simpl. rewrite HW. mstep. rewrite Hput.
    destruct (bool_decide (W <= total + size exp)).
    + unfold LocalPolicyManager.call_learn. rewrite Hlearn. mstep. rewrite bind_emit. mstep.
      rewrite decide_False by set_solver. mstep. simpl.
      destruct (AbsPolicyManager._post_update (LocalPolicyManager.base self));
        mstep; unfold emit, ret, result, state, trace; simpl;
        rewrite !py_getitem_setitem, !decide_True, lookup_insert_eq by done;
        split_and!; try done; by eexists.
    + mstep. rewrite decide_True by done. mstep. simpl.
      destruct (AbsPolicyManager._post_update (LocalPolicyManager.base self));
        mstep; unfold emit, ret, result, state, trace; simpl;
        rewrite !py_getitem_setitem, !decide_True, lookup_insert_eq by done;
        split_and!; try done; by eexists.
  - mstep. rewrite decide_True by done. mstep. simpl.
    destruct (AbsPolicyManager._post_update (LocalPolicyManager.base self));
      mstep; unfold emit, ret, result, state, trace; simpl;
      rewrite !py_getitem_setitem, !decide_True, lookup_insert_eq by done;
      split_and!; try done; by eexists.
Qed.

Lemma last_cons_default {A B} (f : A → B) (x : B) (a : A) (l : list A) :
  default x (f <$> last (a :: l)) = default (f a) (f <$> last l).
Proof. rewrite last_cons. by destruct (last l). Qed.

(** The rounds of a policy fed batch after batch follow [rounds_spec]. *)
Lemma rounds_follow_spec `{!AccumulatingStore PI} self name T W pending total
    (batches : list ExperienceSet) :
  tracking self name T W pending total →
  let run := LocalPolicyManager.update_rounds ((λ exp, [(name, exp)]) <$> batches) self in
  (λ out, (out.1, learn_calls out.2)) <$> run.2
  = (λ r, (inr tt, if r.1 : bool then [name] else [])) <$> rounds_spec T W pending total (size <$> batches) ∧
  default 0 (LocalPolicyManager._new_exp_counter run.1 !! name)
  = default pending (snd <$> last (rounds_spec T W pending total (size <$> batches))).
Proof.
  revert self pending total. induction batches as [|exp batches IHbatches];
    intros self pending total Htrack; simpl.
  { split; [done|]. apply Htrack. }
  destruct (round_step self name T W pending total exp Htrack) as (Hres & Hcalls & Htrack').
  unfold result, state, trace in *.
  destruct (LocalPolicyManager.update [(name, exp)] self) as [[r self'] tr]; simpl in *.
  specialize (IHbatches self' _ _ Htrack').
  destruct (LocalPolicyManager.update_rounds _ self') as [self'' outs]; simpl in *.
  destruct IHbatches as [IHouts IHcounter]. subst r.
  destruct (bool_decide (T <= pending + size exp) && bool_decide (W <= total + size exp));
    simpl; (split; [f_equal; [by rewrite Hcalls | exact IHouts] | etrans; [exact IHcounter|]]).
  all: by rewrite last_cons_default.
Qed.

(** C3: a policy with trigger [T] and warm-up [W], no experience in its
    store and no pending count, is fed one batch per [update] call.  Then
    every call returns, and [learn] is called in a round exactly when,
    after adding the batch, the count pending since the last [learn] is at
    least [T] and the total count is at least [W] (one call in such a
    round, none in the others); the pending count kept by the manager is 0
    after a round with [learn] and the accumulated count otherwise.  This
    is [rounds_spec] started from 0 and 0. *)
Theorem trigger_warmup_rounds `{!AccumulatingStore PI} self name (T W : Z) policy
    (batches : list ExperienceSet) :
  AbsPolicyManager.update_trigger (LocalPolicyManager.base self) !! name = Some T →
  AbsPolicyManager.warmup (LocalPolicyManager.base self) !! name = Some W →
  py_getitem name (AbsPolicyManager.policy_dict (LocalPolicyManager.base self)) = Some policy →
  experience_store_size policy = 0 →
  default 0 (LocalPolicyManager._new_exp_counter self !! name) = 0 →
  let run := LocalPolicyManager.update_rounds ((λ exp, [(name, exp)]) <$> batches) self in
  (λ out, (out.1, learn_calls out.2)) <$> run.2
  = (λ r, (inr tt, if r.1 : bool then [name] else []))
      <$> rounds_spec T W 0 0 (size <$> batches) ∧
  default 0 (LocalPolicyManager._new_exp_counter run.1 !! name)
  = default 0 (snd <$> last (rounds_spec T W 0 0 (size <$> batches))).
Proof.
  intros HT HW Hpolicy Hsize Hpending.
  apply rounds_follow_spec. unfold tracking. eauto 10.
Qed.

End LocalUpdate.

(** ** Assignment of policies to trainers *)

Section Assignment.
Context {PI : AbsCorePolicy}.


Lemma multi_process_assign_zero i n names (self : MultiProcessPolicyManager.t) :
  result (foldM (MultiProcessPolicyManager.assign_trainer 0) i (n :: names) self)
  = inl ZeroDivisionError.
Proof. done. Qed.










End Assignment.

(** ** The distributed managers' [update] on a partial round *)

Section PartialRound.
Context {PI : AbsCorePolicy}.

(** The dictionary comprehension over [exp_to_send] returns when every
    name has a flushed batch and raises [KeyError] at the first that has
    none. *)
Lemma experiences_for_result {S} (exp_to_send : gmap string ExperienceSet) names (s : S) :
  (∃ d, experiences_for exp_to_send names s = (inr d, s, [])) ∨
  (∃ name, name ∈ names ∧ exp_to_send !! name = None ∧
           experiences_for exp_to_send names s = (inl (KeyError name), s, [])).
Proof.
  unfold experiences_for. generalize ([] : pydict ExperienceSet).
  induction names as [|n names IHnames]; intros d; simpl.
  { left. by eexists. }
  destruct (exp_to_send !! n) as [exp|] eqn:Hn; simpl.
  - mstep. destruct (IHnames (py_setitem n exp d)) as [?|(name & Hin & Hnone & Hrun)]; [by left|].
    right. exists name. split_and!; [by right|done..].
  - right. exists n. split_and!; [by left|done..].
Qed.

Lemma experiences_for_missing {S} (exp_to_send : gmap string ExperienceSet) names (s : S) name :
  name ∈ names → exp_to_send !! name = None →
  ∃ key, exp_to_send !! key = None ∧
         experiences_for exp_to_send names s = (inl (KeyError key), s, []).
Proof.
  intros Hin Hnone. destruct (experiences_for_result exp_to_send names s)
    as [[d Hrun]|(key & _ & Hkey & Hrun)]; [|by eauto].
  exfalso. revert Hrun. unfold experiences_for. generalize ([] : pydict ExperienceSet).
  induction names as [|n names IHnames]; intros d0; simpl.
  { by apply elem_of_nil in Hin. }
  apply elem_of_cons in Hin as [<-|Hin].
  - by rewrite Hnone.
  - destruct (exp_to_send !! n) as [exp|]; simpl; [|done]. mstep. by apply IHnames.
Qed.

Lemma py_getitem_touch k k' (d : pydict (list string)) :
  default [] (py_getitem k (py_touch k' d)) = default [] (py_getitem k d).
Proof.
  unfold py_touch. destruct (py_getitem k' d) as [xs|] eqn:Hk'; [done|].
  induction d as [|[k0 v0] d IHd]; simpl in *.
  - by case_decide.
  - destruct (decide (k0 = k')); [done|]. case_decide; [done|]. by apply IHd.
Qed.

(** *** Multi-process *)

(** The first loop does not touch the pipes and the assignment, and
    flushes batches of policies of the round only. *)
Lemma multi_process_cache_frame (ends : list string) (trainers : pydict (list string)) acc exps :
  preserves (λ self, MultiProcessPolicyManager._manager_end self = ends ∧
                     MultiProcessPolicyManager._trainer2policies self = trainers)
            (foldM MultiProcessPolicyManager.cache_experience acc exps).
Proof.
  unfold MultiProcessPolicyManager.cache_experience. compositional; by intros [].
Qed.

Lemma multi_process_cache_raises acc exps :
  raises_only (λ e, ∃ key, e = KeyError key)
              (foldM MultiProcessPolicyManager.cache_experience acc exps).
Proof.
  unfold MultiProcessPolicyManager.cache_experience. compositional; by eexists.
Qed.

Lemma multi_process_cache_flushed acc exps self acc' name :
  result (foldM MultiProcessPolicyManager.cache_experience acc exps self) = inr acc' →
  is_Some (acc'.1 !! name) → is_Some (acc.1 !! name) ∨ name ∈ exps.*1.
Proof.
  revert acc self. induction exps as [|item exps IHexps]; intros acc self; simpl.
  { intros [= <-]. by left. }
  destruct (result (MultiProcessPolicyManager.cache_experience acc item self))
    as [e|acc1] eqn:Hbody.
  { by rewrite (bind_inl _ _ _ _ Hbody). }
  rewrite (bind_inr _ _ _ _ Hbody). unfold result at 1; simpl.
  intros Hrest Hsome. destruct (IHexps _ _ Hrest Hsome) as [Hacc1|Hin]; [|right; by right].
  revert Hbody. unfold MultiProcessPolicyManager.cache_experience. mstep.
  repeat first
    [ progress mstep
    | match goal with
      | |- context [orraise _ ?o] => destruct o; simpl orraise
      | |- context [if bool_decide ?P then _ else _] => destruct (bool_decide P)
      end ];
    unfold result, ret, raise; simpl; try done; intros [= <-]; try (by left).
  all: simpl in Hacc1; destruct (decide (item.1 = name)) as [<-|Hne];
    [right; by left | left; by rewrite lookup_insert_ne in Hacc1].
Qed.

Lemma multi_process_send_raises exp_to_send ends (self : MultiProcessPolicyManager.t)
    trainer_id name :
  trainer_id ∈ ends →
  name ∈ default [] (py_getitem trainer_id (MultiProcessPolicyManager._trainer2policies self)) →
  exp_to_send !! name = None →
  ∃ key, result (foldM (MultiProcessPolicyManager.send_train exp_to_send) tt ends self)
         = inl (KeyError key).
Proof.
  intros Hin Hname Hnone. revert self Hname.
  induction ends as [|tid ends IHends]; intros self Hname; simpl.
  { by apply elem_of_nil in Hin. }
  unfold MultiProcessPolicyManager.send_train at 1. mstep. simpl.
  match goal with |- context [bind (experiences_for _ ?names) _ ?s] =>
    destruct (experiences_for_result exp_to_send names s)
      as [[d Hrun]|(key & _ & _ & Hrun)] end.
  - erewrite bind_inr by by rewrite Hrun. rewrite Hrun.
    unfold state, trace; simpl. rewrite bind_emit. unfold result at 1; simpl.
    apply elem_of_cons in Hin as [->|Hin].
    + rewrite py_getitem_touch in Hrun.
      destruct (experiences_for_missing exp_to_send _
        (MultiProcessPolicyManager.set_trainer2policies
           (py_touch tid (MultiProcessPolicyManager._trainer2policies self)) self)
        name Hname Hnone) as (key & _ & Hraise).
      rewrite Hraise in Hrun. done.
    + apply IHends; [done|]. simpl. by rewrite py_getitem_touch.
  - exists key. erewrite bind_inl by by rewrite Hrun. done.
Qed.

(** [update] raises [KeyError] whenever a policy of a trainer is not in
    the round. *)
Lemma multi_process_update_partial_round exps replies (self : MultiProcessPolicyManager.t)
    trainer_id name :
  trainer_id ∈ MultiProcessPolicyManager._manager_end self →
  name ∈ default [] (py_getitem trainer_id (MultiProcessPolicyManager._trainer2policies self)) →
  name ∉ exps.*1 →
  ∃ key, result (MultiProcessPolicyManager.update exps replies self) = inl (KeyError key).
Proof.
  intros Hend Hname Hround. unfold MultiProcessPolicyManager.update.
  pose proof (multi_process_cache_frame _ _ (∅, ∅) exps self (conj eq_refl eq_refl))
    as [Hends Htrainers].
  pose proof (multi_process_cache_raises (∅, ∅) exps self) as Hraises.
  pose proof (multi_process_cache_flushed (∅, ∅) exps self) as Hflushed.
  destruct (result (foldM MultiProcessPolicyManager.cache_experience (∅, ∅) exps self))
    as [e|sent] eqn:Hcache.
  { destruct (Hraises e eq_refl) as [key ->]. exists key. by rewrite (bind_inl _ _ _ _ Hcache). }
  rewrite (bind_inr _ _ _ _ Hcache). mstep. unfold result at 1. simpl.
  rewrite Hends.
  destruct (multi_process_send_raises sent.1
              (MultiProcessPolicyManager._manager_end self)
              (state (foldM MultiProcessPolicyManager.cache_experience (∅, ∅) exps self))
              trainer_id name) as [key Hkey]; [done|by rewrite Htrainers| |].
  { apply eq_None_not_Some. intros Hsome.
    destruct (Hflushed sent name eq_refl Hsome) as [Hempty|?]; [|done].
    simpl in Hempty. rewrite lookup_empty in Hempty. by destruct Hempty. }
  exists key. erewrite bind_inl by exact Hkey. done.
Qed.

(** *** Multi-node *)

(** The first loop does not touch the assignment, and
    flushes batches of policies of the round only. *)
Lemma multi_node_cache_frame (trainers : pydict (list string)) acc exps :
  preserves (λ self, MultiNodePolicyManager._trainer2policies self = trainers)
            (foldM MultiNodePolicyManager.cache_experience acc exps).
Proof.
  unfold MultiNodePolicyManager.cache_experience. compositional; by intros [].
Qed.

Lemma multi_node_cache_raises acc exps :
  raises_only (λ e, ∃ key, e = KeyError key)
              (foldM MultiNodePolicyManager.cache_experience acc exps).
Proof.
  unfold MultiNodePolicyManager.cache_experience. compositional; by eexists.
Qed.

Lemma multi_node_cache_flushed acc exps self acc' name :
  result (foldM MultiNodePolicyManager.cache_experience acc exps self) = inr acc' →
  is_Some (acc'.1 !! name) → is_Some (acc.1 !! name) ∨ name ∈ exps.*1.
Proof.
  revert acc self. induction exps as [|item exps IHexps]; intros acc self; simpl.
  { intros [= <-]. by left. }
  destruct (result (MultiNodePolicyManager.cache_experience acc item self))
    as [e|acc1] eqn:Hbody.
  { by rewrite (bind_inl _ _ _ _ Hbody). }
  rewrite (bind_inr _ _ _ _ Hbody). unfold result at 1; simpl.
  intros Hrest Hsome. destruct (IHexps _ _ Hrest Hsome) as [Hacc1|Hin]; [|right; by right].
  revert Hbody. unfold MultiNodePolicyManager.cache_experience. mstep.
  repeat first
    [ progress mstep
    | match goal with
      | |- context [orraise _ ?o] => destruct o; simpl orraise
      | |- context [if bool_decide ?P then _ else _] => destruct (bool_decide P)
      end ];
    unfold result, ret, raise; simpl; try done; intros [= <-]; try (by left).
  all: simpl in Hacc1; destruct (decide (item.1 = name)) as [<-|Hne];
    [right; by left | left; by rewrite lookup_insert_ne in Hacc1].
Qed.

Lemma multi_node_send_raises exp_to_send trainers (self : MultiNodePolicyManager.t)
    (item : string * list string) name :
  item ∈ trainers → name ∈ item.2 → exp_to_send !! name = None →
  ∃ key, result (foldM (MultiNodePolicyManager.send_learn exp_to_send) tt trainers self)
         = inl (KeyError key).
Proof.
  intros Hin Hname Hnone. revert self.
  induction trainers as [|item0 trainers IHtrainers]; intros self; simpl.
  { by apply elem_of_nil in Hin. }
  unfold MultiNodePolicyManager.send_learn at 1. mstep.
  destruct (experiences_for_result exp_to_send item0.2 self)
    as [[d Hrun]|(key & _ & _ & Hrun)].
  - erewrite bind_inr by by rewrite Hrun. rewrite Hrun.
    unfold state, trace; simpl. rewrite bind_emit. unfold result at 1; simpl.
    apply elem_of_cons in Hin as [->|Hin].
    + destruct (experiences_for_missing exp_to_send _ self name Hname Hnone)
        as (key & _ & Hraise).
      rewrite Hraise in Hrun. done.
    + by apply IHtrainers.
  - exists key. erewrite bind_inl by by rewrite Hrun. done.
Qed.

(** [update] raises [KeyError] whenever a policy of a trainer is not in
    the round. *)
Lemma multi_node_update_partial_round exps replies (self : MultiNodePolicyManager.t)
    (item : string * list string) name :
  item ∈ MultiNodePolicyManager._trainer2policies self → name ∈ item.2 → name ∉ exps.*1 →
  ∃ key, result (MultiNodePolicyManager.update exps replies self) = inl (KeyError key).
Proof.
  intros Hitem Hname Hround. unfold MultiNodePolicyManager.update.
  pose proof (multi_node_cache_frame _ (∅, ∅) exps self eq_refl) as Htrainers.
  simpl in Htrainers.
  pose proof (multi_node_cache_raises (∅, ∅) exps self) as Hraises.
  pose proof (multi_node_cache_flushed (∅, ∅) exps self) as Hflushed.
  destruct (result (foldM MultiNodePolicyManager.cache_experience (∅, ∅) exps self))
    as [e|sent] eqn:Hcache.
  { destruct (Hraises e eq_refl) as [key ->]. exists key. by rewrite (bind_inl _ _ _ _ Hcache). }
  rewrite (bind_inr _ _ _ _ Hcache). mstep. unfold result at 1. simpl.
  rewrite Htrainers.
  destruct (multi_node_send_raises sent.1
              (MultiNodePolicyManager._trainer2policies self)
              (state (foldM MultiNodePolicyManager.cache_experience (∅, ∅) exps self))
              item name) as [key Hkey]; [done|done| |].
  { apply eq_None_not_Some. intros Hsome.
    destruct (Hflushed sent name eq_refl Hsome) as [Hempty|?]; [|done].
    simpl in Hempty. rewrite lookup_empty in Hempty. by destruct Hempty. }
  exists key. erewrite bind_inl by exact Hkey. done.
Qed.

End PartialRound.

(** C2 (the code does not do this): the multi-process and the multi-node
    manager, built for the policies ["A"] and ["B"] on one trainer with the
    default thresholds, are given a round with experience for ["A"] only.
    ["B"] has nothing to flush, yet the message for the trainer is built by
    looking up every policy of the trainer in the flushed batches:
    [update] raises [KeyError] for ["B"] before anything is sent. *)
Theorem update_partial_round_raises (replies : list (reply (PI:=counting false))) :
  (∃ self tr,
     MultiProcessPolicyManager.__init__ (policies_AB false) 1 {["A"; "B"]} None None false
     = (inr self, tr) ∧
     result (MultiProcessPolicyManager.update [("A", batch false 1)] replies self)
     = inl (KeyError "B") ∧
     trace (MultiProcessPolicyManager.update [("A", batch false 1)] replies self) = []) ∧
  (∃ self tr,
     MultiNodePolicyManager.__init__ (policies_AB false) ["TRAINER.0"] 1 None None false
       ["TRAINER.0"]
     = (inr self, tr) ∧
     result (MultiNodePolicyManager.update [("A", batch false 1)] replies self)
     = inl (KeyError "B") ∧
     trace (MultiNodePolicyManager.update [("A", batch false 1)] replies self) = []).
Proof.
  split; eexists _, _; (split; [vm_compute; reflexivity|]); split; vm_compute; reflexivity.
Qed.

(** The same round is served when every policy of the trainer has a batch
    to flush. *)
Example update_full_round_returns :
  ∃ self tr,
    MultiProcessPolicyManager.__init__ (policies_AB false) 1 {["A"; "B"]} None None false
    = (inr self, tr) ∧
    result (MultiProcessPolicyManager.update [("A", batch false 1); ("B", batch false 2)]
              [Reply (PI:=counting false) 0%nat [("A", 1%nat); ("B", 1%nat)]] self)
    = inr tt.
Proof. eexists _, _. split; vm_compute; reflexivity. Qed.


(** ** The statements at concrete managers *)

Lemma local_manager_init :
  LocalPolicyManager.__init__ (policies_AB false) None None false
  = inr (local_manager (PI:=counting false) [("A", fresh); ("B", fresh)]).
Proof. reflexivity. Qed.

Lemma counting_accumulates : AccumulatingStore (counting false).
Proof. split; [done|]. intros p. by eexists. Qed.

Lemma manager_ABA_known : history_known (LocalPolicyManager.base manager_ABA).
Proof.
  apply update_rounds_history_known.
  by apply (base_init_known (PI:=counting false) (policies_AB false) None None false).
Qed.

(** The rounds of the specification's example: trigger 10, warm-up 5,
    batches of 3, 4 and 5. *)
Example rounds_spec_example :
  rounds_spec 10 5 0 0 [3; 4; 5] = [(false, 3); (false, 7); (true, 0)].
Proof. reflexivity. Qed.


Lemma trigger_warmup_rounds_witness :
  let self := manager_T10_W5 in
  let run := LocalPolicyManager.update_rounds
               ((λ exp, [("A", exp)]) <$> [batch false 3; batch false 4; batch false 5]) self in
  AbsPolicyManager.update_trigger (LocalPolicyManager.base self) !! "A" = Some 10 ∧
  AbsPolicyManager.warmup (LocalPolicyManager.base self) !! "A" = Some 5 ∧
  py_getitem "A" (AbsPolicyManager.policy_dict (LocalPolicyManager.base self)) = Some fresh ∧
  experience_store_size (AbsCorePolicy:=counting false) fresh = 0 ∧
  default 0 (LocalPolicyManager._new_exp_counter self !! "A") = 0 ∧
  (λ out, (out.1, learn_calls out.2)) <$> run.2
  = [(inr tt, []); (inr tt, []); (inr tt, ["A"])] ∧
  default 0 (LocalPolicyManager._new_exp_counter run.1 !! "A") = 0.
Proof.
  split_and!; [reflexivity..| |].
  - apply (trigger_warmup_rounds (AccumulatingStore0:=counting_accumulates)
             manager_T10_W5 "A" 10 5 fresh [batch false 3; batch false 4; batch false 5]);
      reflexivity.
  - apply (trigger_warmup_rounds (AccumulatingStore0:=counting_accumulates)
             manager_T10_W5 "A" 10 5 fresh [batch false 3; batch false 4; batch false 5]);
      reflexivity.
Defined.

Lemma get_state_union_witness :
  let self := LocalPolicyManager.base manager_ABA in
  history_known self ∧
  - AbsPolicyManager.version self - 2 <= 0 ∧
  ∃ d, AbsPolicyManager.get_state (Some 0) self = (inr d, self, []) ∧
       (∀ name, name ∈ dom d ↔
          ∃ (round : nat) (names : gset string),
            0 + 1 <= Z.of_nat round <= AbsPolicyManager.version self ∧
            AbsPolicyManager._update_history self !! round = Some names ∧ name ∈ names) ∧
       (∀ name st, d !! name = Some st →
          ∃ policy, py_getitem name (AbsPolicyManager.policy_dict self) = Some policy ∧
                    st = policy_get_state policy).
Proof.
  split_and!; [apply manager_ABA_known | by vm_compute |].
  apply (get_state_union (LocalPolicyManager.base manager_ABA) 0);
    [apply manager_ABA_known | by vm_compute].
Defined.

(** The specification's example: rounds 1, 2 and 3 update ["A"], ["B"]
    and ["A"]; since version 0 both policies changed, and ["A"] comes with
    its state after two [learn] calls; since version 2 only ["A"] did. *)
Example get_state_example :
  let self := LocalPolicyManager.base manager_ABA in
  AbsPolicyManager.version self = 3 ∧
  AbsPolicyManager._update_history self = [{["A"; "B"]}; {["A"]}; {["B"]}; {["A"]}] ∧
  result (AbsPolicyManager.get_state (Some 0) self) = inr {["A" := 2%nat; "B" := 1%nat]} ∧
  result (AbsPolicyManager.get_state (Some 2) self) = inr {["A" := 2%nat]} ∧
  result (AbsPolicyManager.get_state None self) = inr {["A" := 2%nat]}.
Proof. split_and!; vm_compute; reflexivity. Qed.

Lemma get_state_default_recent_witness :
  let self := LocalPolicyManager.base manager_ABA in
  history_known self ∧
  AbsPolicyManager.get_state None self = AbsPolicyManager.get_state (Some 2) self ∧
  ∃ recent d,
    last (AbsPolicyManager._update_history self) = Some recent ∧
    AbsPolicyManager.get_state None self = (inr d, self, []) ∧
    (∀ name, name ∈ dom d ↔ name ∈ recent) ∧
    (∀ name st, d !! name = Some st →
       ∃ policy, py_getitem name (AbsPolicyManager.policy_dict self) = Some policy ∧
                 st = policy_get_state policy).
Proof.
  split; [apply manager_ABA_known|].
  apply (get_state_default_recent (LocalPolicyManager.base manager_ABA)).
  apply manager_ABA_known.
Defined.


Lemma learn_failure_aborts_round_witness :
  let self := local_manager (PI:=counting true) [("A", fresh); ("B", Counting 0 0 true)] in
  let exps := [("A", batch true 1); ("B", batch true 1)] in
  EvLearn "B" (Some (Raised "learn")) ∈ trace (LocalPolicyManager.update exps self) ∧
  result (LocalPolicyManager.update exps self) = inl (Raised "learn") ∧
  AbsPolicyManager._update_history
    (LocalPolicyManager.base (state (LocalPolicyManager.update exps self)))
  = AbsPolicyManager._update_history (LocalPolicyManager.base self) ∧
  LocalPolicyManager.version (state (LocalPolicyManager.update exps self))
  = LocalPolicyManager.version self.
Proof.
  assert (EvLearn (PI:=counting true) "B" (Some (Raised "learn"))
          ∈ trace (LocalPolicyManager.update [("A", batch true 1); ("B", batch true 1)]
                     (local_manager (PI:=counting true) [("A", fresh); ("B", Counting 0 0 true)])))
    as Hraised.
  { vm_compute. apply list_elem_of_further, list_elem_of_here. }
  split; [exact Hraised|].
  exact (learn_failure_aborts_round _ _ _ _ Hraised).
Defined.

Lemma construction_validation_witness :
  (Exists (λ item, ∃ repr, item.2 = Foreign repr) policies_A_foreign ∧
   ∃ msg, LocalPolicyManager.__init__ policies_A_foreign None None false
          = inl (ValueError msg)) ∧
  (Forall (λ item, ∃ p, item.2 = Core p) (policies_AB false) ∧
   ∃ self, LocalPolicyManager.__init__ (policies_AB false) None None false = inr self).
Proof.
  assert (Exists (λ item : string * pyobj (PI:=counting false), ∃ repr, item.2 = Foreign repr)
            policies_A_foreign) as Hforeign.
  { apply Exists_cons_tl, Exists_cons_hd. by eexists. }
  assert (Forall (λ item : string * pyobj (PI:=counting false), ∃ p, item.2 = Core p)
            (policies_AB false)) as Hcore.
  { repeat apply Forall_cons_2; [by eexists..|apply Forall_nil_2]. }
  split; (split; [done|]).
  - destruct (proj1 (construction_validation policies_A_foreign None None false) Hforeign)
      as (msg & _ & Hlocal & _).
    by exists msg.
  - apply (proj2 (construction_validation (policies_AB false) None None false) Hcore).
Defined.

Lemma constructed_initial_witness :
  let self := local_manager (PI:=counting false) [("A", fresh); ("B", fresh)] in
  LocalPolicyManager.__init__ (policies_AB false) None None false = inr self ∧
  initial (policies_AB false) LocalPolicyManager.base LocalPolicyManager.version
          LocalPolicyManager.get_state self.
Proof.
  split; [reflexivity|].
  apply (proj1 (constructed_initial (policies_AB false) None None false)). reflexivity.
Defined.

(** ** More on the local manager's [update] *)

Section LocalRounds.
Context {PI : AbsCorePolicy}.
Implicit Types (self : LocalPolicyManager.t) (u : gset string).

(** Runs the loop body of the local [update] along all its paths. *)
Ltac run_update_policy :=
  unfold LocalPolicyManager.update_policy;
  repeat first
    [ progress mstep
    | rewrite bind_raise
    | rewrite bind_emit
    | rewrite local_policy_of_bind
    | progress unfold LocalPolicyManager.call_learn, LocalPolicyManager.store_policy
    | match goal with
      | |- context [orraise _ ?o] => destruct o eqn:?; simpl orraise
      | |- context [match py_getitem ?n ?d with _ => _ end] => destruct (py_getitem n d) eqn:?
      | |- context [match learn ?p with _ => _ end] => destruct (learn p) eqn:?
      | |- context [if bool_decide ?P then _ else _] => destruct (bool_decide P) eqn:?
      end ];
  unfold result, state, trace, ret, raise; simpl in *.


Lemma py_keys_setitem {V} k (v : V) (d : pydict V) :
  is_Some (py_getitem k d) → py_keys (py_setitem k v d) = py_keys d.
Proof.
  unfold py_keys. induction d as [|[k0 v0] d IHd]; simpl.
  - by intros [? ?].
  - case_decide; subst; simpl; [done|]. intros Hsome. f_equal. by apply IHd.
Qed.

(** The tail of [update], after the loop over the round. *)
Lemma update_tail_preserves (P : LocalPolicyManager.t → Prop) exps :
  (∀ u, preserves P (foldM LocalPolicyManager.update_policy u exps)) →
  (∀ self h, P self → P (LocalPolicyManager.set_update_history h self)) →
  preserves P (LocalPolicyManager.update exps).
Proof.
  intros Hloop Hhist. unfold LocalPolicyManager.update.
  apply preserves_bind; [apply Hloop|intros updated]. compositional; auto.
Qed.



Lemma body_configuration (T W : gmap string Z) (cb : bool) (K : list string) u item :
  preserves (λ self,
               AbsPolicyManager.update_trigger (LocalPolicyManager.base self) = T ∧
               AbsPolicyManager.warmup (LocalPolicyManager.base self) = W ∧
               AbsPolicyManager._post_update (LocalPolicyManager.base self) = cb ∧
               py_keys (AbsPolicyManager.policy_dict (LocalPolicyManager.base self)) = K)
            (LocalPolicyManager.update_policy u item).
Proof.
  intros self (HT & HW & Hcb & HK). run_update_policy; try done.
  all: split_and!; try done.
  all: rewrite ?py_keys_setitem; try done.
  all: rewrite ?py_getitem_setitem, ?decide_True by done; by eexists.
Qed.

(** X4: [update] never changes the configuration.  The update triggers,
    the warm-up sizes, the callback and the names of the managed policies,
    in their order, are the same after any [update] call, returned or
    raised. *)
Theorem local_update_configuration (exps : pydict ExperienceSet) self :
  let self' := state (LocalPolicyManager.update exps self) in
  AbsPolicyManager.update_trigger (LocalPolicyManager.base self')
  = AbsPolicyManager.update_trigger (LocalPolicyManager.base self) ∧
  AbsPolicyManager.warmup (LocalPolicyManager.base self')
  = AbsPolicyManager.warmup (LocalPolicyManager.base self) ∧
  AbsPolicyManager._post_update (LocalPolicyManager.base self')
  = AbsPolicyManager._post_update (LocalPolicyManager.base self) ∧
  py_keys (AbsPolicyManager.policy_dict (LocalPolicyManager.base self'))
  = py_keys (AbsPolicyManager.policy_dict (LocalPolicyManager.base self)).
Proof.
  apply (update_tail_preserves
           (λ s, AbsPolicyManager.update_trigger (LocalPolicyManager.base s)
                 = AbsPolicyManager.update_trigger (LocalPolicyManager.base self) ∧
                 AbsPolicyManager.warmup (LocalPolicyManager.base s)
                 = AbsPolicyManager.warmup (LocalPolicyManager.base self) ∧
                 AbsPolicyManager._post_update (LocalPolicyManager.base s)
                 = AbsPolicyManager._post_update (LocalPolicyManager.base self) ∧
                 py_keys (AbsPolicyManager.policy_dict (LocalPolicyManager.base s))
                 = py_keys (AbsPolicyManager.policy_dict (LocalPolicyManager.base self))) exps);
    [| |done].
  - intros u. apply preserves_foldM. intros. apply body_configuration.
  - by intros [[]] h.
Qed.





Lemma body_unconfigured u item self :
  py_getitem item.1 (AbsPolicyManager.policy_dict (LocalPolicyManager.base self)) = None ∨
  AbsPolicyManager.update_trigger (LocalPolicyManager.base self) !! item.1 = None →
  result (LocalPolicyManager.update_policy u item self) = inl (KeyError item.1).
Proof. intros Hmissing. run_update_policy; try done; destruct Hmissing; congruence. Qed.

Lemma loop_unconfigured u exps self name :
  name ∈ exps.*1 →
  py_getitem name (AbsPolicyManager.policy_dict (LocalPolicyManager.base self)) = None ∨
  AbsPolicyManager.update_trigger (LocalPolicyManager.base self) !! name = None →
  ∃ e, result (foldM LocalPolicyManager.update_policy u exps self) = inl e.
Proof.
  revert u self. induction exps as [|item exps IHexps]; intros u self Hin Hmissing; simpl.
  { by apply elem_of_nil in Hin. }
  destruct (result (LocalPolicyManager.update_policy u item self)) as [e|u1] eqn:Hbody.
  { exists e. by rewrite (bind_inl _ _ _ _ Hbody). }
  rewrite (bind_inr _ _ _ _ Hbody). unfold result at 1; simpl.
  apply elem_of_cons in Hin as [->|Hin].
  { rewrite body_unconfigured in Hbody by done. done. }
  apply IHexps; [done|].
  pose proof (body_keys
    (λ n, is_Some (py_getitem n (AbsPolicyManager.policy_dict (LocalPolicyManager.base self))))
    u item self (λ _, reflexivity _) name) as Hkeys.
  pose proof (body_configuration _ _ _ _ u item self
                (conj eq_refl (conj eq_refl (conj eq_refl eq_refl)))) as (HT & _).
  destruct Hmissing as [Hnone|Hnone]; [left|right].
  - apply eq_None_not_Some. rewrite Hkeys, Hnone. by intros [? ?].
  - by rewrite HT.
Qed.

(** X2: a round that names a policy the manager cannot serve is refused.
    If [exp_by_policy] has a name without a managed policy, or without an
    update trigger (a trigger dictionary that leaves it out), [update]
    raises and appends nothing to the version history; the version stays. *)
Theorem local_update_unconfigured_policy (exps : pydict ExperienceSet) self name :
  name ∈ exps.*1 →
  py_getitem name (AbsPolicyManager.policy_dict (LocalPolicyManager.base self)) = None ∨
  AbsPolicyManager.update_trigger (LocalPolicyManager.base self) !! name = None →
  (∃ e, result (LocalPolicyManager.update exps self) = inl e) ∧
  LocalPolicyManager.version (state (LocalPolicyManager.update exps self))
  = LocalPolicyManager.version self.
Proof.
  intros Hin Hmissing.
  destruct (loop_unconfigured ∅ exps self name Hin Hmissing) as [e Hloop].
  pose proof (loop_history _ ∅ exps self eq_refl) as Hh. simpl in Hh.
  rewrite (update_raised _ _ _ Hloop). split; [by exists e|].
  unfold LocalPolicyManager.version, AbsPolicyManager.version, state in *. simpl.
  by rewrite Hh.
Qed.

Lemma update_history_step exps self :
  ∃ added,
    AbsPolicyManager._update_history
      (LocalPolicyManager.base (state (LocalPolicyManager.update exps self)))
    = AbsPolicyManager._update_history (LocalPolicyManager.base self) ++ added ∧
    Forall (λ names, names ≠ ∅) added ∧ (length added ≤ 1)%nat.
Proof.
  destruct (result (foldM LocalPolicyManager.update_policy ∅ exps self)) as [e|updated] eqn:Hr.
  - pose proof (loop_history _ ∅ exps self eq_refl) as Hh. simpl in Hh.
    exists []. rewrite (update_raised _ _ _ Hr). unfold state in *; simpl.
    rewrite Hh, app_nil_r. split_and!; [done|apply Forall_nil_2|simpl; lia].
  - destruct (update_returned _ _ _ Hr) as (_ & -> & _).
    destruct (decide (updated = ∅)); [exists []; split_and!; [done|apply Forall_nil_2|simpl; lia]|].
    exists [updated]. split_and!; [done|by apply Forall_singleton|simpl; lia].
Qed.

(** X5: the version history only grows, by sets that are not empty.
    After any sequence of [update] calls the history is the history before
    followed by at most one entry per call, each a non-empty set: entries
    are never rewritten or removed, whatever the calls did. *)
Theorem local_history_grows (rounds : list (pydict ExperienceSet)) self :
  ∃ added,
    AbsPolicyManager._update_history
      (LocalPolicyManager.base (LocalPolicyManager.update_rounds rounds self).1)
    = AbsPolicyManager._update_history (LocalPolicyManager.base self) ++ added ∧
    Forall (λ names, names ≠ ∅) added ∧ (length added ≤ length rounds)%nat.
Proof.
  revert self. induction rounds as [|exps rounds IHrounds]; intros self; simpl.
  { exists []. rewrite app_nil_r. split_and!; [done|apply Forall_nil_2|simpl; lia]. }
  destruct (update_history_step exps self) as (added1 & Hstep & Hfull1 & Hlen1).
  unfold state in Hstep.
  destruct (LocalPolicyManager.update exps self) as [[r self'] tr]; simpl in Hstep.
  destruct (IHrounds self') as (added2 & Hrest & Hfull2 & Hlen2).
  destruct (LocalPolicyManager.update_rounds rounds self') as [self'' outs]; simpl in *.
  exists (added1 ++ added2). rewrite Hrest, Hstep, (assoc_L (++)), length_app.
  split_and!; [done|by apply Forall_app|lia].
Qed.

(** X6: [get_state] never fails on a local manager.  After construction
    and any sequence of [update] calls, returned or raised, [get_state]
    without argument or with any version from [-1] on returns a dictionary
    and leaves the manager as it is. *)
Theorem local_get_state_returns (pd : pydict pyobj) (trig warm : option (gmap string Z))
    (cb : bool) self (rounds : list (pydict ExperienceSet)) (since_version : option Z) :
  LocalPolicyManager.__init__ pd trig warm cb = inr self →
  (∀ v, since_version = Some v → -1 <= v) →
  let self' := (LocalPolicyManager.update_rounds rounds self).1 in
  ∃ d, LocalPolicyManager.get_state since_version self' = (inr d, self', []).
Proof.
  intros Hinit Hlow self'.
  assert (history_known (LocalPolicyManager.base self')) as Hknown.
  { apply update_rounds_history_known. unfold LocalPolicyManager.__init__ in Hinit.
    destruct (AbsPolicyManager.__init__ pd trig warm cb) as [e|b] eqn:Hb; [done|].
    injection Hinit as <-. by eapply base_init_known. }
  assert (0 <= AbsPolicyManager.version (LocalPolicyManager.base self')) as Hversion.
  { unfold AbsPolicyManager.version. destruct Hknown as [Hne _].
    destruct (AbsPolicyManager._update_history (LocalPolicyManager.base self'));
      [done | simpl; lia]. }
  assert (∃ d, AbsPolicyManager.get_state since_version (LocalPolicyManager.base self')
               = (inr d, LocalPolicyManager.base self', [])) as [d Hd].
  { destruct since_version as [v|].
    - destruct (get_state_value _ v Hknown) as (d & Hd & _); [|by exists d].
      specialize (Hlow v eq_refl). lia.
    - rewrite get_state_default.
      destruct (get_state_value _ (AbsPolicyManager.version (LocalPolicyManager.base self') - 1)
                  Hknown) as (d & Hd & _); [lia|by exists d]. }
  exists d. unfold LocalPolicyManager.get_state, zoom. rewrite Hd. by destruct self'.
Qed.





End LocalRounds.

(** ** More on [get_state] *)

Section GetStateEdges.
Context {PI : AbsCorePolicy}.
Implicit Types (self : AbsPolicyManager.t).

(** X8: nothing has changed since the current version.  For every
    manager and every [since_version] from the current version on,
    [get_state] returns the empty dictionary; it reads no history entry
    and no policy, so it cannot raise. *)
Theorem get_state_up_to_date self (since_version : Z) :
  AbsPolicyManager.version self <= since_version →
  AbsPolicyManager.get_state (Some since_version) self = (inr ∅, self, []).
Proof.
  intros Hlate. unfold AbsPolicyManager.version in Hlate.
  unfold AbsPolicyManager.get_state. mstep. unfold py_range.
  rewrite seqZ_nil by lia. simpl foldM. mstep. by rewrite elements_empty.
Qed.

(** X10: asking about an older version returns more.  In a manager whose
    history names managed policies only, the dictionary returned for a
    version is contained in the dictionary returned for any earlier
    version: the same policies with the same states, and possibly more. *)
Theorem get_state_monotone self (older newer : Z) d_older d_newer :
  history_known self →
  - AbsPolicyManager.version self - 2 <= older → older <= newer →
  result (AbsPolicyManager.get_state (Some older) self) = inr d_older →
  result (AbsPolicyManager.get_state (Some newer) self) = inr d_newer →
  d_newer ⊆ d_older.
Proof.
  intros Hknown Hlow Hle.
  destruct (get_state_value self older Hknown Hlow) as (d1 & -> & Hdom1 & Hval1).
  destruct (get_state_value self newer Hknown) as (d2 & -> & Hdom2 & Hval2); [lia|].
  intros [= <-] [= <-]. apply map_subseteq_spec. intros name st Hst.
  assert (name ∈ dom d1) as [st1 Hst1]%elem_of_dom.
  { apply Hdom1. assert (name ∈ dom d2) as Hin by (apply elem_of_dom; by eexists).
    apply Hdom2 in Hin as (r & names & Hr & Hnames & Hname). exists r, names.
    split_and!; [lia|done..]. }
  destruct (Hval1 _ _ Hst1) as (p1 & Hp1 & ->). destruct (Hval2 _ _ Hst) as (p2 & Hp2 & ->).
  rewrite Hst1. congruence.
Qed.

End GetStateEdges.

(** ** The partition of the policies among the trainers *)

Section Partition.
Context {PI : AbsCorePolicy}.

Lemma py_getitem_append k k' x (d : pydict (list string)) :
  default [] (py_getitem k (py_append k' x d))
  = if decide (k' = k) then default [] (py_getitem k d) ++ [x]
    else default [] (py_getitem k d).
Proof.
  induction d as [|[k0 xs] d IHd]; simpl.
  - by case_decide.
  - destruct (decide (k0 = k')) as [->|Hne]; simpl.
    + by destruct (decide (k' = k)).
    + destruct (decide (k0 = k)) as [->|]; [by rewrite decide_False|done].
Qed.

Lemma py_keys_append k x (d : pydict (list string)) :
  py_keys (py_append k x d) = if decide (k ∈ py_keys d) then py_keys d else py_keys d ++ [k].
Proof.
  unfold py_keys. destruct (decide (k ∈ d.*1)) as [Hin|Hnotin].
  - induction d as [|[k0 xs] d IHd]; simpl in *; [by apply elem_of_nil in Hin|].
    destruct (decide (k0 = k)) as [->|Hne]; simpl; [done|].
    f_equal. apply IHd. by apply elem_of_cons in Hin as [?|?].
  - induction d as [|[k0 xs] d IHd]; simpl in *; [done|].
    apply not_elem_of_cons in Hnotin as [Hne Hnotin].
    rewrite decide_False by done. simpl. f_equal. by apply IHd.
Qed.

Lemma py_touch_present k (d : pydict (list string)) : k ∈ py_keys d → py_touch k d = d.
Proof.
  intros [xs Hxs]%py_getitem_is_Some. unfold py_touch. by rewrite Hxs.
Qed.

(** One assignment keeps the two dictionaries each other's inverse. *)
Lemma assign_consistent (p2t : gmap string string) (t2p : pydict (list string)) name trainer_id :
  p2t !! name = None →
  (∀ n t, p2t !! n = Some t ↔ n ∈ default [] (py_getitem t t2p)) →
  ∀ n t, <[name := trainer_id]> p2t !! n = Some t
         ↔ n ∈ default [] (py_getitem t (py_append trainer_id name t2p)).
Proof.
  intros Hfresh Hinv n t. rewrite py_getitem_append.
  destruct (decide (name = n)) as [->|Hne].
  - rewrite lookup_insert_eq. destruct (decide (trainer_id = t)) as [->|Hne'].
    + rewrite elem_of_app, list_elem_of_singleton. naive_solver.
    + rewrite <-Hinv, Hfresh. naive_solver.
  - rewrite lookup_insert_ne by done. rewrite Hinv.
    destruct (decide (trainer_id = t)) as [->|Hne']; [|done].
    rewrite elem_of_app, list_elem_of_singleton. naive_solver.
Qed.

Lemma partitioned_assign p2t t2p seen name trainer_id :
  name ∉ seen → partitioned p2t t2p seen →
  partitioned (<[name := trainer_id]> p2t) (py_append trainer_id name t2p) (seen ++ [name]).
Proof.
  intros Hfresh (Hdom & Hinv & Hnodup). split_and!.
  - intros n. rewrite elem_of_app, list_elem_of_singleton, <-Hdom.
    destruct (decide (name = n)) as [->|Hne].
    + rewrite lookup_insert_eq. naive_solver.
    + rewrite lookup_insert_ne by done. naive_solver.
  - apply assign_consistent; [|done]. apply eq_None_not_Some. by rewrite Hdom.
  - rewrite py_keys_append. case_decide; [done|].
    apply NoDup_app. split_and!; [done| |apply NoDup_singleton].
    intros k Hk ->%list_elem_of_singleton. done.
Qed.

Lemma multi_process_assign_partition (K : Z) i names seen (self : MultiProcessPolicyManager.t) :
  K ≠ 0 → NoDup (seen ++ names) →
  partitioned (MultiProcessPolicyManager._policy2trainer self)
              (MultiProcessPolicyManager._trainer2policies self) seen →
  ∃ self',
    foldM (MultiProcessPolicyManager.assign_trainer K) i names self
    = (inr (i + Z.of_nat (length names)), self', []) ∧
    MultiProcessPolicyManager.base self' = MultiProcessPolicyManager.base self ∧
    MultiProcessPolicyManager._manager_end self' = MultiProcessPolicyManager._manager_end self ∧
    partitioned (MultiProcessPolicyManager._policy2trainer self')
                (MultiProcessPolicyManager._trainer2policies self') (seen ++ names).
Proof.
  intros HK. revert i seen self. induction names as [|n names IHnames];
    intros i seen self Hnodup Hpart.
  { exists self. simpl. rewrite Z.add_0_r, app_nil_r. done. }
  simpl. unfold MultiProcessPolicyManager.assign_trainer at 1.
  rewrite decide_False by done. mstep.
  match goal with |- context [foldM _ _ names ?s1] =>
    destruct (IHnames (i + 1) (seen ++ [n]) s1) as (self' & Hrun & Hbase & Hends & Hpart') end.
  - by rewrite <-(assoc_L (++)).
  - simpl. apply partitioned_assign; [|done].
    apply NoDup_app in Hnodup as (_ & Hdisjoint & _). intros Hin.
    apply (Hdisjoint n Hin). by left.
  - exists self'. rewrite Hrun, Hbase, Hends. rewrite <-(assoc_L (++)) in Hpart'.
    split_and!; [|done..]. do 3 f_equal. lia.
Qed.

(** A computation that only reads runs to its result in the same state. *)
Lemma pure_run {S A} (c : M S A) (s : S) :
  (∀ P, preserves P c) → silent c → c s = (result (c s), s, []).
Proof.
  intros Hpres Hsilent. specialize (Hpres (λ s', s' = s) s eq_refl). specialize (Hsilent s).
  unfold result, state, trace in *. destruct (c s) as [[r s'] tr]; simpl in *. by subst.
Qed.

Lemma states_for_pure {S} pd names (s : S) :
  states_for pd names s = (result (states_for pd names s), s, []).
Proof. apply pure_run; [intros P|]; unfold states_for; compositional. Qed.

Lemma check_functions_pure (funcs : gset string) names (s : MultiProcessPolicyManager.t) :
  let c := foldM (λ (_ : unit) name,
                    if decide (name ∈ funcs) then ret tt else raise (KeyError name)) tt names in
  c s = (result (c s), s, []).
Proof. apply pure_run; [intros P|]; compositional. Qed.

Lemma multi_process_start_run funcs (item : string * list string)
    (self : MultiProcessPolicyManager.t) :
  item.1 ∈ py_keys (MultiProcessPolicyManager._trainer2policies self) →
  ∃ r tr,
    MultiProcessPolicyManager.start_trainer funcs tt item self
    = (r, MultiProcessPolicyManager.set_manager_end
            (MultiProcessPolicyManager._manager_end self ++ [item.1]) self, tr) ∧
    (r = inr tt → started tr = [item]).
Proof.
  intros Hkey. destruct item as [trainer_id names]. simpl in *.
  unfold MultiProcessPolicyManager.start_trainer. simpl fst. simpl snd. mstep.
  match goal with |- context [bind ?c _ ?s] =>
    pose proof (check_functions_pure funcs names s) as Hcheck; simpl in Hcheck;
    destruct (result (c s)) as [e|[]] eqn:Hr end.
  { erewrite bind_inl by done. rewrite Hcheck. unfold state, trace; simpl. by eexists _, _. }
  erewrite bind_inr by done. rewrite Hcheck. unfold state, trace; simpl.
  mstep. simpl. rewrite py_touch_present by done.
  match goal with |- context [bind (states_for ?pd ?ns) _ ?s] =>
    pose proof (states_for_pure pd ns s) as Hstates;
    destruct (result (states_for pd ns s)) as [e|states] eqn:Hr' end.
  { erewrite bind_inl by done. rewrite Hstates. unfold state, trace; simpl.
    eexists _, _. split; [by destruct self|done]. }
  erewrite bind_inr by done. rewrite Hstates. unfold result, state, trace, emit; simpl.
  eexists _, _. split; [by destruct self|done].
Qed.

Lemma multi_process_start_loop_run funcs trainers (self : MultiProcessPolicyManager.t) :
  trainers.*1 ⊆ py_keys (MultiProcessPolicyManager._trainer2policies self) →
  ∃ r ends tr,
    foldM (MultiProcessPolicyManager.start_trainer funcs) tt trainers self
    = (r, MultiProcessPolicyManager.set_manager_end ends self, tr) ∧
    (r = inr tt →
     ends = MultiProcessPolicyManager._manager_end self ++ trainers.*1 ∧
     started tr = trainers).
Proof.
  revert self. induction trainers as [|item trainers IHtrainers]; intros self Hkeys; simpl.
  { exists (inr tt), (MultiProcessPolicyManager._manager_end self), [].
    rewrite app_nil_r. split; [by destruct self|done]. }
  destruct (multi_process_start_run funcs item self) as (r & tr & Hrun & Hr).
  { apply Hkeys. by left. }
  unfold bind. rewrite Hrun. destruct r as [e|[]].
  { eexists _, _, _. split; [done|done]. }
  destruct (IHtrainers (MultiProcessPolicyManager.set_manager_end
              (MultiProcessPolicyManager._manager_end self ++ [item.1]) self))
    as (r' & ends' & tr' & Hrun' & Hr').
  { intros k Hk. apply Hkeys. by right. }
  rewrite Hrun'. exists r', ends', (tr ++ tr'). split; [done|].
  intros ->. destruct (Hr' eq_refl) as [-> Hstarted']. simpl.
  rewrite <-(assoc_L (++)). split; [done|].
  unfold started in *. by rewrite omap_app, (Hr eq_refl), Hstarted'.
Qed.

(** X11: the multi-process constructor partitions the policies.  When it
    returns, every managed policy is assigned to exactly one trainer, a
    trainer's list holds exactly the policies assigned to it, there is one
    pipe per trainer that has policies and no other, and one process was
    started per such trainer, for exactly its policies. *)
Theorem multi_process_partition (pd : pydict pyobj) (K : Z) (funcs : gset string)
    (trig warm : option (gmap string Z)) (cb : bool) self tr :
  NoDup (py_keys pd) →
  MultiProcessPolicyManager.__init__ pd K funcs trig warm cb = (inr self, tr) →
  (∀ name, is_Some (MultiProcessPolicyManager._policy2trainer self !! name)
           ↔ name ∈ py_keys pd) ∧
  (∀ name trainer_id,
     MultiProcessPolicyManager._policy2trainer self !! name = Some trainer_id
     ↔ name ∈ default [] (py_getitem trainer_id
                            (MultiProcessPolicyManager._trainer2policies self))) ∧
  NoDup (py_keys (MultiProcessPolicyManager._trainer2policies self)) ∧
  MultiProcessPolicyManager._manager_end self
  = py_keys (MultiProcessPolicyManager._trainer2policies self) ∧
  started tr = MultiProcessPolicyManager._trainer2policies self.
Proof.
  intros Hnodup. unfold MultiProcessPolicyManager.__init__.
  destruct (AbsPolicyManager.__init__ pd trig warm cb) as [e|b] eqn:Hb; [done|].
  destruct (base_init_inv _ _ _ _ _ Hb) as [Hkeys _].
  unfold MultiProcessPolicyManager.init_trainers. mstep. simpl. rewrite Hkeys.
  assert (partitioned (∅ : gmap string string) [] []) as Hempty.
  { split_and!; [|by intros n t; rewrite lookup_empty; simpl; rewrite elem_of_nil|apply NoDup_nil_2].
    intros n. rewrite lookup_empty, elem_of_nil. split; [by intros [? ?]|done]. }
  destruct (decide (K = 0)) as [->|HK].
  - destruct (py_keys pd) as [|n names] eqn:Hnames.
    + simpl foldM. mstep. simpl. intros [= <- <-]. simpl.
      destruct Hempty as (? & ? & ?). done.
    + erewrite bind_inl by apply multi_process_assign_zero. done.
  - destruct (multi_process_assign_partition K 0 (py_keys pd) []
                (MultiProcessPolicyManager.Build b ∅ [] ∅ ∅ []) HK Hnodup Hempty)
      as (self1 & Hrun & _ & Hends & Hpart).
    erewrite bind_inr by by rewrite Hrun. rewrite Hrun. unfold state, trace; simpl. mstep.
    destruct (multi_process_start_loop_run funcs
                (MultiProcessPolicyManager._trainer2policies self1) self1)
      as (r & ends & tr2 & Hstart & Hret); [done|].
    rewrite Hstart. destruct r as [e|[]]; [done|].
    intros [= <- <-]. simpl. destruct (Hret eq_refl) as [-> Hstarted].
    destruct Hpart as (Hdom & Hinv & Hnd). rewrite Hends. done.
Qed.

Lemma multi_process_assign_partition_ends (K : Z) i names (self : MultiProcessPolicyManager.t) :
  K ≠ 0 →
  ∃ self',
    foldM (MultiProcessPolicyManager.assign_trainer K) i names self
    = (inr (i + Z.of_nat (length names)), self', []) ∧
    MultiProcessPolicyManager._manager_end self' = MultiProcessPolicyManager._manager_end self.
Proof.
  intros HK. revert i self. induction names as [|n names IHnames]; intros i self.
  { exists self. simpl. by rewrite Z.add_0_r. }
  simpl foldM. unfold MultiProcessPolicyManager.assign_trainer at 1.
  rewrite decide_False by done. mstep.
  match goal with |- context [foldM _ _ names ?s1] =>
    destruct (IHnames (i + 1) s1) as (self' & Hrun & Hends) end.
  exists self'. rewrite Hrun, Hends. split; [|done]. do 3 f_equal. simpl. lia.
Qed.

Lemma trainer_name_inj j1 j2 : trainer_name j1 = trainer_name j2 → j1 = j2.
Proof. unfold trainer_name. intros Heq%(inj (String.app "TRAINER.")). by apply (inj pretty). Qed.

Lemma elem_of_trainer_pool j n : trainer_name j ∈ trainer_pool n ↔ 0 <= j < n.
Proof.
  unfold trainer_pool. rewrite list_elem_of_fmap. split.
  - intros (j' & ->%trainer_name_inj & Hj'%elem_of_seqZ). lia.
  - intros Hj. exists j. split; [done|]. apply elem_of_seqZ. lia.
Qed.

Lemma trainer_pool_succ n : 0 <= n → trainer_pool (n + 1) = trainer_pool n ++ [trainer_name n].
Proof.
  intros Hn. unfold trainer_pool. rewrite seqZ_app by lia. by rewrite fmap_app.
Qed.

Lemma multi_process_assign_keys (K : Z) i names (self : MultiProcessPolicyManager.t) :
  0 < K → 0 <= i →
  py_keys (MultiProcessPolicyManager._trainer2policies self) = trainer_pool (Z.min i K) →
  ∃ self',
    foldM (MultiProcessPolicyManager.assign_trainer K) i names self
    = (inr (i + Z.of_nat (length names)), self', []) ∧
    py_keys (MultiProcessPolicyManager._trainer2policies self')
    = trainer_pool (Z.min (i + Z.of_nat (length names)) K).
Proof.
  intros HK. revert i self. induction names as [|n names IHnames]; intros i self Hi Hkeys.
  { exists self. simpl. by rewrite Z.add_0_r. }
  simpl foldM. unfold MultiProcessPolicyManager.assign_trainer at 1.
  rewrite decide_False by lia. mstep.
  match goal with |- context [foldM _ _ names ?s1] =>
    destruct (IHnames (i + 1) s1) as (self' & Hrun & Hkeys') end; [lia| |].
  - simpl. rewrite py_keys_append, Hkeys. destruct (decide (i < K)) as [Hlt|Hge].
    + rewrite Z.mod_small by lia. rewrite decide_False.
      * rewrite !Z.min_l by lia. by rewrite trainer_pool_succ.
      * rewrite elem_of_trainer_pool. lia.
    + rewrite decide_True.
      * by rewrite !Z.min_r by lia.
      * apply elem_of_trainer_pool. rewrite Z.min_r by lia. by apply Z.mod_pos_bound.
  - exists self'. rewrite Hrun.
    replace (i + Z.of_nat (length (n :: names))) with (i + 1 + Z.of_nat (length names))
      by (simpl; lia).
    done.
Qed.

(** X12: the multi-process constructor starts [min(N, K)] trainers.  For
    [N] policies and [K > 0] trainers, the trainers that get policies, the
    pipes and the started processes are [TRAINER.0 .. TRAINER.(min(N,K)-1)],
    in this order: with more trainers than policies, the trainers beyond
    the [N]-th do not exist. *)
Theorem multi_process_trainer_count (pd : pydict pyobj) (K : Z) (funcs : gset string)
    (trig warm : option (gmap string Z)) (cb : bool) self tr :
  0 < K →
  MultiProcessPolicyManager.__init__ pd K funcs trig warm cb = (inr self, tr) →
  let pool := trainer_pool (Z.min (Z.of_nat (length pd)) K) in
  py_keys (MultiProcessPolicyManager._trainer2policies self) = pool ∧
  MultiProcessPolicyManager._manager_end self = pool ∧
  (started tr).*1 = pool.
Proof.
  intros HK. unfold MultiProcessPolicyManager.__init__.
  destruct (AbsPolicyManager.__init__ pd trig warm cb) as [e|b] eqn:Hb; [done|].
  destruct (base_init_inv _ _ _ _ _ Hb) as [Hkeys _].
  unfold MultiProcessPolicyManager.init_trainers. mstep. simpl. rewrite Hkeys.
  destruct (multi_process_assign_keys K 0 (py_keys pd)
              (MultiProcessPolicyManager.Build b ∅ [] ∅ ∅ []) HK)
    as (self1 & Hrun & Hpool); [done|by rewrite Z.min_l by lia|].
  erewrite bind_inr by by rewrite Hrun. rewrite Hrun. unfold state, trace; simpl. mstep.
  destruct (multi_process_start_loop_run funcs
              (MultiProcessPolicyManager._trainer2policies self1) self1)
    as (r & ends & tr2 & Hstart & Hret); [done|].
  rewrite Hstart. destruct r as [e|[]]; [done|].
  intros [= <- <-]. simpl. destruct (Hret eq_refl) as [-> ->].
  unfold py_keys in *. rewrite length_fmap in Hpool. simpl in Hpool.
  assert (MultiProcessPolicyManager._manager_end self1 = []) as ->.
  { destruct (multi_process_assign_partition_ends K 0 (py_keys pd)
                (MultiProcessPolicyManager.Build b ∅ [] ∅ ∅ [])) as (self1' & Hrun' & Hends);
      [lia|]. unfold py_keys in *. rewrite Hrun in Hrun'. by injection Hrun' as <-. }
  done.
Qed.

(** X13: without trainers the multi-process constructor fails.  With
    [num_trainers = 0] and at least one policy, all of them
    [AbsCorePolicy] instances, it raises [ZeroDivisionError] and starts no
    process. *)
Theorem multi_process_zero_trainers (pd : pydict pyobj) (funcs : gset string)
    (trig warm : option (gmap string Z)) (cb : bool) :
  Forall (λ item, ∃ p, item.2 = Core p) pd → pd ≠ [] →
  MultiProcessPolicyManager.__init__ pd 0 funcs trig warm cb = (inl ZeroDivisionError, []).
Proof.
  intros [ps Hps]%check_policies_core Hne. unfold MultiProcessPolicyManager.__init__.
  destruct (AbsPolicyManager.__init__ pd trig warm cb) as [e|b] eqn:Hb.
  { unfold AbsPolicyManager.__init__ in Hb. by rewrite Hps in Hb. }
  destruct (base_init_inv _ _ _ _ _ Hb) as [Hkeys _].
  unfold MultiProcessPolicyManager.init_trainers. mstep. simpl. rewrite Hkeys.
  destruct pd as [|[n o] pd]; [done|]. change (py_keys ((n, o) :: pd)) with (n :: py_keys pd).
  erewrite bind_inl by apply multi_process_assign_zero. done.
Qed.

Lemma py_getitem_elem {V} k (v : V) (d : pydict V) : py_getitem k d = Some v → (k, v) ∈ d.
Proof.
  induction d as [|[k0 v0] d IHd]; simpl; [done|].
  case_decide; subst; [intros [= ->]; by left | intros ?; right; by apply IHd].
Qed.

Lemma multi_process_start_raises funcs trainers :
  raises_only (λ e, ∃ key, e = KeyError key)
              (foldM (MultiProcessPolicyManager.start_trainer funcs) tt trainers).
Proof.
  unfold MultiProcessPolicyManager.start_trainer, states_for. compositional; by eexists.
Qed.

Lemma multi_process_start_missing funcs (item : string * list string)
    (self : MultiProcessPolicyManager.t) name :
  name ∈ item.2 → name ∉ funcs →
  ∃ e, result (MultiProcessPolicyManager.start_trainer funcs tt item self) = inl e.
Proof.
  intros Hin Hmissing. unfold MultiProcessPolicyManager.start_trainer. mstep.
  match goal with |- context [bind ?c _ ?s] =>
    assert (∃ e, result (c s) = inl e) as [e He] end.
  { generalize (MultiProcessPolicyManager.set_manager_end
                  (MultiProcessPolicyManager._manager_end self ++ [item.1]) self).
    induction item.2 as [|n names IHnames]; intros s; [by apply elem_of_nil in Hin|].
    simpl foldM. destruct (decide (n ∈ funcs)) as [Hn|Hn]; [|by eexists].
    mstep. apply IHnames. apply elem_of_cons in Hin as [->|?]; done. }
  exists e. by erewrite bind_inl.
Qed.

Lemma multi_process_start_loop_missing funcs trainers (self : MultiProcessPolicyManager.t)
    (item : string * list string) name :
  item ∈ trainers → name ∈ item.2 → name ∉ funcs →
  ∃ e, result (foldM (MultiProcessPolicyManager.start_trainer funcs) tt trainers self) = inl e.
Proof.
  intros Hitem Hin Hmissing. revert self.
  induction trainers as [|item0 trainers IHtrainers]; intros self; simpl.
  { by apply elem_of_nil in Hitem. }
  destruct (result (MultiProcessPolicyManager.start_trainer funcs tt item0 self))
    as [e|[]] eqn:Hbody.
  { exists e. by rewrite (bind_inl _ _ _ _ Hbody). }
  rewrite (bind_inr _ _ _ _ Hbody). unfold result at 1; simpl.
  apply elem_of_cons in Hitem as [<-|Hitem]; [|by apply IHtrainers].
  destruct (multi_process_start_missing funcs item self name Hin Hmissing) as [e He].
  congruence.
Qed.

(** X14: every policy needs its creation function.  If the policies are
    [AbsCorePolicy] instances, [num_trainers] is not 0 and some managed
    policy has no entry in [create_policy_func_dict], the multi-process
    constructor raises [KeyError] and returns no manager. *)
Theorem multi_process_missing_creator (pd : pydict pyobj) (K : Z) (funcs : gset string)
    (trig warm : option (gmap string Z)) (cb : bool) name :
  NoDup (py_keys pd) → K ≠ 0 → Forall (λ item, ∃ p, item.2 = Core p) pd →
  name ∈ py_keys pd → name ∉ funcs →
  ∃ key, (MultiProcessPolicyManager.__init__ pd K funcs trig warm cb).1 = inl (KeyError key).
Proof.
  intros Hnodup HK [ps Hps]%check_policies_core Hname Hmissing.
  unfold MultiProcessPolicyManager.__init__.
  destruct (AbsPolicyManager.__init__ pd trig warm cb) as [e|b] eqn:Hb.
  { unfold AbsPolicyManager.__init__ in Hb. by rewrite Hps in Hb. }
  destruct (base_init_inv _ _ _ _ _ Hb) as [Hkeys _].
  unfold MultiProcessPolicyManager.init_trainers. mstep. simpl. rewrite Hkeys.
  assert (partitioned (∅ : gmap string string) [] []) as Hempty.
  { split_and!; [|by intros n t; rewrite lookup_empty; simpl; rewrite elem_of_nil|apply NoDup_nil_2].
    intros n. rewrite lookup_empty, elem_of_nil. split; [by intros [? ?]|done]. }
  destruct (multi_process_assign_partition K 0 (py_keys pd) []
              (MultiProcessPolicyManager.Build b ∅ [] ∅ ∅ []) HK Hnodup Hempty)
    as (self1 & Hrun & _ & _ & Hdom & Hinv & _).
  erewrite bind_inr by by rewrite Hrun. rewrite Hrun. unfold state, trace; simpl. mstep.
  destruct (proj2 (Hdom name) Hname) as [trainer_id Htrainer].
  apply Hinv in Htrainer.
  destruct (py_getitem trainer_id (MultiProcessPolicyManager._trainer2policies self1))
    as [names|] eqn:Hnames; simpl in Htrainer; [|by apply elem_of_nil in Htrainer].
  apply py_getitem_elem in Hnames.
  destruct (multi_process_start_loop_missing funcs _ self1 (trainer_id, names) name
              Hnames Htrainer Hmissing) as [e He].
  destruct (multi_process_start_raises funcs _ self1 e He) as [key ->].
  exists key. unfold result in He.
  by destruct (foldM _ tt _ self1) as [[[e'|[]] self2] tr2]; simplify_eq/=.
Qed.

End Partition.

(** ** More on the distributed managers' [update] and [exit] *)

Section DistributedRounds.
Context {PI : AbsCorePolicy}.

Lemma keeps_of_preserves {S A} (P : S → Prop) (c : M S A) :
  preserves P c → keeps_on_raise P c.
Proof. intros Hc s Hs e _. by apply Hc. Qed.




Lemma policy_of_state name (b : AbsPolicyManager.t) :
  state (AbsPolicyManager.policy_of name b) = b.
Proof. by rewrite policy_of_run. Qed.




(** X18: [exit] tells every trainer to stop and nothing else.  The
    multi-process manager sends [quit] down every pipe, in order; the
    multi-node manager sends [EXIT] to every trainer that has an entry in
    [_trainer2policies] and closes the endpoint.  Both return and leave
    the manager as it was, so a second call sends the same messages
    again. *)
Theorem exit_notifies_trainers :
  (∀ self : MultiProcessPolicyManager.t,
     MultiProcessPolicyManager.exit self
     = (inr tt, self,
        (λ trainer_id, EvSend trainer_id MsgQuit)
          <$> MultiProcessPolicyManager._manager_end self)) ∧
  (∀ self : MultiNodePolicyManager.t,
     MultiNodePolicyManager.exit self
     = (inr tt, self,
        ((λ trainer_id, EvSend trainer_id MsgExit)
           <$> py_keys (MultiNodePolicyManager._trainer2policies self)) ++ [EvClose])).
Proof.
  split; intros self.
  - unfold MultiProcessPolicyManager.exit. mstep.
    induction (MultiProcessPolicyManager._manager_end self) as [|tid ends IHends]; [done|].
    simpl. rewrite bind_emit, IHends. done.
  - unfold MultiNodePolicyManager.exit. mstep.
    induction (MultiNodePolicyManager._trainer2policies self) as [|item trainers IHtrainers].
    + simpl foldM. by mstep.
    + simpl foldM. rewrite bind_assoc, bind_emit.
      unfold result at 1, state at 1, trace at 1. rewrite IHtrainers. done.
Qed.

Lemma silent_run {S A} (c : M S A) (s : S) :
  silent c → c s = (result (c s), state (c s), []).
Proof.
  intros Hsilent. specialize (Hsilent s). unfold result, state, trace in *.
  destruct (c s) as [[r s'] tr]; simpl in *. by subst.
Qed.

(** *** The multi-node round *)

Lemma multi_node_cache_silent acc exps :
  silent (foldM MultiNodePolicyManager.cache_experience acc exps).
Proof. unfold MultiNodePolicyManager.cache_experience. compositional. Qed.

Lemma multi_node_cache_workers (trainers : pydict (list string)) (n : Z) (cb : bool) acc exps :
  preserves (λ self, MultiNodePolicyManager._trainer2policies self = trainers ∧
                     MultiNodePolicyManager._num_trainers self = n ∧
                     AbsPolicyManager._post_update (MultiNodePolicyManager.base self) = cb)
            (foldM MultiNodePolicyManager.cache_experience acc exps).
Proof. unfold MultiNodePolicyManager.cache_experience. compositional; by intros []. Qed.

Lemma multi_node_send_run exp_to_send trainers (self : MultiNodePolicyManager.t) :
  ∃ r tr,
    foldM (MultiNodePolicyManager.send_learn exp_to_send) tt trainers self = (r, self, tr) ∧
    callbacks tr = [] ∧
    (r = inr tt → sent_to tr = py_keys trainers ∧ received tr = []).
Proof.
  induction trainers as [|item trainers IHtrainers]; simpl.
  { by exists (inr tt), []. }
  unfold MultiNodePolicyManager.send_learn at 1. rewrite bind_assoc.
  destruct IHtrainers as (r' & tr' & Hrest & Hquiet & Hret).
  destruct (experiences_for_result exp_to_send item.2 self)
    as [[d Hrun]|(key & _ & _ & Hrun)].
  - unfold bind at 1. rewrite Hrun, bind_emit, Hrest. unfold result, state, trace; simpl.
    eexists _, _. split_and!; [done..|]. intros ->. destruct (Hret eq_refl) as [Hto Hfrom].
    split; [exact (f_equal (cons item.1) Hto)|exact Hfrom].
  - unfold bind at 1. rewrite Hrun. by eexists _, _.
Qed.

Lemma multi_node_set_states_silent states :
  silent (foldM MultiNodePolicyManager.set_policy_state tt states).
Proof.
  unfold MultiNodePolicyManager.set_policy_state, AbsPolicyManager.policy_of. compositional.
Qed.

Lemma multi_node_set_states_callback (cb : bool) states :
  preserves (λ self, AbsPolicyManager._post_update (MultiNodePolicyManager.base self) = cb)
            (foldM MultiNodePolicyManager.set_policy_state tt states).
Proof.
  unfold MultiNodePolicyManager.set_policy_state. compositional; try (by intros [[]]).
  all: intros t Ht; rewrite policy_of_state; by destruct t.
Qed.

Lemma multi_node_recv_run acc (idxs : list Z) (self : MultiNodePolicyManager.t) :
  ∃ r self' tr,
    foldM MultiNodePolicyManager.recv_result acc idxs self = (r, self', tr) ∧
    AbsPolicyManager._post_update (MultiNodePolicyManager.base self')
    = AbsPolicyManager._post_update (MultiNodePolicyManager.base self) ∧
    callbacks tr = [] ∧
    ∀ acc', r = inr acc' →
      (length idxs ≤ length acc.2)%nat ∧
      received tr = take (length idxs) acc.2 ∧ sent_to tr = [] ∧
      acc'.1 = acc.1 ++ (reply_tracker <$> take (length idxs) acc.2).
Proof.
  revert acc self. induction idxs as [|i idxs IHidxs]; intros [trackers pending] self; simpl.
  { eexists _, _, _. split_and!; [done..|]. intros acc' [= <-]. simpl.
    rewrite app_nil_r. split_and!; [lia|done..]. }
  unfold MultiNodePolicyManager.recv_result at 1. simpl.
  destruct pending as [|r pending].
  { rewrite bind_raise. eexists _, _, _. split_and!; [done..|]. by intros acc'. }
  rewrite bind_assoc. unfold bind at 1, emit at 1. cbv beta iota.
  rewrite bind_assoc. unfold bind at 1. cbv beta.
  pose proof (multi_node_set_states_callback _ (reply_policy r) self eq_refl) as Hcb.
  rewrite (silent_run _ self (multi_node_set_states_silent (reply_policy r))).
  destruct (result (foldM _ tt (reply_policy r) self)) as [e|[]].
  { eexists _, _, _. split_and!; [done..|]. by intros acc'. }
  rewrite bind_ret.
  match goal with |- context [foldM _ ?a idxs ?s] =>
    destruct (IHidxs a s) as (r' & self' & tr' & -> & Hcb' & Hquiet & Hret) end.
  eexists _, _, _. split_and!; [done|by rewrite Hcb'|exact Hquiet|].
  intros acc' ->. destruct (Hret acc' eq_refl) as (Hlen & Hfrom & Hto & ->). simpl in *.
  split_and!; [lia|exact (f_equal (cons r) Hfrom)|exact Hto|by rewrite <-(assoc_L (++))].
Qed.

Lemma multi_node_update_run (exps : pydict ExperienceSet) (replies : list reply)
    (self : MultiNodePolicyManager.t) :
  ∃ r self' tr,
    MultiNodePolicyManager.update exps replies self = (r, self', tr) ∧
    callbacks tr
    = match r with
      | inr _ =>
          if AbsPolicyManager._post_update (MultiNodePolicyManager.base self)
          then [reply_tracker
                  <$> take (Z.to_nat (MultiNodePolicyManager._num_trainers self)) replies]
          else []
      | inl _ => []
      end ∧
    (r = inr tt →
     sent_to tr = py_keys (MultiNodePolicyManager._trainer2policies self) ∧
     received tr = take (Z.to_nat (MultiNodePolicyManager._num_trainers self)) replies ∧
     (Z.to_nat (MultiNodePolicyManager._num_trainers self) ≤ length replies)%nat).
Proof.
  unfold MultiNodePolicyManager.update.
  pose proof (multi_node_cache_workers _ _ _ (∅, ∅) exps self
                (conj eq_refl (conj eq_refl eq_refl))) as (Htrainers & Hnum & Hcb).
  unfold bind at 1.
  rewrite (silent_run _ self (multi_node_cache_silent (∅, ∅) exps)).
  set (self1 := state (foldM MultiNodePolicyManager.cache_experience (∅, ∅) exps self)) in *.
  destruct (result (foldM MultiNodePolicyManager.cache_experience (∅, ∅) exps self))
    as [e|sent]; [by eexists _, _, _|].
  mstep. rewrite Htrainers.
  destruct (multi_node_send_run sent.1 (MultiNodePolicyManager._trainer2policies self) self1)
    as (r & tr1 & Hsend & Hquiet1 & Hsent).
  unfold bind at 1. rewrite Hsend. destruct r as [e|[]]; [by eexists _, _, _|].
  destruct (Hsent eq_refl) as [Hto Hfrom]. mstep. rewrite Hnum.
  destruct (multi_node_recv_run ([], replies)
              (py_range 0 (MultiNodePolicyManager._num_trainers self)) self1)
    as (r & self2 & tr2 & Hrecv & Hcb2 & Hquiet2 & Hreceived).
  unfold bind at 1. rewrite Hrecv. rewrite Hcb in Hcb2.
  destruct r as [e|acc].
  { eexists _, _, _. split_and!; [done| |done]. simpl. unfold callbacks in *.
    by rewrite omap_app, Hquiet1, Hquiet2. }
  destruct (Hreceived acc eq_refl) as (Hlen & Hfrom2 & Hto2 & Hacc).
  unfold py_range in *. rewrite length_seqZ, Z.sub_0_r in *. simpl in *.
  assert (∀ tr3, sent_to tr3 = [] → received tr3 = [] →
            sent_to (tr1 ++ tr2 ++ tr3)
            = py_keys (MultiNodePolicyManager._trainer2policies self) ∧
            received (tr1 ++ tr2 ++ tr3)
            = take (Z.to_nat (MultiNodePolicyManager._num_trainers self)) replies ∧
            callbacks (tr1 ++ tr2 ++ tr3) = callbacks tr3)
    as Hquiet.
  { intros tr3 Hto3 Hfrom3. unfold sent_to, received, callbacks in *.
    rewrite !omap_app, Hto, Hfrom, Hto2, Hfrom2, Hto3, Hfrom3, Hquiet1, Hquiet2, !app_nil_r.
    done. }
  destruct (decide (sent.2 = ∅)); mstep; simpl; rewrite Hcb2;
    destruct (AbsPolicyManager._post_update (MultiNodePolicyManager.base self));
    unfold emit, ret; simpl; eexists _, _, _; (split; [done|]).
  - destruct (Hquiet [EvPostUpdate acc.1] eq_refl eq_refl) as (? & ? & ->).
    split; [unfold callbacks; simpl; by rewrite Hacc|done].
  - destruct (Hquiet [] eq_refl eq_refl) as (? & ? & ->). by split.
  - destruct (Hquiet [EvPostUpdate acc.1] eq_refl eq_refl) as (? & ? & ->).
    split; [unfold callbacks; simpl; by rewrite Hacc|done].
  - destruct (Hquiet [] eq_refl eq_refl) as (? & ? & ->). by split.
Qed.

(** *** The multi-process round *)

Lemma multi_process_cache_silent acc exps :
  silent (foldM MultiProcessPolicyManager.cache_experience acc exps).
Proof. unfold MultiProcessPolicyManager.cache_experience. compositional. Qed.

Lemma multi_process_cache_ends (ends : list string) (cb : bool) acc exps :
  preserves (λ self, MultiProcessPolicyManager._manager_end self = ends ∧
                     AbsPolicyManager._post_update (MultiProcessPolicyManager.base self) = cb)
            (foldM MultiProcessPolicyManager.cache_experience acc exps).
Proof. unfold MultiProcessPolicyManager.cache_experience. compositional; by intros []. Qed.

Lemma multi_process_send_run exp_to_send ends (self : MultiProcessPolicyManager.t) :
  ∃ r self' tr,
    foldM (MultiProcessPolicyManager.send_train exp_to_send) tt ends self = (r, self', tr) ∧
    MultiProcessPolicyManager._manager_end self' = MultiProcessPolicyManager._manager_end self ∧
    AbsPolicyManager._post_update (MultiProcessPolicyManager.base self')
    = AbsPolicyManager._post_update (MultiProcessPolicyManager.base self) ∧
    callbacks tr = [] ∧
    (r = inr tt → sent_to tr = ends ∧ received tr = []).
Proof.
  revert self. induction ends as [|trainer_id ends IHends]; intros self; simpl.
  { by exists (inr tt), self, []. }
  unfold MultiProcessPolicyManager.send_train at 1. mstep.
  match goal with |- context [bind (experiences_for _ ?names) _ ?s] =>
    destruct (experiences_for_result exp_to_send names s)
      as [[d Hrun]|(key & _ & _ & Hrun)];
    destruct (IHends s) as (r' & self' & tr' & Hrest & Hends & Hcb & Hquiet & Hret)
  end.
  - unfold bind at 1. rewrite Hrun. unfold bind at 1, emit at 1. cbv beta iota.
    rewrite Hrest. eexists _, _, _.
    split_and!; [done|by destruct self|by destruct self|exact Hquiet|].
    intros ->. destruct (Hret eq_refl) as [Hto Hfrom].
    split; [exact (f_equal (cons trainer_id) Hto)|exact Hfrom].
  - unfold bind at 1. rewrite Hrun. eexists _, _, _.
    split_and!; [done|by destruct self|by destruct self|done..].
Qed.

Lemma multi_process_set_states_silent states :
  silent (foldM MultiProcessPolicyManager.set_policy_state tt states).
Proof.
  unfold MultiProcessPolicyManager.set_policy_state, AbsPolicyManager.policy_of. compositional.
Qed.

Lemma multi_process_set_states_callback (cb : bool) states :
  preserves (λ self, AbsPolicyManager._post_update (MultiProcessPolicyManager.base self) = cb)
            (foldM MultiProcessPolicyManager.set_policy_state tt states).
Proof.
  unfold MultiProcessPolicyManager.set_policy_state. compositional; try (by intros [[]]).
  all: intros t Ht; rewrite policy_of_state; by destruct t.
Qed.

Lemma multi_process_recv_run acc (ends : list string) (self : MultiProcessPolicyManager.t) :
  ∃ r self' tr,
    foldM MultiProcessPolicyManager.recv_result acc ends self = (r, self', tr) ∧
    AbsPolicyManager._post_update (MultiProcessPolicyManager.base self')
    = AbsPolicyManager._post_update (MultiProcessPolicyManager.base self) ∧
    callbacks tr = [] ∧
    ∀ acc', r = inr acc' →
      (length ends ≤ length acc.2)%nat ∧
      received tr = take (length ends) acc.2 ∧ sent_to tr = [] ∧
      acc'.1 = acc.1 ++ (reply_tracker <$> take (length ends) acc.2).
Proof.
  revert acc self. induction ends as [|i ends IHends]; intros [trackers pending] self; simpl.
  { eexists _, _, _. split_and!; [done..|]. intros acc' [= <-]. simpl.
    rewrite app_nil_r. split_and!; [lia|done..]. }
  unfold MultiProcessPolicyManager.recv_result at 1. simpl.
  destruct pending as [|r pending].
  { rewrite bind_raise. eexists _, _, _. split_and!; [done..|]. by intros acc'. }
  rewrite bind_assoc. unfold bind at 1, emit at 1. cbv beta iota.
  rewrite bind_assoc. unfold bind at 1. cbv beta.
  pose proof (multi_process_set_states_callback _ (reply_policy r) self eq_refl) as Hcb.
  rewrite (silent_run _ self (multi_process_set_states_silent (reply_policy r))).
  destruct (result (foldM _ tt (reply_policy r) self)) as [e|[]].
  { eexists _, _, _. split_and!; [done..|]. by intros acc'. }
  rewrite bind_ret.
  match goal with |- context [foldM _ ?a ends ?s] =>
    destruct (IHends a s) as (r' & self' & tr' & -> & Hcb' & Hquiet & Hret) end.
  eexists _, _, _. split_and!; [done|by rewrite Hcb'|exact Hquiet|].
  intros acc' ->. destruct (Hret acc' eq_refl) as (Hlen & Hfrom & Hto & ->). simpl in *.
  split_and!; [lia|exact (f_equal (cons r) Hfrom)|exact Hto|by rewrite <-(assoc_L (++))].
Qed.

Lemma multi_process_update_run (exps : pydict ExperienceSet) (replies : list reply)
    (self : MultiProcessPolicyManager.t) :
  ∃ r self' tr,
    MultiProcessPolicyManager.update exps replies self = (r, self', tr) ∧
    callbacks tr
    = match r with
      | inr _ =>
          if AbsPolicyManager._post_update (MultiProcessPolicyManager.base self)
          then [reply_tracker
                  <$> take (length (MultiProcessPolicyManager._manager_end self)) replies]
          else []
      | inl _ => []
      end ∧
    (r = inr tt →
     sent_to tr = MultiProcessPolicyManager._manager_end self ∧
     received tr = take (length (MultiProcessPolicyManager._manager_end self)) replies ∧
     (length (MultiProcessPolicyManager._manager_end self) ≤ length replies)%nat).
Proof.
  unfold MultiProcessPolicyManager.update.
  pose proof (multi_process_cache_ends _ _ (∅, ∅) exps self (conj eq_refl eq_refl))
    as [Hends Hcb].
  unfold bind at 1.
  rewrite (silent_run _ self (multi_process_cache_silent (∅, ∅) exps)).
  set (self1 := state (foldM MultiProcessPolicyManager.cache_experience (∅, ∅) exps self))
    in *.
  destruct (result (foldM MultiProcessPolicyManager.cache_experience (∅, ∅) exps self))
    as [e|sent]; [by eexists _, _, _|].
  mstep. rewrite Hends.
  destruct (multi_process_send_run sent.1 (MultiProcessPolicyManager._manager_end self) self1)
    as (r & self2 & tr1 & Hsend & Hends2 & Hcb2 & Hquiet1 & Hsent).
  unfold bind at 1. rewrite Hsend. destruct r as [e|[]]; [by eexists _, _, _|].
  destruct (Hsent eq_refl) as [Hto Hfrom]. mstep. rewrite Hends2, Hends.
  destruct (multi_process_recv_run ([], replies)
              (MultiProcessPolicyManager._manager_end self) self2)
    as (r & self3 & tr2 & Hrecv & Hcb3 & Hquiet2 & Hreceived).
  unfold bind at 1. rewrite Hrecv. rewrite Hcb2, Hcb in Hcb3.
  destruct r as [e|acc].
  { eexists _, _, _. split_and!; [done| |done]. simpl. unfold callbacks in *.
    by rewrite omap_app, Hquiet1, Hquiet2. }
  destruct (Hreceived acc eq_refl) as (Hlen & Hfrom2 & Hto2 & Hacc). simpl in *.
  assert (∀ tr3, sent_to tr3 = [] → received tr3 = [] →
            sent_to (tr1 ++ tr2 ++ tr3) = MultiProcessPolicyManager._manager_end self ∧
            received (tr1 ++ tr2 ++ tr3)
            = take (length (MultiProcessPolicyManager._manager_end self)) replies ∧
            callbacks (tr1 ++ tr2 ++ tr3) = callbacks tr3)
    as Hquiet.
  { intros tr3 Hto3 Hfrom3. unfold sent_to, received, callbacks in *.
    rewrite !omap_app, Hto, Hfrom, Hto2, Hfrom2, Hto3, Hfrom3, Hquiet1, Hquiet2, !app_nil_r.
    done. }
  destruct (decide (sent.2 = ∅)); mstep; simpl; rewrite Hcb3;
    destruct (AbsPolicyManager._post_update (MultiProcessPolicyManager.base self));
    unfold emit, ret; simpl; eexists _, _, _; (split; [done|]).
  - destruct (Hquiet [EvPostUpdate acc.1] eq_refl eq_refl) as (? & ? & ->).
    split; [unfold callbacks; simpl; by rewrite Hacc|done].
  - destruct (Hquiet [] eq_refl eq_refl) as (? & ? & ->). by split.
  - destruct (Hquiet [EvPostUpdate acc.1] eq_refl eq_refl) as (? & ? & ->).
    split; [unfold callbacks; simpl; by rewrite Hacc|done].
  - destruct (Hquiet [] eq_refl eq_refl) as (? & ? & ->). by split.
Qed.

(** X16: a distributed round is a barrier on all trainers.  When [update]
    returns, it has sent exactly one message per trainer, in order (one
    [train] message down every pipe of the multi-process manager, one
    [LEARN] message to every trainer with an entry in [_trainer2policies]
    of the multi-node manager), and it has read exactly one reply per
    trainer, the first ones that arrived; with fewer replies than trainers
    it does not return. *)
Theorem distributed_update_barrier (exps : pydict ExperienceSet) (replies : list reply) :
  (∀ self : MultiProcessPolicyManager.t,
     result (MultiProcessPolicyManager.update exps replies self) = inr tt →
     sent_to (trace (MultiProcessPolicyManager.update exps replies self))
     = MultiProcessPolicyManager._manager_end self ∧
     received (trace (MultiProcessPolicyManager.update exps replies self))
     = take (length (MultiProcessPolicyManager._manager_end self)) replies ∧
     (length (MultiProcessPolicyManager._manager_end self) ≤ length replies)%nat) ∧
  (∀ self : MultiNodePolicyManager.t,
     result (MultiNodePolicyManager.update exps replies self) = inr tt →
     sent_to (trace (MultiNodePolicyManager.update exps replies self))
     = py_keys (MultiNodePolicyManager._trainer2policies self) ∧
     received (trace (MultiNodePolicyManager.update exps replies self))
     = take (Z.to_nat (MultiNodePolicyManager._num_trainers self)) replies ∧
     (Z.to_nat (MultiNodePolicyManager._num_trainers self) ≤ length replies)%nat).
Proof.
  split; intros self.
  - destruct (multi_process_update_run exps replies self)
      as (r & self' & tr & -> & _ & Hrun). exact Hrun.
  - destruct (multi_node_update_run exps replies self)
      as (r & self' & tr & -> & _ & Hrun). exact Hrun.
Qed.


End DistributedRounds.

(** ** The multi-node constructor's handshake *)

Section Handshake.
Context {PI : AbsCorePolicy}.

Lemma py_getitem_touch_default k k' (d : pydict (list string)) :
  default [] (py_getitem k (py_touch k' d)) = default [] (py_getitem k d).
Proof.
  unfold py_touch. destruct (py_getitem k' d) as [xs|] eqn:Hk'; [done|].
  induction d as [|[k0 xs] d IHd]; simpl in *.
  - by case_decide.
  - destruct (decide (k0 = k')) as [->|Hne]; [done|].
    destruct (decide (k0 = k)); [done|]. by apply IHd.
Qed.

Lemma py_keys_touch k (d : pydict (list string)) :
  py_keys (py_touch k d) = if decide (k ∈ py_keys d) then py_keys d else py_keys d ++ [k].
Proof.
  unfold py_touch. destruct (py_getitem k d) as [xs|] eqn:Hk.
  - rewrite decide_True; [done|]. apply py_getitem_is_Some. by eexists.
  - rewrite decide_False.
    + unfold py_keys. by rewrite fmap_app.
    + intros [xs Hxs]%py_getitem_is_Some. congruence.
Qed.

Lemma partitioned_touch p2t t2p names k :
  partitioned p2t t2p names → partitioned p2t (py_touch k t2p) names.
Proof.
  intros (Hdom & Hinv & Hnodup). split_and!; [done| |].
  - intros n t. by rewrite py_getitem_touch_default.
  - rewrite py_keys_touch. case_decide; [done|].
    apply NoDup_app. split_and!; [done| |apply NoDup_singleton].
    intros k' Hk' ->%list_elem_of_singleton. done.
Qed.

Lemma busy_append k x t2p : busy t2p → busy (py_append k x t2p).
Proof.
  unfold busy. induction 1 as [|[k0 xs] d Hxs Hd IHd]; simpl.
  - by apply Forall_singleton.
  - case_decide; subst; apply Forall_cons; simpl; [by destruct xs|done..].
Qed.

Lemma multi_node_assign_partition (K : Z) idx names seen (self : MultiNodePolicyManager.t) :
  NoDup (seen ++ names) →
  partitioned (MultiNodePolicyManager._policy2trainer self)
              (MultiNodePolicyManager._trainer2policies self) seen →
  busy (MultiNodePolicyManager._trainer2policies self) →
  ∃ r self',
    foldM (MultiNodePolicyManager.assign_trainer K) idx names self = (r, self', []) ∧
    MultiNodePolicyManager.base self' = MultiNodePolicyManager.base self ∧
    (∀ idx', r = inr idx' →
     partitioned (MultiNodePolicyManager._policy2trainer self')
                 (MultiNodePolicyManager._trainer2policies self') (seen ++ names) ∧
     busy (MultiNodePolicyManager._trainer2policies self')).
Proof.
  revert idx seen self. induction names as [|n names IHnames];
    intros idx seen self Hnodup Hpart Hbusy.
  { exists (inr idx), self. simpl. rewrite app_nil_r. done. }
  simpl. unfold MultiNodePolicyManager.assign_trainer at 1. mstep.
  destruct (py_index (MultiNodePolicyManager._workers self) idx) as [trainer_id|]; simpl orraise.
  2: { rewrite !bind_raise. exists (inl IndexError), self. split_and!; [done..|].
       by intros idx'. }
  mstep. destruct (decide (K = 0)) as [->|HK].
  { rewrite !bind_raise. eexists (inl ZeroDivisionError), _. split_and!; [done|by destruct self|].
    by intros idx'. }
  mstep.
  match goal with |- context [foldM _ ?i names ?s1] =>
    destruct (IHnames i (seen ++ [n]) s1) as (r & self' & Hrun & Hbase & Hpart') end.
  - by rewrite <-(assoc_L (++)).
  - simpl. apply partitioned_assign; [|done].
    apply NoDup_app in Hnodup as (_ & Hdisjoint & _). intros Hin.
    apply (Hdisjoint n Hin). by left.
  - simpl. by apply busy_append.
  - exists r, self'. rewrite Hrun, Hbase. rewrite <-(assoc_L (++)) in Hpart'.
    split_and!; [done|by destruct self|done].
Qed.

Lemma multi_node_send_init_run trainers (self : MultiNodePolicyManager.t) :
  ∃ r tr,
    foldM MultiNodePolicyManager.send_init tt trainers self = (r, self, tr) ∧
    acked tr = [] ∧
    (r = inr tt → sent_to tr = py_keys trainers).
Proof.
  induction trainers as [|item trainers IHtrainers]; simpl.
  { by exists (inr tt), []. }
  unfold MultiNodePolicyManager.send_init at 1. mstep.
  destruct IHtrainers as (r' & tr' & Hrest & Hquiet & Hret).
  unfold bind at 1. rewrite states_for_pure.
  destruct (result (states_for _ item.2 self)) as [e|states]; [by eexists _, _|].
  unfold bind at 1, emit at 1. cbv beta iota. rewrite Hrest.
  eexists _, _. split_and!; [done|exact Hquiet|].
  intros ->. exact (f_equal (cons item.1) (Hret eq_refl)).
Qed.

Lemma multi_node_recv_ack_run pending (trainers : pydict (list string))
    (self : MultiNodePolicyManager.t) :
  ∃ r self' tr,
    foldM MultiNodePolicyManager.recv_ack pending trainers self = (r, self', tr) ∧
    MultiNodePolicyManager._policy2trainer self' = MultiNodePolicyManager._policy2trainer self ∧
    (∀ p2t names,
       partitioned p2t (MultiNodePolicyManager._trainer2policies self) names →
       partitioned p2t (MultiNodePolicyManager._trainer2policies self') names) ∧
    sent_to tr = [] ∧
    ∀ rest, r = inr rest →
      (length trainers ≤ length pending)%nat ∧
      acked tr = take (length trainers) pending.
Proof.
  revert pending self. induction trainers as [|item trainers IHtrainers];
    intros pending self; simpl.
  { eexists _, _, _. split_and!; [done..|]. intros rest _. split; [lia|done]. }
  unfold MultiNodePolicyManager.recv_ack at 1.
  destruct pending as [|trainer_id pending].
  { rewrite bind_raise. eexists _, _, _. split_and!; [done..|]. by intros rest. }
  rewrite bind_assoc. unfold bind at 1, emit at 1. cbv beta iota. mstep.
  match goal with |- context [foldM _ pending trainers ?s] =>
    destruct (IHtrainers pending s) as (r' & self' & tr' & -> & Hp2t & Hpart & Hquiet & Hret) end.
  eexists _, _, _. split_and!; [done|by rewrite Hp2t|..|exact Hquiet|].
  - intros p2t names Hnames. apply Hpart. simpl. by apply partitioned_touch.
  - intros rest ->. destruct (Hret rest eq_refl) as [Hlen Hacked]. simpl.
    split; [lia|exact (f_equal (cons trainer_id) Hacked)].
Qed.

Lemma busy_trainer p2t t2p names trainer_id :
  partitioned p2t t2p names → busy t2p →
  trainer_id ∈ py_keys t2p ↔ ∃ name, p2t !! name = Some trainer_id.
Proof.
  intros (Hdom & Hinv & Hnodup) Hbusy. split.
  - intros [xs Hxs]%py_getitem_is_Some.
    assert (xs ≠ []) as Hne.
    { apply py_getitem_elem in Hxs. unfold busy in Hbusy.
      rewrite Forall_forall in Hbusy. apply (Hbusy _ Hxs). }
    destruct xs as [|name xs]; [done|]. exists name. apply Hinv. rewrite Hxs. by left.
  - intros [name Hname]. apply Hinv in Hname. apply py_getitem_is_Some.
    destruct (py_getitem trainer_id t2p) as [xs|]; [by eexists|]. by apply elem_of_nil in Hname.
Qed.

(** X19: the multi-node constructor's handshake.  When the constructor
    returns, every managed policy is assigned to exactly one trainer and a
    trainer's list holds exactly the policies assigned to it; it has sent
    one [INIT_POLICY_STATE] message to each trainer that has a policy, to
    no other worker and to none twice; and it has read exactly as many
    acknowledgements as it sent messages, whoever they came from.  With
    fewer acknowledgements it does not return. *)
Theorem multi_node_handshake (pd : pydict pyobj) (workers : list string) (K : Z)
    (trig warm : option (gmap string Z)) (cb : bool) (acks : list string) self tr :
  NoDup (py_keys pd) →
  MultiNodePolicyManager.__init__ pd workers K trig warm cb acks = (inr self, tr) →
  (∀ name, is_Some (MultiNodePolicyManager._policy2trainer self !! name)
           ↔ name ∈ py_keys pd) ∧
  (∀ name trainer_id,
     MultiNodePolicyManager._policy2trainer self !! name = Some trainer_id
     ↔ name ∈ default [] (py_getitem trainer_id
                            (MultiNodePolicyManager._trainer2policies self))) ∧
  (∀ trainer_id,
     trainer_id ∈ sent_to tr
     ↔ ∃ name, MultiNodePolicyManager._policy2trainer self !! name = Some trainer_id) ∧
  NoDup (sent_to tr) ∧
  acked tr = take (length (sent_to tr)) acks ∧
  (length (sent_to tr) ≤ length acks)%nat.
Proof.
  intros Hnodup. unfold MultiNodePolicyManager.__init__.
  destruct (AbsPolicyManager.__init__ pd trig warm cb) as [e|b] eqn:Hb; [done|].
  destruct (base_init_inv _ _ _ _ _ Hb) as [Hkeys _].
  unfold MultiNodePolicyManager.init_trainers. mstep. simpl. rewrite Hkeys.
  assert (partitioned (∅ : gmap string string) [] []) as Hempty.
  { split_and!; [|by intros n t; rewrite lookup_empty; simpl; rewrite elem_of_nil|apply NoDup_nil_2].
    intros n. rewrite lookup_empty, elem_of_nil. split; [by intros [? ?]|done]. }
  destruct (multi_node_assign_partition K 0 (py_keys pd) []
              (MultiNodePolicyManager.Build b workers (Z.of_nat (length workers)) ∅ ∅ ∅ [])
              Hnodup Hempty (Forall_nil_2 _))
    as (r & self1 & Hrun & _ & Hpart).
  unfold bind at 1. rewrite Hrun. destruct r as [e|idx]; [done|].
  destruct (Hpart idx eq_refl) as [Hpart1 Hbusy]. simpl in Hpart1. mstep.
  destruct (multi_node_send_init_run (MultiNodePolicyManager._trainer2policies self1) self1)
    as (r & tr2 & Hsend & Hquiet2 & Hsent).
  unfold bind at 1. rewrite Hsend. destruct r as [e|[]]; [done|].
  specialize (Hsent eq_refl). mstep.
  destruct (multi_node_recv_ack_run acks (MultiNodePolicyManager._trainer2policies self1) self1)
    as (r & self3 & tr3 & Hrecv & Hp2t & Hpart3 & Hquiet3 & Hacked).
  unfold bind at 1. rewrite Hrecv. destruct r as [e|rest]; [done|].
  destruct (Hacked rest eq_refl) as [Hlen Hacks].
  unfold ret. simpl. intros [= <- <-].
  assert (sent_to (tr2 ++ tr3 ++ [])
          = py_keys (MultiNodePolicyManager._trainer2policies self1)) as ->.
  { unfold sent_to in *. by rewrite !omap_app, Hsent, Hquiet3, !app_nil_r. }
  assert (acked (tr2 ++ tr3 ++ [])
          = take (length (MultiNodePolicyManager._trainer2policies self1)) acks) as ->.
  { unfold acked in *. by rewrite !omap_app, Hquiet2, Hacks, !app_nil_r. }
  destruct (Hpart3 _ _ Hpart1) as (Hdom & Hinv & _).
  pose proof Hpart1 as (_ & _ & Hnd). rewrite Hp2t.
  assert (length (py_keys (MultiNodePolicyManager._trainer2policies self1))
          = length (MultiNodePolicyManager._trainer2policies self1)) as ->
    by apply length_fmap.
  split_and!; [done|done| |done|done|done].
  intros trainer_id. by eapply busy_trainer.
Qed.

End Handshake.

(** ** The version history of the distributed managers *)

Section DistributedHistory.
Context {PI : AbsCorePolicy}.

Lemma establishes_bind {S A B} (P Q : S → Prop) (c : M S A) (k : A → M S B) :
  (∀ s, P s → Q s) → preserves P c → (∀ a, establishes P Q (k a)) →
  establishes P Q (bind c k).
Proof.
  intros HPQ Hc Hk s Hs. specialize (Hc s Hs).
  destruct (result (c s)) as [e|a] eqn:Hr.
  - rewrite (bind_inl _ _ _ _ Hr). by apply HPQ.
  - rewrite (bind_inr _ _ _ _ Hr). by apply Hk.
Qed.

Lemma one_more_version_refl names h : one_more_version names h h.
Proof. exists []. rewrite app_nil_r. split_and!; [done|simpl; lia|apply Forall_nil_2]. Qed.

Lemma one_more_version_append names h updated :
  updated ≠ ∅ → updated ⊆ list_to_set names → one_more_version names h (h ++ [updated]).
Proof. intros ??. exists [updated]. split_and!; [done|simpl; lia|by apply Forall_singleton]. Qed.

(** Runs the body of the caching loop along all its paths. *)
Ltac run_cache :=
  repeat first
    [ progress mstep
    | rewrite bind_raise
    | match goal with
      | |- context [orraise _ ?o] => destruct o eqn:?; simpl orraise
      | |- context [if bool_decide ?P then _ else _] => destruct (bool_decide P) eqn:?
      end ];
  unfold result, state, trace, ret, raise; simpl.

Lemma multi_process_cache_body_updated acc item (self : MultiProcessPolicyManager.t) acc' :
  result (MultiProcessPolicyManager.cache_experience acc item self) = inr acc' →
  acc'.2 ⊆ acc.2 ∪ {[item.1]}.
Proof.
  unfold MultiProcessPolicyManager.cache_experience. run_cache; try done.
  all: intros [= <-]; simpl; set_solver.
Qed.

Lemma multi_process_cache_updated acc exps (self : MultiProcessPolicyManager.t) sent :
  result (foldM MultiProcessPolicyManager.cache_experience acc exps self) = inr sent →
  sent.2 ⊆ acc.2 ∪ list_to_set exps.*1.
Proof.
  revert acc self. induction exps as [|item exps IHexps]; intros acc self; simpl.
  { intros [= <-]. set_solver. }
  destruct (result (MultiProcessPolicyManager.cache_experience acc item self))
    as [e|acc1] eqn:Hbody.
  - by rewrite (bind_inl _ _ _ _ Hbody).
  - rewrite (bind_inr _ _ _ _ Hbody). unfold result at 1; simpl.
    intros Hrest%IHexps. apply multi_process_cache_body_updated in Hbody. set_solver.
Qed.

Lemma multi_process_loops_history (h : list (gset string)) :
  (∀ acc exps,
     preserves (λ self, AbsPolicyManager._update_history (MultiProcessPolicyManager.base self) = h)
               (foldM MultiProcessPolicyManager.cache_experience acc exps)) ∧
  (∀ exp_to_send ends,
     preserves (λ self, AbsPolicyManager._update_history (MultiProcessPolicyManager.base self) = h)
               (foldM (MultiProcessPolicyManager.send_train exp_to_send) tt ends)) ∧
  (∀ acc ends,
     preserves (λ self, AbsPolicyManager._update_history (MultiProcessPolicyManager.base self) = h)
               (foldM MultiProcessPolicyManager.recv_result acc ends)).
Proof.
  split_and!; intros;
    unfold MultiProcessPolicyManager.cache_experience, MultiProcessPolicyManager.send_train,
      MultiProcessPolicyManager.recv_result, MultiProcessPolicyManager.set_policy_state;
    compositional; try (by intros [[]]).
  all: intros t Ht; rewrite policy_of_state; by destruct t.
Qed.

Lemma multi_process_update_history names (h : list (gset string)) sent replies :
  sent.2 ⊆ list_to_set names →
  establishes
    (λ self, AbsPolicyManager._update_history (MultiProcessPolicyManager.base self) = h)
    (λ self, one_more_version names h
               (AbsPolicyManager._update_history (MultiProcessPolicyManager.base self)))
    (let exp_to_send := sent.1 in
     let updated := sent.2 in
     let* ends := gets MultiProcessPolicyManager._manager_end in
     foldM (MultiProcessPolicyManager.send_train exp_to_send) tt ends;;;
     let* ends := gets MultiProcessPolicyManager._manager_end in
     let* received := foldM MultiProcessPolicyManager.recv_result ([], replies) ends in
     (if decide (updated = ∅) then ret tt
      else modify (λ self, MultiProcessPolicyManager.set_update_history
                     (AbsPolicyManager._update_history (MultiProcessPolicyManager.base self)
                        ++ [updated]) self));;;
     let* post_update :=
       gets (λ self, AbsPolicyManager._post_update (MultiProcessPolicyManager.base self)) in
     if (post_update : bool) then emit (EvPostUpdate received.1) else ret tt).
Proof.
  intros Hsent. destruct (multi_process_loops_history h) as (_ & Hsend & Hrecv).
  assert (∀ s : MultiProcessPolicyManager.t,
            AbsPolicyManager._update_history (MultiProcessPolicyManager.base s) = h →
            one_more_version names h
              (AbsPolicyManager._update_history (MultiProcessPolicyManager.base s))) as Hrefl.
  { intros s ->. apply one_more_version_refl. }
  simpl. apply establishes_bind; [done|apply preserves_gets|intros ends].
  apply establishes_bind; [done|apply Hsend|intros []].
  apply establishes_bind; [done|apply preserves_gets|intros ends'].
  apply establishes_bind; [done|apply Hrecv|intros received].
  intros s Hs. destruct (decide (sent.2 = ∅)); mstep; simpl;
    match goal with |- context [if ?b then _ else _] => destruct b end;
    unfold state, emit, ret; simpl; rewrite ?Hs;
    first [apply one_more_version_refl | by apply one_more_version_append].
Qed.

Lemma multi_node_cache_body_updated acc item (self : MultiNodePolicyManager.t) acc' :
  result (MultiNodePolicyManager.cache_experience acc item self) = inr acc' →
  acc'.2 ⊆ acc.2 ∪ {[item.1]}.
Proof.
  unfold MultiNodePolicyManager.cache_experience. run_cache; try done.
  all: intros [= <-]; simpl; set_solver.
Qed.

Lemma multi_node_cache_updated acc exps (self : MultiNodePolicyManager.t) sent :
  result (foldM MultiNodePolicyManager.cache_experience acc exps self) = inr sent →
  sent.2 ⊆ acc.2 ∪ list_to_set exps.*1.
Proof.
  revert acc self. induction exps as [|item exps IHexps]; intros acc self; simpl.
  { intros [= <-]. set_solver. }
  destruct (result (MultiNodePolicyManager.cache_experience acc item self))
    as [e|acc1] eqn:Hbody.
  - by rewrite (bind_inl _ _ _ _ Hbody).
  - rewrite (bind_inr _ _ _ _ Hbody). unfold result at 1; simpl.
    intros Hrest%IHexps. apply multi_node_cache_body_updated in Hbody. set_solver.
Qed.

Lemma multi_node_loops_history (h : list (gset string)) :
  (∀ acc exps,
     preserves (λ self, AbsPolicyManager._update_history (MultiNodePolicyManager.base self) = h)
               (foldM MultiNodePolicyManager.cache_experience acc exps)) ∧
  (∀ exp_to_send trainers,
     preserves (λ self, AbsPolicyManager._update_history (MultiNodePolicyManager.base self) = h)
               (foldM (MultiNodePolicyManager.send_learn exp_to_send) tt trainers)) ∧
  (∀ acc idxs,
     preserves (λ self, AbsPolicyManager._update_history (MultiNodePolicyManager.base self) = h)
               (foldM MultiNodePolicyManager.recv_result acc idxs)).
Proof.
  split_and!; intros;
    unfold MultiNodePolicyManager.cache_experience, MultiNodePolicyManager.send_learn,
      MultiNodePolicyManager.recv_result, MultiNodePolicyManager.set_policy_state;
    compositional; try (by intros [[]]).
  all: intros t Ht; rewrite policy_of_state; by destruct t.
Qed.

Lemma multi_node_update_history names (h : list (gset string)) sent replies :
  sent.2 ⊆ list_to_set names →
  establishes
    (λ self, AbsPolicyManager._update_history (MultiNodePolicyManager.base self) = h)
    (λ self, one_more_version names h
               (AbsPolicyManager._update_history (MultiNodePolicyManager.base self)))
    (let exp_to_send := sent.1 in
     let updated := sent.2 in
     let* trainers := gets MultiNodePolicyManager._trainer2policies in
     foldM (MultiNodePolicyManager.send_learn exp_to_send) tt trainers;;;
     let* num_trainers := gets MultiNodePolicyManager._num_trainers in
     let* received := foldM MultiNodePolicyManager.recv_result ([], replies)
                        (py_range 0 num_trainers) in
     (if decide (updated = ∅) then ret tt
      else modify (λ self, MultiNodePolicyManager.set_update_history
                     (AbsPolicyManager._update_history (MultiNodePolicyManager.base self)
                        ++ [updated]) self));;;
     let* post_update :=
       gets (λ self, AbsPolicyManager._post_update (MultiNodePolicyManager.base self)) in
     if (post_update : bool) then emit (EvPostUpdate received.1) else ret tt).
Proof.
  intros Hsent. destruct (multi_node_loops_history h) as (_ & Hsend & Hrecv).
  assert (∀ s : MultiNodePolicyManager.t,
            AbsPolicyManager._update_history (MultiNodePolicyManager.base s) = h →
            one_more_version names h
              (AbsPolicyManager._update_history (MultiNodePolicyManager.base s))) as Hrefl.
  { intros s ->. apply one_more_version_refl. }
  simpl. apply establishes_bind; [done|apply preserves_gets|intros ends].
  apply establishes_bind; [done|apply Hsend|intros []].
  apply establishes_bind; [done|apply preserves_gets|intros ends'].
  apply establishes_bind; [done|apply Hrecv|intros received].
  intros s Hs. destruct (decide (sent.2 = ∅)); mstep; simpl;
    match goal with |- context [if ?b then _ else _] => destruct b end;
    unfold state, emit, ret; simpl; rewrite ?Hs;
    first [apply one_more_version_refl | by apply one_more_version_append].
Qed.

(** X20: a distributed round adds at most one version.  After any
    [update] call of the multi-process or multi-node manager, returned or
    raised, the version history is the history before the call followed
    by at most one new entry; a new entry is a non-empty set of policies
    that all got experiences in this round.  Earlier entries are never
    changed. *)
Theorem distributed_history_grows (exps : pydict ExperienceSet) (replies : list reply) :
  (∀ self : MultiProcessPolicyManager.t,
     one_more_version exps.*1
       (AbsPolicyManager._update_history (MultiProcessPolicyManager.base self))
       (AbsPolicyManager._update_history
          (MultiProcessPolicyManager.base
             (state (MultiProcessPolicyManager.update exps replies self))))) ∧
  (∀ self : MultiNodePolicyManager.t,
     one_more_version exps.*1
       (AbsPolicyManager._update_history (MultiNodePolicyManager.base self))
       (AbsPolicyManager._update_history
          (MultiNodePolicyManager.base
             (state (MultiNodePolicyManager.update exps replies self))))).
Proof.
  split; intros self.
  - unfold MultiProcessPolicyManager.update.
    destruct (multi_process_loops_history
                (AbsPolicyManager._update_history (MultiProcessPolicyManager.base self)))
      as (Hcache & _).
    specialize (Hcache (∅, ∅) exps self eq_refl).
    destruct (result (foldM MultiProcessPolicyManager.cache_experience (∅, ∅) exps self))
      as [e|sent] eqn:Hr.
    + rewrite (bind_inl _ _ _ _ Hr). unfold state at 1; simpl. rewrite Hcache.
      apply one_more_version_refl.
    + rewrite (bind_inr _ _ _ _ Hr). unfold state at 1; simpl.
      apply (multi_process_update_history exps.*1 _ sent replies); [|exact Hcache].
      apply multi_process_cache_updated in Hr. set_solver.
  - unfold MultiNodePolicyManager.update.
    destruct (multi_node_loops_history
                (AbsPolicyManager._update_history (MultiNodePolicyManager.base self)))
      as (Hcache & _).
    specialize (Hcache (∅, ∅) exps self eq_refl).
    destruct (result (foldM MultiNodePolicyManager.cache_experience (∅, ∅) exps self))
      as [e|sent] eqn:Hr.
    + rewrite (bind_inl _ _ _ _ Hr). unfold state at 1; simpl. rewrite Hcache.
      apply one_more_version_refl.
    + rewrite (bind_inr _ _ _ _ Hr). unfold state at 1; simpl.
      apply (multi_node_update_history exps.*1 _ sent replies); [|exact Hcache].
      apply multi_node_cache_updated in Hr. set_solver.
Qed.

End DistributedHistory.

(** ** [MultiAgentPolicy] *)

Section MultiAgent.
Context {PI : AbsCorePolicy} {WO : WrappedObjects}.
Implicit Types (self : MultiAgentPolicy.t).

Lemma select_from_returns {V} (source : pydict V) names acc :
  (∃ d, MultiAgentPolicy.select_from source names acc = inr d) ↔ resolves source names.
Proof.
  revert acc. induction names as [|[key name] names IHnames]; intros acc; simpl.
  { split; [intros _ key name Hin; by apply elem_of_nil in Hin|by eexists]. }
  destruct (py_getitem name source) as [v|] eqn:Hname.
  - rewrite IHnames. split.
    + intros Hrest key' name' [[= -> ->]|Hin]%elem_of_cons; [by eexists|by eapply Hrest].
    + intros Hall key' name' Hin. apply (Hall key' name'). by right.
  - split; [by intros [d ?]|]. intros Hall.
    destruct (Hall key name) as [v Hv]; [by left|congruence].
Qed.

Lemma select_from_raises {V} (source : pydict V) names acc e :
  MultiAgentPolicy.select_from source names acc = inl e →
  ∃ key name, (key, name) ∈ names ∧ py_getitem name source = None ∧ e = KeyError name.
Proof.
  revert acc. induction names as [|[key name] names IHnames]; intros acc; simpl; [done|].
  destruct (py_getitem name source) as [v|] eqn:Hname.
  - intros (key' & name' & Hin & Hnone & ->)%IHnames. exists key', name'.
    split_and!; [by right|done..].
  - intros [= <-]. exists key, name. split_and!; [by left|done..].
Qed.

Lemma select_from_lookup {V} (source : pydict V) names acc d :
  NoDup (py_keys names) →
  MultiAgentPolicy.select_from source names acc = inr d →
  ∀ key, py_getitem key d
         = match py_getitem key names with
           | Some name => py_getitem name source
           | None => py_getitem key acc
           end.
Proof.
  revert acc. induction names as [|[k name] names IHnames]; intros acc Hnodup; simpl.
  { by intros [= <-]. }
  apply NoDup_cons in Hnodup as [Hfresh Hnodup].
  destruct (py_getitem name source) as [v|] eqn:Hname; [|done].
  intros Hrest key. rewrite (IHnames _ Hnodup Hrest key), py_getitem_setitem.
  destruct (decide (k = key)) as [->|Hne]; [|done].
  destruct (py_getitem key names) as [name'|] eqn:Hkey; [|done].
  destruct Hfresh. apply py_getitem_is_Some. by eexists.
Qed.

Lemma select_from_composes {V} (source : pydict V) names d :
  NoDup (py_keys names) →
  MultiAgentPolicy.select_from source names [] = inr d → composes source names d.
Proof.
  intros Hnodup Hd key. rewrite (select_from_lookup _ _ _ _ Hnodup Hd key).
  by destruct (py_getitem key names).
Qed.

(** X21: what the wrapper's constructor needs and builds.  With distinct
    agent names, [MultiAgentPolicy(...)] returns exactly when every agent's
    policy name is a key of [policy_dict] and, if a non-empty
    [exploration_dict] is given, [agent_to_exploration] is given too and
    every exploration name in it is a key of [exploration_dict].  The
    wrapper then maps an agent to the policy object that [policy_dict]
    holds under the agent's policy name (and likewise for explorations,
    which start switched on); without explorations it has no
    [exploration] and no [with_exploration] attribute. *)
Theorem multi_agent_construction (pd : pydict nat) (a2p : pydict string)
    (ed : option (pydict nat)) (a2e : option (pydict string)) (h : MultiAgentPolicy.heap) :
  NoDup (py_keys a2p) → (∀ names, a2e = Some names → NoDup (py_keys names)) →
  ((∃ self, MultiAgentPolicy.__init__ pd a2p ed a2e h = inr self) ↔
   resolves pd a2p ∧
   (MultiAgentPolicy.truthy ed = true →
    ∃ names, a2e = Some names ∧ resolves (default [] ed) names)) ∧
  ∀ self, MultiAgentPolicy.__init__ pd a2p ed a2e h = inr self →
    MultiAgentPolicy.policy_dict self = pd ∧ MultiAgentPolicy.objects self = h ∧
    composes pd a2p (MultiAgentPolicy.policy self) ∧
    if MultiAgentPolicy.truthy ed then
      MultiAgentPolicy.with_exploration self = Some true ∧
      ∃ names e, a2e = Some names ∧ MultiAgentPolicy.exploration self = Some e ∧
                 composes (default [] ed) names e
    else MultiAgentPolicy.with_exploration self = None ∧
         MultiAgentPolicy.exploration self = None.
Proof.
  intros Hagents Hexplorers. unfold MultiAgentPolicy.__init__.
  pose proof (select_from_returns pd a2p []) as Hpolicies.
  destruct (MultiAgentPolicy.select_from pd a2p []) as [e|policy] eqn:Hpolicy.
  { split; [|done]. split; [by intros [? ?]|]. intros [Hres _].
    apply Hpolicies in Hres as [? ?]. done. }
  assert (resolves pd a2p) as Hres by (apply Hpolicies; by eexists).
  apply select_from_composes in Hpolicy; [|done].
  destruct (MultiAgentPolicy.truthy ed) eqn:Htruthy.
  2: { split; [|by intros self [= <-]]. split; [by intros _|by eexists]. }
  destruct a2e as [names|].
  2: { split; [|done]. split; [by intros [? ?]|]. intros [_ Hnames].
       by destruct (Hnames eq_refl) as (? & ? & _). }
  pose proof (select_from_returns (default [] ed) names []) as Hexplorations.
  destruct (MultiAgentPolicy.select_from (default [] ed) names []) as [e|exploration]
    eqn:Hexploration.
  { split; [|done]. split; [by intros [? ?]|]. intros [_ Hnames].
    destruct (Hnames eq_refl) as (? & [= <-] & Hres').
    apply Hexplorations in Hres' as [? ?]. done. }
  apply select_from_composes in Hexploration; [|by apply Hexplorers].
  split.
  - split; [|by eexists]. intros _. split; [done|]. intros _. exists names.
    split; [done|]. apply Hexplorations. by eexists.
  - intros self [= <-]. simpl. split_and!; [done..|]. by exists names, exploration.
Qed.

Lemma py_setitem_fresh {V} k (v : V) (d : pydict V) :
  k ∉ py_keys d → py_setitem k v d = d ++ [(k, v)].
Proof.
  unfold py_keys. induction d as [|[k0 v0] d IHd]; simpl; [done|].
  intros [Hne Hnotin]%not_elem_of_cons. rewrite decide_False by done. f_equal. by apply IHd.
Qed.

(** A dictionary comprehension whose entries only read the state. *)
Lemma comprehension_run {S A V} (s : S) (f : string * A → option V)
    (body : pydict V → string * A → M S (pydict V)) :
  (∀ d item, body d item s = match f item with
                             | Some v => (inr (py_setitem item.1 v d), s, [])
                             | None => (inl (KeyError item.1), s, [])
                             end) →
  ∀ items d, NoDup (py_keys d ++ py_keys items) →
    (Forall (λ item, is_Some (f item)) items →
     ∃ entries, foldM body d items s = (inr (d ++ entries), s, []) ∧
                Forall2 (λ item entry, entry.1 = item.1 ∧ f item = Some entry.2) items entries) ∧
    (∀ item, item ∈ items → f item = None →
     ∃ key, key ∈ py_keys items ∧ foldM body d items s = (inl (KeyError key), s, [])).
Proof.
  intros Hbody items. induction items as [|item items IHitems]; intros d Hnodup.
  { split.
    - intros _. exists []. simpl. rewrite app_nil_r. split; [done|apply Forall2_nil_2].
    - by intros item ?%elem_of_nil. }
  assert (item.1 ∉ py_keys d) as Hfresh.
  { apply NoDup_app in Hnodup as (_ & Hdisjoint & _). intros Hin.
    apply (Hdisjoint _ Hin). by left. }
  assert (foldM body d (item :: items) s
          = match f item with
            | Some v => foldM body (py_setitem item.1 v d) items s
            | None => (inl (KeyError item.1), s, [])
            end) as ->.
  { simpl. unfold bind. rewrite Hbody. destruct (f item); [|done].
    by destruct (foldM body _ items s) as [[? ?] ?]. }
  destruct (f item) as [v|] eqn:Hitem.
  2: { split.
       - intros [Hsome _]%Forall_cons. rewrite Hitem in Hsome. by destruct Hsome.
       - intros _ _ _. exists item.1. split; [by left|done]. }
  rewrite py_setitem_fresh by done.
  destruct (IHitems (d ++ [(item.1, v)])) as [Hall Hsome].
  { unfold py_keys in *. rewrite fmap_app, <-(assoc_L (++)). done. }
  split.
  - intros [_ Hrest]%Forall_cons. destruct (Hall Hrest) as (entries & -> & Hentries).
    exists ((item.1, v) :: entries). rewrite <-(assoc_L (++)). split; [done|].
    by apply Forall2_cons.
  - intros item' [->|Hin]%elem_of_cons Hnone; [congruence|].
    destruct (Hsome item' Hin Hnone) as (key & Hkey & ->). exists key.
    split; [by right|done].
Qed.

Lemma policy_action_run agent_id state self :
  MultiAgentPolicy.policy_action agent_id state self
  = match py_getitem agent_id (MultiAgentPolicy.policy self) with
    | Some ref =>
        (inr (object_choose_action
                (MultiAgentPolicy.policy_at (MultiAgentPolicy.objects self) ref) state),
         self, [])
    | None => (inl (KeyError agent_id), self, [])
    end.
Proof.
  unfold MultiAgentPolicy.policy_action. mstep.
  destruct (py_getitem agent_id (MultiAgentPolicy.policy self)); simpl orraise.
  - by mstep.
  - by rewrite bind_raise.
Qed.

Lemma plain_action_run self d item :
  explorer_of self item.1 = None →
  MultiAgentPolicy.plain_action d item self
  = match entry_of self item with
    | Some v => (inr (py_setitem item.1 v d), self, [])
    | None => (inl (KeyError item.1), self, [])
    end.
Proof.
  intros Hplain. unfold MultiAgentPolicy.plain_action, entry_of, expected_action.
  rewrite Hplain. unfold bind. rewrite policy_action_run.
  by destruct (py_getitem item.1 (MultiAgentPolicy.policy self)).
Qed.

Lemma explored_action_run self d item exploration :
  MultiAgentPolicy.exploration self = Some exploration →
  explorer_of self item.1 = py_getitem item.1 exploration →
  MultiAgentPolicy.explored_action d item self
  = match entry_of self item with
    | Some v => (inr (py_setitem item.1 v d), self, [])
    | None => (inl (KeyError item.1), self, [])
    end.
Proof.
  intros Hexploration Hexplorer.
  unfold MultiAgentPolicy.explored_action, entry_of, expected_action.
  rewrite Hexplorer. mstep. rewrite Hexploration. simpl orraise. mstep.
  destruct (py_getitem item.1 exploration) as [e|]; mstep;
    unfold bind; rewrite policy_action_run;
    by destruct (py_getitem item.1 (MultiAgentPolicy.policy self)).
Qed.

Lemma actions_run self (body : pydict Action → string * AgentState → M _ (pydict Action))
    (state_by_agent : pydict AgentState) :
  (∀ d item, body d item self = match entry_of self item with
                                | Some v => (inr (py_setitem item.1 v d), self, [])
                                | None => (inl (KeyError item.1), self, [])
                                end) →
  NoDup (py_keys state_by_agent) →
  (Forall (λ agent_id, is_Some (py_getitem agent_id (MultiAgentPolicy.policy self)))
          (py_keys state_by_agent) →
   ∃ d, foldM body [] state_by_agent self = (inr d, self, []) ∧
        Forall2 (λ item entry,
                   entry.1 = item.1 ∧
                   ∃ ref, py_getitem item.1 (MultiAgentPolicy.policy self) = Some ref ∧
                          entry.2 = expected_action self item.1 item.2 ref)
                state_by_agent d) ∧
  (∀ agent_id, agent_id ∈ py_keys state_by_agent →
     py_getitem agent_id (MultiAgentPolicy.policy self) = None →
     ∃ key, foldM body [] state_by_agent self = (inl (KeyError key), self, [])).
Proof.
  intros Hbody Hnodup.
  destruct (comprehension_run self (entry_of self) body Hbody state_by_agent [] Hnodup)
    as [Hall Hsome].
  split.
  - intros Hknown. destruct Hall as (d & Hrun & Hentries).
    { unfold py_keys in Hknown. rewrite Forall_fmap in Hknown.
      eapply Forall_impl; [exact Hknown|]. intros item [ref Href]. unfold entry_of.
      simpl in Href. rewrite Href. by eexists. }
    exists d. split; [exact Hrun|]. eapply Forall2_impl; [exact Hentries|].
    intros item entry [Hkey Hentry]. split; [done|]. unfold entry_of in Hentry.
    destruct (py_getitem item.1 (MultiAgentPolicy.policy self)) as [ref|]; [|done].
    exists ref. split; [done|]. by injection Hentry as <-.
  - intros agent_id [item [-> Hitem]]%list_elem_of_fmap Hnone.
    destruct (Hsome item Hitem) as (key & _ & Hrun).
    { unfold entry_of. by rewrite Hnone. }
    by exists key.
Qed.

(** X22: what [choose_action] returns.  On a wrapper that has the
    attributes its constructor sets, for distinct agents: if every agent of
    [state_by_agent] has a policy, [choose_action] returns one action per
    agent, in the order of [state_by_agent], changes nothing, and the
    action of an agent is the one its policy object chooses for the
    agent's state, passed through the agent's exploration exactly when
    explorations were given, are switched on ([train_mode]) and one is
    registered for the agent.  If some agent has no policy, it raises
    [KeyError] and changes nothing. *)
Theorem multi_agent_choose_action self (state_by_agent : pydict AgentState) :
  ready self → NoDup (py_keys state_by_agent) →
  (Forall (λ agent_id, is_Some (py_getitem agent_id (MultiAgentPolicy.policy self)))
          (py_keys state_by_agent) →
   ∃ d, MultiAgentPolicy.choose_action state_by_agent self = (inr d, self, []) ∧
        Forall2 (λ item entry,
                   entry.1 = item.1 ∧
                   ∃ ref, py_getitem item.1 (MultiAgentPolicy.policy self) = Some ref ∧
                          entry.2 = expected_action self item.1 item.2 ref)
                state_by_agent d) ∧
  (∀ agent_id, agent_id ∈ py_keys state_by_agent →
     py_getitem agent_id (MultiAgentPolicy.policy self) = None →
     ∃ key, MultiAgentPolicy.choose_action state_by_agent self = (inl (KeyError key), self, [])).
Proof.
  intros Hready Hnodup. unfold MultiAgentPolicy.choose_action. mstep.
  unfold ready in Hready.
  destruct (MultiAgentPolicy.truthy (MultiAgentPolicy.exploration_dict self)) eqn:Htruthy.
  - destruct (Hready eq_refl) as [[w Hw] [exploration Hexploration]].
    mstep. rewrite Hw. simpl orraise. mstep. destruct w.
    + apply actions_run; [|done]. intros d item.
      apply (explored_action_run self d item exploration Hexploration).
      unfold explorer_of. by rewrite Htruthy, Hw, Hexploration.
    + apply actions_run; [|done]. intros d item. apply plain_action_run.
      unfold explorer_of. by rewrite Htruthy, Hw.
  - mstep. apply actions_run; [|done]. intros d item. apply plain_action_run.
    unfold explorer_of. by rewrite Htruthy.
Qed.

Lemma forallb_keys (own loaded : list string) :
  forallb (λ key, bool_decide (key ∈ own)) loaded = true ↔ loaded ⊆ own.
Proof.
  induction loaded as [|key loaded IHloaded]; simpl.
  - split; [set_solver|done].
  - rewrite andb_true_iff, bool_decide_eq_true, IHloaded. set_solver.
Qed.

Lemma load_policy_run self (item : string * nat) ref :
  py_getitem item.1 (MultiAgentPolicy.policy_dict self) = Some ref →
  MultiAgentPolicy.load_policy tt item self
  = (inr tt,
     MultiAgentPolicy.set_policy_at ref
       (object_update (MultiAgentPolicy.policy_at (MultiAgentPolicy.objects self) ref)
          (MultiAgentPolicy.policy_at (MultiAgentPolicy.objects self) item.2)) self,
     []).
Proof. intros Href. unfold MultiAgentPolicy.load_policy. mstep. rewrite Href. by mstep. Qed.

Lemma load_loop_run (loaded : pydict nat) self :
  py_keys loaded ⊆ py_keys (MultiAgentPolicy.policy_dict self) →
  ∃ h, foldM MultiAgentPolicy.load_policy tt loaded self
       = (inr tt, MultiAgentPolicy.set_objects h self, []) ∧
       MultiAgentPolicy.is_core h = MultiAgentPolicy.is_core (MultiAgentPolicy.objects self) ∧
       MultiAgentPolicy.exploration_at h
       = MultiAgentPolicy.exploration_at (MultiAgentPolicy.objects self) ∧
       ∀ r, (∀ policy_id, policy_id ∈ py_keys loaded →
               py_getitem policy_id (MultiAgentPolicy.policy_dict self) ≠ Some r) →
            MultiAgentPolicy.policy_at h r
            = MultiAgentPolicy.policy_at (MultiAgentPolicy.objects self) r.
Proof.
  revert self. induction loaded as [|item loaded IHloaded]; intros self Hknown; simpl.
  { exists (MultiAgentPolicy.objects self). by destruct self. }
  assert (is_Some (py_getitem item.1 (MultiAgentPolicy.policy_dict self))) as [ref Href].
  { apply py_getitem_is_Some, Hknown. by left. }
  unfold bind. rewrite (load_policy_run self item ref Href).
  match goal with |- context [foldM _ tt loaded ?s] =>
    destruct (IHloaded s) as (h & -> & Hcore & Hexploration & Hother) end.
  { simpl. intros k Hk. apply Hknown. by right. }
  exists h. simpl in *. split_and!; [done..|].
  intros r Hr. rewrite Hother.
  - rewrite decide_False; [done|]. intros ->. apply (Hr item.1); [by left|done].
  - intros policy_id Hin. apply Hr. by right.
Qed.

(** X23: [update] checks before it loads.  If some key of the given
    dictionary is not a key of [policy_dict], [update] raises and no
    object has been changed; otherwise it returns, and has changed only
    policy objects that [policy_dict] holds under one of the given keys:
    every other policy object, every exploration and the wrapper's own
    attributes are as before. *)
Theorem multi_agent_update_checked self (loaded : pydict nat) :
  (¬ py_keys loaded ⊆ py_keys (MultiAgentPolicy.policy_dict self) →
   MultiAgentPolicy.update loaded self = (inl (Raised "Exception"), self, [])) ∧
  (py_keys loaded ⊆ py_keys (MultiAgentPolicy.policy_dict self) →
   ∃ h, MultiAgentPolicy.update loaded self
        = (inr tt, MultiAgentPolicy.set_objects h self, []) ∧
        MultiAgentPolicy.is_core h = MultiAgentPolicy.is_core (MultiAgentPolicy.objects self) ∧
        MultiAgentPolicy.exploration_at h
        = MultiAgentPolicy.exploration_at (MultiAgentPolicy.objects self) ∧
        ∀ r, (∀ policy_id, policy_id ∈ py_keys loaded →
                py_getitem policy_id (MultiAgentPolicy.policy_dict self) ≠ Some r) →
             MultiAgentPolicy.policy_at h r
             = MultiAgentPolicy.policy_at (MultiAgentPolicy.objects self) r).
Proof.
  unfold MultiAgentPolicy.update. mstep. split; intros Hkeys.
  - destruct (forallb _ (py_keys loaded)) eqn:Hall; [|done].
    by apply forallb_keys in Hall.
  - rewrite (proj2 (forallb_keys _ _) Hkeys). by apply load_loop_run.
Qed.

Lemma store_experience_run self (item : string * AgentExperiences) :
  MultiAgentPolicy.store_experience tt item self
  = match py_getitem item.1 (MultiAgentPolicy.policy self) with
    | Some ref =>
        (inr tt,
         if MultiAgentPolicy.is_core (MultiAgentPolicy.objects self) ref
         then MultiAgentPolicy.set_policy_at ref
                (object_store_experiences
                   (MultiAgentPolicy.policy_at (MultiAgentPolicy.objects self) ref) item.2) self
         else self,
         [])
    | None => (inl (KeyError item.1), self, [])
    end.
Proof.
  unfold MultiAgentPolicy.store_experience. mstep.
  destruct (py_getitem item.1 (MultiAgentPolicy.policy self)) as [ref|]; simpl orraise.
  - mstep. by destruct (MultiAgentPolicy.is_core (MultiAgentPolicy.objects self) ref).
  - by rewrite bind_raise.
Qed.

Lemma store_loop_run (exps : pydict AgentExperiences) self :
  ∃ r h,
    foldM MultiAgentPolicy.store_experience tt exps self
    = (r, MultiAgentPolicy.set_objects h self, []) ∧
    MultiAgentPolicy.is_core h = MultiAgentPolicy.is_core (MultiAgentPolicy.objects self) ∧
    MultiAgentPolicy.exploration_at h
    = MultiAgentPolicy.exploration_at (MultiAgentPolicy.objects self) ∧
    (∀ ref, MultiAgentPolicy.is_core (MultiAgentPolicy.objects self) ref = false →
            MultiAgentPolicy.policy_at h ref
            = MultiAgentPolicy.policy_at (MultiAgentPolicy.objects self) ref) ∧
    (Forall (λ agent_id, is_Some (py_getitem agent_id (MultiAgentPolicy.policy self)))
            (py_keys exps) → r = inr tt) ∧
    (∀ agent_id, agent_id ∈ py_keys exps →
       py_getitem agent_id (MultiAgentPolicy.policy self) = None →
       ∃ key, r = inl (KeyError key)).
Proof.
  revert self. induction exps as [|item exps IHexps]; intros self; simpl.
  { exists (inr tt), (MultiAgentPolicy.objects self).
    split_and!; [by destruct self|done..|]. by intros agent_id ?%elem_of_nil. }
  unfold bind. rewrite store_experience_run.
  destruct (py_getitem item.1 (MultiAgentPolicy.policy self)) as [ref|] eqn:Href.
  2: { exists (inl (KeyError item.1)), (MultiAgentPolicy.objects self).
       split_and!; [by destruct self|done..| |by eexists].
       intros [[? ?] _]%Forall_cons. congruence. }
  match goal with |- context [foldM _ tt exps ?s] =>
    destruct (IHexps s) as (r & h & -> & Hcore & Hexploration & Hfixed & Hall & Hsome) end.
  exists r, h.
  destruct (MultiAgentPolicy.is_core (MultiAgentPolicy.objects self) ref) eqn:Hkind;
    simpl in *.
  - split_and!; [done..| | |].
    + intros r' Hr'. rewrite Hfixed by done. rewrite decide_False; [done|]. congruence.
    + intros [_ Hrest]%Forall_cons. by apply Hall.
    + intros agent_id [->|Hin]%elem_of_cons Hnone; [congruence|]. by apply (Hsome agent_id).
  - split_and!; [done..| |].
    + intros [_ Hrest]%Forall_cons. by apply Hall.
    + intros agent_id [->|Hin]%elem_of_cons Hnone; [congruence|]. by apply (Hsome agent_id).
Qed.

Lemma learn_loop_run (pd : pydict nat) learned self :
  ∃ new h tr,
    foldM MultiAgentPolicy.learn_policy learned pd self
    = (inr (learned ++ new), MultiAgentPolicy.set_objects h self, tr) ∧
    learn_calls tr = core_policies (MultiAgentPolicy.objects self) pd ∧
    sublist new (learn_calls tr) ∧
    MultiAgentPolicy.is_core h = MultiAgentPolicy.is_core (MultiAgentPolicy.objects self) ∧
    MultiAgentPolicy.exploration_at h
    = MultiAgentPolicy.exploration_at (MultiAgentPolicy.objects self) ∧
    (∀ ref, MultiAgentPolicy.is_core (MultiAgentPolicy.objects self) ref = false →
            MultiAgentPolicy.policy_at h ref
            = MultiAgentPolicy.policy_at (MultiAgentPolicy.objects self) ref).
Proof.
  revert learned self. induction pd as [|item pd IHpd]; intros learned self; simpl.
  { exists [], (MultiAgentPolicy.objects self), []. rewrite app_nil_r.
    split_and!; [by destruct self|done..]. }
  unfold MultiAgentPolicy.learn_policy at 1. mstep.
  destruct (MultiAgentPolicy.is_core (MultiAgentPolicy.objects self) item.2) eqn:Hkind.
  - mstep. unfold bind at 1, emit at 1. cbv beta iota. mstep.
    match goal with |- context [foldM _ ?l pd ?s] =>
      destruct (IHpd l s) as (new & h & tr & -> & Hcalls & Hsub & Hcore & Hexploration & Hfixed)
    end.
    simpl in *.
    destruct (object_learn (MultiAgentPolicy.policy_at (MultiAgentPolicy.objects self) item.2)).2.
    + exists (item.1 :: new), h, (EvLearn item.1 None :: tr).
      rewrite <-(assoc_L (++)).
      change (learn_calls (EvLearn item.1 None :: tr)) with (item.1 :: learn_calls tr).
      split_and!; [done|by rewrite Hcalls|by apply sublist_skip|done|done|].
      intros r Hr. rewrite Hfixed by done. rewrite decide_False; [done|]. congruence.
    + exists new, h, (EvLearn item.1 None :: tr).
      change (learn_calls (EvLearn item.1 None :: tr)) with (item.1 :: learn_calls tr).
      split_and!; [done|by rewrite Hcalls|by apply sublist_cons|done|done|].
      intros r Hr. rewrite Hfixed by done. rewrite decide_False; [done|]. congruence.
  - mstep.
    destruct (IHpd learned self)
      as (new & h & tr & -> & Hcalls & Hsub & Hcore & Hexploration & Hfixed).
    by exists new, h, tr.
Qed.

(** X24: [on_new_experiences] lets every core policy learn.  When every
    agent of [experiences_by_agent] has a policy, the call returns after
    calling [learn] exactly once on every entry of [policy_dict] that is an
    [AbsCorePolicy], in the order of [policy_dict], whether or not the
    policy got experiences in this call; the names it returns are among
    those, in the same order.  Objects that are not core policies and the
    explorations are not changed.  With an agent that has no policy it
    raises [KeyError] and no policy has learned. *)
Theorem multi_agent_on_new_experiences self (experiences_by_agent : pydict AgentExperiences) :
  (Forall (λ agent_id, is_Some (py_getitem agent_id (MultiAgentPolicy.policy self)))
          (py_keys experiences_by_agent) →
   ∃ learned h tr,
     MultiAgentPolicy.on_new_experiences experiences_by_agent self
     = (inr learned, MultiAgentPolicy.set_objects h self, tr) ∧
     learn_calls tr
     = core_policies (MultiAgentPolicy.objects self) (MultiAgentPolicy.policy_dict self) ∧
     sublist learned (learn_calls tr) ∧
     MultiAgentPolicy.is_core h = MultiAgentPolicy.is_core (MultiAgentPolicy.objects self) ∧
     MultiAgentPolicy.exploration_at h
     = MultiAgentPolicy.exploration_at (MultiAgentPolicy.objects self) ∧
     ∀ ref, MultiAgentPolicy.is_core (MultiAgentPolicy.objects self) ref = false →
            MultiAgentPolicy.policy_at h ref
            = MultiAgentPolicy.policy_at (MultiAgentPolicy.objects self) ref) ∧
  (∀ agent_id, agent_id ∈ py_keys experiences_by_agent →
     py_getitem agent_id (MultiAgentPolicy.policy self) = None →
     ∃ key, result (MultiAgentPolicy.on_new_experiences experiences_by_agent self)
            = inl (KeyError key) ∧
            trace (MultiAgentPolicy.on_new_experiences experiences_by_agent self) = []).
Proof.
  destruct (store_loop_run experiences_by_agent self)
    as (r & h1 & Hstore & Hcore1 & Hexploration1 & Hfixed1 & Hall & Hsome).
  assert (MultiAgentPolicy.on_new_experiences experiences_by_agent self
          = match r with
            | inl e => (inl e, MultiAgentPolicy.set_objects h1 self, [])
            | inr _ => foldM MultiAgentPolicy.learn_policy [] (MultiAgentPolicy.policy_dict self)
                         (MultiAgentPolicy.set_objects h1 self)
            end) as ->.
  { unfold MultiAgentPolicy.on_new_experiences. unfold bind at 1. rewrite Hstore.
    destruct r as [e|[]]; [done|]. mstep. simpl.
    by destruct (foldM MultiAgentPolicy.learn_policy [] _ _) as [[? ?] ?]. }
  split.
  - intros Hknown. rewrite (Hall Hknown).
    destruct (learn_loop_run (MultiAgentPolicy.policy_dict self) []
                (MultiAgentPolicy.set_objects h1 self))
      as (new & h & tr & -> & Hcalls & Hsub & Hcore & Hexploration & Hfixed).
    simpl in *. exists new, h, tr. rewrite Hcore1 in *.
    split_and!; [done|by rewrite Hcalls; unfold core_policies; rewrite Hcore1|done|done|
                 by rewrite Hexploration|].
    intros ref Href. by rewrite Hfixed, Hfixed1.
  - intros agent_id Hin Hnone. destruct (Hsome agent_id Hin Hnone) as [key ->].
    by exists key.
Qed.

(** X25: evaluation mode never explores.  After [eval_mode], which
    changes nothing but the switch, [choose_action] returns for every
    agent the action chosen by its policy object itself, whatever
    explorations the wrapper was given. *)
Theorem multi_agent_eval_mode self (state_by_agent : pydict AgentState) :
  NoDup (py_keys state_by_agent) →
  Forall (λ agent_id, is_Some (py_getitem agent_id (MultiAgentPolicy.policy self)))
         (py_keys state_by_agent) →
  MultiAgentPolicy.eval_mode self
  = (inr tt, MultiAgentPolicy.set_with_exploration false self, []) ∧
  ∃ d, MultiAgentPolicy.choose_action state_by_agent
         (MultiAgentPolicy.set_with_exploration false self)
       = (inr d, MultiAgentPolicy.set_with_exploration false self, []) ∧
       Forall2 (λ item entry,
                  entry.1 = item.1 ∧
                  ∃ ref, py_getitem item.1 (MultiAgentPolicy.policy self) = Some ref ∧
                         entry.2
                         = object_choose_action
                             (MultiAgentPolicy.policy_at (MultiAgentPolicy.objects self) ref)
                             item.2)
               state_by_agent d.
Proof.
  intros Hnodup Hknown. split; [done|].
  set (self' := MultiAgentPolicy.set_with_exploration false self).
  assert (∀ agent_id, explorer_of self' agent_id = None) as Hoff.
  { intros agent_id. unfold explorer_of. simpl. by rewrite andb_false_r. }
  destruct (actions_run self' MultiAgentPolicy.plain_action state_by_agent) as [Hall _];
    [intros d item; by apply plain_action_run|done|].
  destruct (Hall Hknown) as (d & Hrun & Hentries). exists d. split.
  - unfold MultiAgentPolicy.choose_action. mstep.
    destruct (MultiAgentPolicy.truthy (MultiAgentPolicy.exploration_dict self')); mstep;
      [|done].
    change (MultiAgentPolicy.with_exploration self') with (Some false). simpl orraise.
    by mstep.
  - eapply Forall2_impl; [exact Hentries|]. intros item entry (Hkey & ref & Href & ->).
    split; [done|]. exists ref. split; [done|]. unfold expected_action. by rewrite Hoff.
Qed.

Lemma step_loop_run (explorations : pydict nat) self :
  ∃ h,
    foldM (λ (_ : unit) (item : string * nat),
             modify (λ self, MultiAgentPolicy.set_exploration_at item.2
                       (explorer_step
                          (MultiAgentPolicy.exploration_at (MultiAgentPolicy.objects self) item.2))
                       self))
          tt explorations self
    = (inr tt, MultiAgentPolicy.set_objects h self, []) ∧
    MultiAgentPolicy.is_core h = MultiAgentPolicy.is_core (MultiAgentPolicy.objects self) ∧
    MultiAgentPolicy.policy_at h = MultiAgentPolicy.policy_at (MultiAgentPolicy.objects self) ∧
    (∀ ref, ref ∉ explorations.*2 →
            MultiAgentPolicy.exploration_at h ref
            = MultiAgentPolicy.exploration_at (MultiAgentPolicy.objects self) ref) ∧
    (NoDup explorations.*2 → ∀ ref, ref ∈ explorations.*2 →
       MultiAgentPolicy.exploration_at h ref
       = explorer_step (MultiAgentPolicy.exploration_at (MultiAgentPolicy.objects self) ref)).
Proof.
  revert self. induction explorations as [|item explorations IHexplorations]; intros self.
  { exists (MultiAgentPolicy.objects self). simpl.
    split_and!; [by destruct self|done..|]. by intros _ ref ?%elem_of_nil. }
  simpl foldM. rewrite bind_modify.
  match goal with |- context [foldM _ tt explorations ?s] =>
    destruct (IHexplorations s) as (h & -> & Hcore & Hpolicies & Hother & Hstepped) end.
  exists h. simpl in *. split_and!; [done..| |].
  - intros ref [Hne Hnotin]%not_elem_of_cons. rewrite Hother by done.
    by rewrite decide_False.
  - intros [Hfresh Hnodup]%NoDup_cons ref [->|Hin]%elem_of_cons.
    + rewrite Hother by done. by rewrite decide_True.
    + rewrite (Hstepped Hnodup ref Hin). rewrite decide_False; [done|]. by intros ->.
Qed.

(** X26: [exploration_step] steps the explorations and nothing else.  It
    returns, leaves every policy object and the wrapper's attributes as
    they are, and changes only exploration objects held by
    [exploration_dict]; when these are distinct objects, each is stepped
    exactly once.  Without explorations ([None] or an empty dictionary)
    nothing changes. *)
Theorem multi_agent_exploration_step self :
  let explorations := default [] (MultiAgentPolicy.exploration_dict self) in
  ∃ h,
    MultiAgentPolicy.exploration_step self = (inr tt, MultiAgentPolicy.set_objects h self, []) ∧
    MultiAgentPolicy.is_core h = MultiAgentPolicy.is_core (MultiAgentPolicy.objects self) ∧
    MultiAgentPolicy.policy_at h = MultiAgentPolicy.policy_at (MultiAgentPolicy.objects self) ∧
    (∀ ref, ref ∉ explorations.*2 →
            MultiAgentPolicy.exploration_at h ref
            = MultiAgentPolicy.exploration_at (MultiAgentPolicy.objects self) ref) ∧
    (NoDup explorations.*2 → ∀ ref, ref ∈ explorations.*2 →
       MultiAgentPolicy.exploration_at h ref
       = explorer_step (MultiAgentPolicy.exploration_at (MultiAgentPolicy.objects self) ref)).
Proof.
  intros explorations. unfold MultiAgentPolicy.exploration_step. mstep.
  destruct (MultiAgentPolicy.truthy (MultiAgentPolicy.exploration_dict self)) eqn:Htruthy.
  - apply step_loop_run.
  - exists (MultiAgentPolicy.objects self).
    assert (explorations = []) as ->.
    { unfold explorations.
      by destruct (MultiAgentPolicy.exploration_dict self) as [[|? ?]|]. }
    split_and!; [by destruct self|done..|]. by intros _ ref ?%elem_of_nil.
Qed.

End MultiAgent.

(** ** The managers of the examples *)

Lemma process_manager_AB_init :
  MultiProcessPolicyManager.__init__ (policies_AB false) 1 {["A"; "B"]} None None false
  = (inr process_manager_AB,
     [EvStart (PI:=counting false) "TRAINER.0" ["A"; "B"] [("A", 0%nat); ("B", 0%nat)]]).
Proof. vm_compute. reflexivity. Qed.

Lemma node_manager_AB_init :
  MultiNodePolicyManager.__init__ (policies_AB false) ["TRAINER.0"] 1 None None false
    ["TRAINER.0"]
  = (inr node_manager_AB,
     [EvSend (PI:=counting false) "TRAINER.0"
        (MsgInitPolicyState (PI:=counting false) [("A", 0%nat); ("B", 0%nat)]);
      EvAck (PI:=counting false) "TRAINER.0"]).
Proof. vm_compute. reflexivity. Qed.

(** ** Further statements at concrete managers *)

Lemma local_update_unconfigured_policy_witness :
  let self := local_manager (PI:=counting false) [("A", fresh)] in
  let exps := [("A", batch false 1); ("B", batch false 1)] in
  "B" ∈ exps.*1 ∧
  (py_getitem "B" (AbsPolicyManager.policy_dict (LocalPolicyManager.base self)) = None ∨
   AbsPolicyManager.update_trigger (LocalPolicyManager.base self) !! "B" = None) ∧
  (∃ e, result (LocalPolicyManager.update exps self) = inl e) ∧
  LocalPolicyManager.version (state (LocalPolicyManager.update exps self))
  = LocalPolicyManager.version self.
Proof.
  assert ("B" ∈ ([("A", batch false 1); ("B", batch false 1)]
                   : pydict (ExperienceSet (PI:=counting false))).*1) as Hin.
  { apply list_elem_of_further, list_elem_of_here. }
  split_and!; [exact Hin|by left|..].
  - apply (local_update_unconfigured_policy (PI:=counting false) _ _ "B" Hin). by left.
  - apply (local_update_unconfigured_policy (PI:=counting false) _ _ "B" Hin). by left.
Defined.


Lemma local_get_state_returns_witness :
  let self := local_manager (PI:=counting false) [("A", fresh); ("B", fresh)] in
  let rounds := [[("A", batch false 1)]; [("C", batch false 1)]] in
  LocalPolicyManager.__init__ (policies_AB false) None None false = inr self ∧
  (∀ v, Some 0 = Some v → -1 <= v) ∧
  ∃ d, LocalPolicyManager.get_state (Some 0) (LocalPolicyManager.update_rounds rounds self).1
       = (inr d, (LocalPolicyManager.update_rounds rounds self).1, []).
Proof.
  assert (∀ v : Z, Some 0 = Some v → -1 <= v) as Hlow by (intros v [= <-]; lia).
  split_and!; [reflexivity|exact Hlow|].
  apply (local_get_state_returns (PI:=counting false) (policies_AB false) None None false
           _ [[("A", batch false 1)]; [("C", batch false 1)]] (Some 0) eq_refl Hlow).
Defined.


Lemma get_state_up_to_date_witness :
  let self := LocalPolicyManager.base manager_ABA in
  AbsPolicyManager.version self <= 5 ∧
  AbsPolicyManager.get_state (Some 5) self = (inr ∅, self, []).
Proof.
  assert (AbsPolicyManager.version (LocalPolicyManager.base manager_ABA) <= 5) as Hlate
    by (by vm_compute).
  split; [exact Hlate|].
  apply (get_state_up_to_date (PI:=counting false) (LocalPolicyManager.base manager_ABA) 5 Hlate).
Defined.

Lemma get_state_index_error_witness :
  let self := LocalPolicyManager.base manager_ABA in
  -6 < - AbsPolicyManager.version self - 2 ∧
  result (AbsPolicyManager.get_state (Some (-6)) self) = inl IndexError.
Proof.
  assert (-6 < - AbsPolicyManager.version (LocalPolicyManager.base manager_ABA) - 2) as Hlow
    by (by vm_compute).
  split; [exact Hlow|].
  apply (get_state_index_error (PI:=counting false) (LocalPolicyManager.base manager_ABA)
           (-6) Hlow).
Defined.

Lemma get_state_monotone_witness :
  let self := LocalPolicyManager.base manager_ABA in
  let d_older : gmap string nat := {["A" := 2%nat; "B" := 1%nat]} in
  let d_newer : gmap string nat := {["A" := 2%nat]} in
  history_known self ∧
  - AbsPolicyManager.version self - 2 <= 0 ∧ 0 <= 2 ∧
  result (AbsPolicyManager.get_state (Some 0) self) = inr d_older ∧
  result (AbsPolicyManager.get_state (Some 2) self) = inr d_newer ∧
  d_newer ⊆ d_older.
Proof.
  assert (result (AbsPolicyManager.get_state (Some 0) (LocalPolicyManager.base manager_ABA))
          = inr ({["A" := 2%nat; "B" := 1%nat]} : gmap string nat)) as Holder
    by (vm_compute; reflexivity).
  assert (result (AbsPolicyManager.get_state (Some 2) (LocalPolicyManager.base manager_ABA))
          = inr ({["A" := 2%nat]} : gmap string nat)) as Hnewer
    by (vm_compute; reflexivity).
  split_and!; [apply manager_ABA_known|by vm_compute|lia|exact Holder|exact Hnewer|].
  apply (get_state_monotone (PI:=counting false) (LocalPolicyManager.base manager_ABA) 0 2 _ _
           manager_ABA_known ltac:(by vm_compute) ltac:(lia) Holder Hnewer).
Defined.

Lemma multi_process_partition_witness :
  NoDup (py_keys (policies_AB false)) ∧
  MultiProcessPolicyManager.__init__ (policies_AB false) 1 {["A"; "B"]} None None false
  = (inr process_manager_AB,
     [EvStart (PI:=counting false) "TRAINER.0" ["A"; "B"] [("A", 0%nat); ("B", 0%nat)]]) ∧
  MultiProcessPolicyManager._manager_end process_manager_AB
  = py_keys (MultiProcessPolicyManager._trainer2policies process_manager_AB) ∧
  started [EvStart (PI:=counting false) "TRAINER.0" ["A"; "B"] [("A", 0%nat); ("B", 0%nat)]]
  = MultiProcessPolicyManager._trainer2policies process_manager_AB.
Proof.
  assert (NoDup (py_keys (policies_AB false))) as Hnodup by compute_done.
  split_and!; [exact Hnodup|exact process_manager_AB_init|..].
  - apply (multi_process_partition (PI:=counting false) (policies_AB false) 1 {["A"; "B"]}
             None None false _ _ Hnodup process_manager_AB_init).
  - apply (multi_process_partition (PI:=counting false) (policies_AB false) 1 {["A"; "B"]}
             None None false _ _ Hnodup process_manager_AB_init).
Defined.

Lemma multi_process_trainer_count_witness :
  0 < 5 ∧
  ∃ self tr,
    MultiProcessPolicyManager.__init__ policies_ABC 5 {["A"; "B"; "C"]} None None false
    = (inr self, tr) ∧
    MultiProcessPolicyManager._manager_end self = trainer_pool 3 ∧
    (started tr).*1 = trainer_pool 3.
Proof.
  split; [lia|].
  assert (∃ self tr,
            MultiProcessPolicyManager.__init__ policies_ABC 5 {["A"; "B"; "C"]} None None false
            = (inr self, tr)) as (self & tr & Hinit)
    by (eexists _, _; vm_compute; reflexivity).
  exists self, tr. split; [exact Hinit|].
  apply (multi_process_trainer_count (PI:=counting false) policies_ABC 5 {["A"; "B"; "C"]}
           None None false self tr ltac:(lia) Hinit).
Defined.

Lemma multi_process_zero_trainers_witness :
  Forall (λ item, ∃ p, item.2 = Core (PI:=counting false) p) (policies_AB false) ∧
  policies_AB false ≠ [] ∧
  MultiProcessPolicyManager.__init__ (policies_AB false) 0 {["A"; "B"]} None None false
  = (inl ZeroDivisionError, []).
Proof.
  assert (Forall (λ item, ∃ p, item.2 = Core (PI:=counting false) p) (policies_AB false))
    as Hcore.
  { repeat first [apply Forall_nil_2 | apply Forall_cons_2]; by eexists. }
  split_and!; [exact Hcore|done|].
  apply (multi_process_zero_trainers (PI:=counting false) (policies_AB false) {["A"; "B"]}
           None None false Hcore). done.
Defined.

Lemma multi_process_missing_creator_witness :
  NoDup (py_keys (policies_AB false)) ∧ 1 ≠ 0 ∧
  Forall (λ item, ∃ p, item.2 = Core (PI:=counting false) p) (policies_AB false) ∧
  "B" ∈ py_keys (policies_AB false) ∧ ("B" ∉ ({["A"]} : gset string)) ∧
  ∃ key, (MultiProcessPolicyManager.__init__ (policies_AB false) 1 {["A"]} None None false).1
         = inl (KeyError key).
Proof.
  assert (NoDup (py_keys (policies_AB false))) as Hnodup by compute_done.
  assert (Forall (λ item, ∃ p, item.2 = Core (PI:=counting false) p) (policies_AB false))
    as Hcore.
  { repeat first [apply Forall_nil_2 | apply Forall_cons_2]; by eexists. }
  assert ("B" ∈ py_keys (policies_AB false)) as Hin.
  { apply list_elem_of_further, list_elem_of_here. }
  assert ("B" ∉ ({["A"]} : gset string)) as Hout by compute_done.
  split_and!; [exact Hnodup|lia|exact Hcore|exact Hin|exact Hout|].
  apply (multi_process_missing_creator (PI:=counting false) (policies_AB false) 1 {["A"]}
           None None false "B" Hnodup ltac:(lia) Hcore Hin Hout).
Defined.


Lemma distributed_update_barrier_witness :
  let exps := [("A", batch false 1); ("B", batch false 2)] in
  (result (MultiProcessPolicyManager.update exps [reply_AB] process_manager_AB) = inr tt ∧
   sent_to (trace (MultiProcessPolicyManager.update exps [reply_AB] process_manager_AB))
   = ["TRAINER.0"] ∧
   received (trace (MultiProcessPolicyManager.update exps [reply_AB] process_manager_AB))
   = [reply_AB]) ∧
  (result (MultiNodePolicyManager.update exps [reply_AB] node_manager_AB) = inr tt ∧
   sent_to (trace (MultiNodePolicyManager.update exps [reply_AB] node_manager_AB))
   = ["TRAINER.0"] ∧
   received (trace (MultiNodePolicyManager.update exps [reply_AB] node_manager_AB))
   = [reply_AB]).
Proof.
  split; (split; [vm_compute; reflexivity|]).
  - destruct (proj1 (distributed_update_barrier (PI:=counting false)
                       [("A", batch false 1); ("B", batch false 2)] [reply_AB])
                process_manager_AB ltac:(vm_compute; reflexivity)) as (Hto & Hfrom & _).
    split; [exact Hto|exact Hfrom].
  - destruct (proj2 (distributed_update_barrier (PI:=counting false)
                       [("A", batch false 1); ("B", batch false 2)] [reply_AB])
                node_manager_AB ltac:(vm_compute; reflexivity)) as (Hto & Hfrom & _).
    split; [exact Hto|exact Hfrom].
Defined.

Lemma multi_node_handshake_witness :
  NoDup (py_keys policies_ABC) ∧
  ∃ self tr,
    MultiNodePolicyManager.__init__ policies_ABC ["W0"; "W1"] 2 None None false ["W1"; "W0"]
    = (inr self, tr) ∧
    NoDup (sent_to tr) ∧
    acked tr = take (length (sent_to tr)) ["W1"; "W0"] ∧
    (length (sent_to tr) ≤ 2)%nat.
Proof.
  assert (NoDup (py_keys policies_ABC)) as Hnodup by compute_done.
  split; [exact Hnodup|].
  assert (∃ self tr,
            MultiNodePolicyManager.__init__ policies_ABC ["W0"; "W1"] 2 None None false
              ["W1"; "W0"]
            = (inr self, tr)) as (self & tr & Hinit)
    by (eexists _, _; vm_compute; reflexivity).
  exists self, tr. split; [exact Hinit|].
  apply (multi_node_handshake (PI:=counting false) policies_ABC ["W0"; "W1"] 2 None None false
           ["W1"; "W0"] self tr Hnodup Hinit).
Defined.

Lemma wrapper_ab_init :
  MultiAgentPolicy.__init__ (WO:=counting_objects)
    [("core", 0%nat); ("fixed", 1%nat)] [("a", "core"); ("b", "fixed")]
    (Some [("noise", 0%nat)]) (Some [("a", "noise")]) two_objects
  = inr wrapper_ab.
Proof. reflexivity. Qed.

Lemma multi_agent_construction_witness :
  NoDup (py_keys [("a", "core"); ("b", "fixed")]) ∧
  (∀ names, Some [("a", "noise")] = Some names → NoDup (py_keys names)) ∧
  composes [("core", 0%nat); ("fixed", 1%nat)] [("a", "core"); ("b", "fixed")]
    (MultiAgentPolicy.policy wrapper_ab) ∧
  MultiAgentPolicy.with_exploration wrapper_ab = Some true.
Proof.
  assert (NoDup (py_keys [("a", "core"); ("b", "fixed")])) as Hagents by compute_done.
  assert (∀ names : pydict string, Some [("a", "noise")] = Some names → NoDup (py_keys names))
    as Hexplorers by (intros names [= <-]; compute_done).
  split_and!; [exact Hagents|exact Hexplorers|..].
  - apply (proj2 (multi_agent_construction (WO:=counting_objects)
                    [("core", 0%nat); ("fixed", 1%nat)] [("a", "core"); ("b", "fixed")]
                    (Some [("noise", 0%nat)]) (Some [("a", "noise")]) two_objects
                    Hagents Hexplorers) wrapper_ab wrapper_ab_init).
  - apply (proj2 (multi_agent_construction (WO:=counting_objects)
                    [("core", 0%nat); ("fixed", 1%nat)] [("a", "core"); ("b", "fixed")]
                    (Some [("noise", 0%nat)]) (Some [("a", "noise")]) two_objects
                    Hagents Hexplorers) wrapper_ab wrapper_ab_init).
Defined.

Lemma multi_agent_choose_action_witness :
  let state_by_agent : pydict (AgentState (WrappedObjects:=counting_objects)) :=
    [("a", 5%nat); ("b", 7%nat)] in
  ready wrapper_ab ∧ NoDup (py_keys state_by_agent) ∧
  Forall (λ agent_id, is_Some (py_getitem agent_id
                                 (MultiAgentPolicy.policy wrapper_ab)))
         (py_keys state_by_agent) ∧
  ∃ d, MultiAgentPolicy.choose_action (PI:=counting false) state_by_agent wrapper_ab
       = (inr d, wrapper_ab, []) ∧
       Forall2 (λ item entry,
                  entry.1 = item.1 ∧
                  ∃ ref, py_getitem item.1 (MultiAgentPolicy.policy wrapper_ab) = Some ref ∧
                         entry.2 = expected_action wrapper_ab item.1 item.2 ref)
               state_by_agent d.
Proof.
  assert (ready wrapper_ab) as Hready by (intros _; split; by eexists).
  assert (NoDup (py_keys ([("a", 5%nat); ("b", 7%nat)]
                            : pydict (AgentState (WrappedObjects:=counting_objects)))))
    as Hnodup by compute_done.
  assert (Forall (λ agent_id, is_Some (py_getitem agent_id
                                         (MultiAgentPolicy.policy wrapper_ab)))
                 (py_keys ([("a", 5%nat); ("b", 7%nat)]
                             : pydict (AgentState (WrappedObjects:=counting_objects)))))
    as Hknown.
  { repeat first [apply Forall_nil_2 | apply Forall_cons_2]; by eexists. }
  split_and!; [exact Hready|exact Hnodup|exact Hknown|].
  apply (proj1 (multi_agent_choose_action (PI:=counting false) (WO:=counting_objects)
                  wrapper_ab [("a", 5%nat); ("b", 7%nat)] Hready Hnodup) Hknown).
Defined.

Lemma multi_agent_eval_mode_witness :
  let state_by_agent : pydict (AgentState (WrappedObjects:=counting_objects)) :=
    [("a", 5%nat); ("b", 7%nat)] in
  NoDup (py_keys state_by_agent) ∧
  Forall (λ agent_id, is_Some (py_getitem agent_id
                                 (MultiAgentPolicy.policy wrapper_ab)))
         (py_keys state_by_agent) ∧
  MultiAgentPolicy.eval_mode (PI:=counting false) wrapper_ab
  = (inr tt, MultiAgentPolicy.set_with_exploration false wrapper_ab, []).
Proof.
  assert (NoDup (py_keys ([("a", 5%nat); ("b", 7%nat)]
                            : pydict (AgentState (WrappedObjects:=counting_objects)))))
    as Hnodup by compute_done.
  assert (Forall (λ agent_id, is_Some (py_getitem agent_id
                                         (MultiAgentPolicy.policy wrapper_ab)))
                 (py_keys ([("a", 5%nat); ("b", 7%nat)]
                             : pydict (AgentState (WrappedObjects:=counting_objects)))))
    as Hknown.
  { repeat first [apply Forall_nil_2 | apply Forall_cons_2]; by eexists. }
  split_and!; [exact Hnodup|exact Hknown|].
  apply (multi_agent_eval_mode (PI:=counting false) (WO:=counting_objects)
           wrapper_ab [("a", 5%nat); ("b", 7%nat)] Hnodup Hknown).
Defined.

Lemma multi_agent_update_checked_witness :
  let loaded : pydict nat := [("fixed", 0%nat)] in
  py_keys loaded ⊆ py_keys (MultiAgentPolicy.policy_dict wrapper_ab) ∧
  ∃ h, MultiAgentPolicy.update (PI:=counting false) loaded wrapper_ab
       = (inr tt, MultiAgentPolicy.set_objects h wrapper_ab, []) ∧
       MultiAgentPolicy.policy_at h 0%nat
       = MultiAgentPolicy.policy_at (MultiAgentPolicy.objects wrapper_ab) 0%nat.
Proof.
  assert (py_keys ([("fixed", 0%nat)] : pydict nat)
          ⊆ py_keys (MultiAgentPolicy.policy_dict wrapper_ab)) as Hkeys.
  { intros key ->%list_elem_of_singleton. apply list_elem_of_further, list_elem_of_here. }
  split; [exact Hkeys|].
  destruct (proj2 (multi_agent_update_checked (PI:=counting false) (WO:=counting_objects)
                     wrapper_ab [("fixed", 0%nat)]) Hkeys) as (h & Hrun & _ & _ & Hother).
  exists h. split; [exact Hrun|]. apply Hother.
  intros policy_id ->%list_elem_of_singleton. discriminate.
Defined.

Lemma multi_agent_on_new_experiences_witness :
  let experiences_by_agent : pydict (AgentExperiences (WrappedObjects:=counting_objects)) :=
    [("b", 3%nat)] in
  Forall (λ agent_id, is_Some (py_getitem agent_id (MultiAgentPolicy.policy wrapper_ab)))
         (py_keys experiences_by_agent) ∧
  ∃ learned h tr,
    MultiAgentPolicy.on_new_experiences (PI:=counting false) experiences_by_agent wrapper_ab
    = (inr learned, MultiAgentPolicy.set_objects h wrapper_ab, tr) ∧
    learn_calls tr = ["core"] ∧ sublist learned (learn_calls tr).
Proof.
  assert (Forall (λ agent_id, is_Some (py_getitem agent_id (MultiAgentPolicy.policy wrapper_ab)))
                 (py_keys ([("b", 3%nat)]
                             : pydict (AgentExperiences (WrappedObjects:=counting_objects)))))
    as Hknown.
  { repeat first [apply Forall_nil_2 | apply Forall_cons_2]; by eexists. }
  split; [exact Hknown|].
  destruct (proj1 (multi_agent_on_new_experiences (PI:=counting false) (WO:=counting_objects)
                     wrapper_ab [("b", 3%nat)]) Hknown)
    as (learned & h & tr & Hrun & Hcalls & Hsub & _).
  exists learned, h, tr. split_and!; [exact Hrun|exact Hcalls|exact Hsub].
Defined.

(** The wrapper on the example: agent ["a"] explores (policy 0 offers
    0 + 5, the exploration adds 10), agent ["b"] does not; in evaluation
    mode nobody does; only the core policy learns, and it reports success
    once it holds experiences. *)
Example multi_agent_example :
  result (MultiAgentPolicy.choose_action (PI:=counting false) (WO:=counting_objects)
            [("a", 5%nat); ("b", 7%nat)] wrapper_ab)
  = inr [("a", 15%nat); ("b", 8%nat)] ∧
  result (MultiAgentPolicy.choose_action (PI:=counting false) (WO:=counting_objects)
            [("a", 5%nat); ("b", 7%nat)] (MultiAgentPolicy.set_with_exploration false wrapper_ab))
  = inr [("a", 5%nat); ("b", 8%nat)] ∧
  result (MultiAgentPolicy.on_new_experiences (PI:=counting false) (WO:=counting_objects)
            [("b", 3%nat)] wrapper_ab) = inr [] ∧
  result (MultiAgentPolicy.on_new_experiences (PI:=counting false) (WO:=counting_objects)
            [("a", 3%nat)] wrapper_ab) = inr ["core"] ∧
  learn_calls (trace (MultiAgentPolicy.on_new_experiences (PI:=counting false)
                        (WO:=counting_objects) [("b", 3%nat)] wrapper_ab)) = ["core"] ∧
  result (MultiAgentPolicy.update (PI:=counting false) (WO:=counting_objects)
            [("other", 1%nat)] wrapper_ab) = inl (Raised "Exception").
Proof. split_and!; reflexivity. Qed.
